(** * ICA tools: orchestration and monitoring engine

    A shallow embedding of the control flow of the ICA command line tools
    (batch processor, workflow driver, status poller, monitors, name
    resolution) together with the properties stated about them.

    Conventions of the embedding.
    - Python [str] is [string]; texts are taken to be ASCII, except in
      [str.lower], which on other text is a parameter of the development.
    - A Python [dict] used as a map (the parameter set, [custom_params]) is a
      [gmap string pyval]; a [dict] used as a record (a sample-sheet row, a
      listing entry) is a [Record].
    - [None] in an [Optional[...]] is [None] of [option].
    - Everything outside the interpreter (sub-processes, files, SMTP, HTTP,
      the clock) is an explicit argument that says how the call ended, and
      every call made is recorded as an [event] in a trace, in program order.
    - An unbounded [while True] loop is driven by a finite script of replies
      of the remote side; when the script is used up the loop is still
      waiting for the next reply ([Polling]). *)

From Stdlib Require Import ZArith Ascii String List Lia Bool PrimFloat.
From stdpp Require Import base option list gmap strings pretty.

Import ListNotations.
Local Open Scope Z_scope.

(** ** Python values, exceptions and the observable events *)

(** The scalar values that occur in parameter sets: JSON scalars. *)
Inductive pyval : Type :=
  | PStr (s : string)
  | PBool (b : bool)
  | PInt (z : Z)
  | PNone.

#[global] Instance pyval_eq_dec : EqDecision pyval.
Proof. solve_decision. Defined.

(** The exception classes the code tells apart in its [except] clauses;
    everything else that derives from [Exception] is [OtherError]. *)
Inductive exn_class : Type :=
  | FileNotFoundError
  | RuntimeError
  | OtherError.

#[global] Instance exn_class_eq_dec : EqDecision exn_class.
Proof. solve_decision. Defined.

(** An exception: its class and [str(e)]. *)
Record exn : Type := Exn { exn_cls : exn_class; exn_str : string }.

#[global] Instance exn_eq_dec : EqDecision exn.
Proof. solve_decision. Defined.

(** One entry of [results.json]: the dict returned by [process_sample]. *)
Record result_row : Type := ResultRow {
  res_sample_id : string;
  res_status : string;
  res_error : option string;
  res_timestamp : string
}.

#[global] Instance result_row_eq_dec : EqDecision result_row.
Proof. solve_decision. Defined.

(** The content of [summary.json]. *)
Record summary : Type := Summary {
  total_samples : nat;
  completed : nat;
  failed : nat;
  sum_timestamp : string
}.

#[global] Instance summary_eq_dec : EqDecision summary.
Proof. solve_decision. Defined.

(** What [json.dump] is asked to write. *)
Inductive json_doc : Type :=
  | DocParams (params : gmap string pyval)
  | DocResults (results : list result_row)
  | DocSummary (s : summary).

#[global] Instance json_doc_eq_dec : EqDecision json_doc.
Proof. solve_decision. Defined.

(** What the program does to the outside world, in program order. *)
Inductive event : Type :=
  | Spawn (cmd : list string)            (* subprocess.run / subprocess.Popen *)
  | Stdout (line : string)                (* print(...) *)
  | Sleep (seconds : Z)                  (* time.sleep(...) *)
  | LogInfo (msg : string)               (* self.logger.info *)
  | LogWarning (msg : string)            (* self.logger.warning *)
  | LogError (msg : string)              (* self.logger.error *)
  | WriteJson (path : string) (doc : json_doc)  (* open(path, 'w') + json.dump *)
  | SmtpSend (sender recipient subject body : string)  (* SMTP(...).send_message *)
  | HttpPost (url text : string).        (* requests.post(url, json={'text': ...}) *)

#[global] Instance event_eq_dec : EqDecision event.
Proof. solve_decision. Defined.

(** How a call of [subprocess.run(cmd, capture_output=True, text=True)]
    ended: with a [CompletedProcess], or with an exception (for instance the
    executable is missing). *)
Inductive proc_result : Type :=
  | Completed (returncode : Z) (stdout stderr : string)
  | SpawnRaised (e : exn).

(** ** Computations: a trace of events and a value or an exception *)

Inductive outcome (A : Type) : Type :=
  | Return (a : A)
  | Raise (e : exn).
Arguments Return {A} a.
Arguments Raise {A} e.

Definition py (A : Type) : Type := list event * outcome A.

#[global] Instance py_ret : MRet py := λ A a, ([], Return a).

#[global] Instance py_bind : MBind py := λ A B k m,
  match m with
  | (t, Return a) => let '(t', r) := k a in (t ++ t', r)
  | (t, Raise e) => (t, Raise e)
  end.

Definition emit (e : event) : py unit := ([e], Return tt).

Definition raise {A : Type} (e : exn) : py A := ([], Raise e).

(** [try: body except Exception as e: handler e]. *)
Definition try_except {A : Type} (body : py A) (handler : exn → py A) : py A :=
  match body with
  | (t, Return a) => (t, Return a)
  | (t, Raise e) => let '(t', r) := handler e in (t ++ t', r)
  end.

(** [try: body except cls as e: handler e]: other classes pass through. *)
Definition try_except_cls {A : Type} (cls : exn_class)
    (body : py A) (handler : exn → py A) : py A :=
  match body with
  | (t, Return a) => (t, Return a)
  | (t, Raise e) =>
      if decide (exn_cls e = cls)
      then let '(t', r) := handler e in (t ++ t', r)
      else (t, Raise e)
  end.

Definition trace {A : Type} (m : py A) : list event := m.1.
Definition result {A : Type} (m : py A) : outcome A := m.2.

(** The commands started and the sleeps taken in a trace, in order. *)
Definition spawned (t : list event) : list (list string) :=
  omap (λ e, match e with Spawn cmd => Some cmd | _ => None end) t.

Definition sleeps (t : list event) : list Z :=
  omap (λ e, match e with Sleep n => Some n | _ => None end) t.

(** [subprocess.run(cmd, ...)] with the way it ended. *)
Definition subprocess_run (cmd : list string) (r : proc_result)
    : py (Z * string * string) :=
  emit (Spawn cmd);;
  match r with
  | Completed rc out err => mret (rc, out, err)
  | SpawnRaised e => raise e
  end.

(** A call into a library that returns a value or raises. *)
Definition external {A : Type} (r : exn + A) : py A :=
  match r with
  | inl e => raise e
  | inr a => mret a
  end.

(** A call made for its effect, with the exception it raised, if any. *)
Definition attempt (raised : option exn) : py unit :=
  match raised with
  | Some e => raise e
  | None => mret tt
  end.

(** [l[i]] for a list of strings. *)
Definition index (l : list string) (i : nat) : py string :=
  match l !! i with
  | Some x => mret x
  | None => raise (Exn OtherError "list index out of range")     (* IndexError *)
  end.

(** [time.sleep(seconds)] for an [int].  The length is kept in nanoseconds
    in 64 bits: one that does not fit raises [OverflowError]; a negative one
    raises [ValueError]. *)
Definition sleep_max : Z := 9223372036.

Definition time_sleep (seconds : Z) : py unit :=
  if sleep_max <? Z.abs seconds then
    raise (Exn OtherError "timestamp too large to convert to C _PyTime_t")
  else if seconds <? 0 then
    raise (Exn OtherError "sleep length must be non-negative")
  else emit (Sleep seconds).

(** Truth value of an [Optional[str]]: [None] and [''] are false. *)
Definition truthy (o : option string) : bool :=
  match o with
  | Some s => negb (String.eqb s "")
  | None => false
  end.

(** ** The text operations of Python that the code relies on

    Restricted to ASCII text; the functions follow [str.strip],
    [str.rstrip(chars)], [str.splitlines], [str.split(sep, 1)] and
    [os.path.basename] (POSIX).  [str.lower] is defined for every text. *)

Module PyStr.

Definition code (c : ascii) : N := N_of_ascii c.

Definition nl : string := String "010"%char "".

Definition lower_char (c : ascii) : ascii :=
  if ((65 <=? code c) && (code c <=? 90))%N
  then ascii_of_N (code c + 32)
  else c.

(** [str.lower] on ASCII text: the letters A to Z are replaced. *)
Fixpoint lower_ascii (s : string) : string :=
  match s with
  | EmptyString => EmptyString
  | String c r => String (lower_char c) (lower_ascii r)
  end.

(** [str.isascii]. *)
Fixpoint is_ascii (s : string) : bool :=
  match s with
  | EmptyString => true
  | String c r => (code c <? 128)%N && is_ascii r
  end.

(** [str.lower] on text with characters outside ASCII follows the Unicode
    tables of the interpreter (and is not characterwise: the lower-case form
    of a sigma depends on its place in the word).  It is a parameter. *)
Class UnicodeLower : Type := unicode_lower : string → string.

(** [s.lower()]. *)
Definition lower `{!UnicodeLower} (s : string) : string :=
  if is_ascii s then lower_ascii s else unicode_lower s.

(** [str.isspace] on one ASCII character. *)
Definition is_space (c : ascii) : bool :=
  (((9 <=? code c) && (code c <=? 13)) || ((28 <=? code c) && (code c <=? 32)))%N.

(** The ASCII line boundaries of [str.splitlines]. *)
Definition is_linebreak (c : ascii) : bool :=
  (((10 <=? code c) && (code c <=? 13)) || ((28 <=? code c) && (code c <=? 30)))%N.

Fixpoint lstrip_with (p : ascii → bool) (s : string) : string :=
  match s with
  | EmptyString => EmptyString
  | String c r => if p c then lstrip_with p r else s
  end.

Fixpoint rstrip_with (p : ascii → bool) (s : string) : string :=
  match s with
  | EmptyString => EmptyString
  | String c r =>
      match rstrip_with p r with
      | EmptyString => if p c then EmptyString else String c EmptyString
      | r' => String c r'
      end
  end.

Definition strip (s : string) : string :=
  rstrip_with is_space (lstrip_with is_space s).

(** [s.rstrip('/\\')]. *)
Definition rstrip_seps (s : string) : string :=
  rstrip_with (λ c, Ascii.eqb c "/"%char || Ascii.eqb c "092"%char) s.

Fixpoint basename_from (cur s : string) : string :=
  match s with
  | EmptyString => cur
  | String c r =>
      if Ascii.eqb c "/"%char then basename_from EmptyString r
      else basename_from (cur +:+ String c EmptyString) r
  end.

(** [os.path.basename(s)]: what follows the last slash. *)
Definition basename (s : string) : string := basename_from EmptyString s.

Fixpoint splitlines_from (cur s : string) : list string :=
  match s with
  | EmptyString => match cur with EmptyString => [] | _ => [cur] end
  | String c r =>
      if Ascii.eqb c "013"%char then
        match r with
        | String c' r' =>
            if Ascii.eqb c' "010"%char then cur :: splitlines_from EmptyString r'
            else cur :: splitlines_from EmptyString r
        | EmptyString => [cur]
        end
      else if is_linebreak c then cur :: splitlines_from EmptyString r
      else splitlines_from (cur +:+ String c EmptyString) r
  end.

Definition splitlines (s : string) : list string := splitlines_from EmptyString s.

Fixpoint strip_prefix (m s : string) : option string :=
  match m, s with
  | EmptyString, _ => Some s
  | String a m', String b s' => if Ascii.eqb a b then strip_prefix m' s' else None
  | String _ _, EmptyString => None
  end.

(** [s.split(m, 1)[1]] when [m in s], and [None] when [m] is not in [s]. *)
Fixpoint after_first (m s : string) : option string :=
  match strip_prefix m s with
  | Some r => Some r
  | None =>
      match s with
      | EmptyString => None
      | String _ r => after_first m r
      end
  end.

(** [str(n)] for an [int]. *)
Definition str_int (n : Z) : string := pretty n.

(** [s.split()]: the maximal runs of characters that are not white space. *)
Fixpoint split_ws_from (cur s : string) : list string :=
  match s with
  | EmptyString => match cur with EmptyString => [] | _ => [cur] end
  | String c r =>
      if is_space c then
        match cur with
        | EmptyString => split_ws_from EmptyString r
        | _ => cur :: split_ws_from EmptyString r
        end
      else split_ws_from (cur +:+ String c EmptyString) r
  end.

Definition split_ws (s : string) : list string := split_ws_from EmptyString s.

(** [m in s]. *)
Definition contains (m s : string) : bool := bool_decide (is_Some (after_first m s)).

(** [s.replace(m, '')] for a non-empty [m]: the occurrences of [m] are
    removed from left to right; [skip] counts the characters of an
    occurrence that are still to be dropped. *)
Fixpoint remove_from (m : string) (skip : nat) (s : string) : string :=
  match s with
  | EmptyString => EmptyString
  | String c r =>
      match skip with
      | S k => remove_from m k r
      | O =>
          match strip_prefix m s with
          | Some _ => remove_from m (String.length m - 1) r
          | None => String c (remove_from m O r)
          end
      end
  end.

Definition remove (m s : string) : string := remove_from m O s.

End PyStr.

(** ** The batch processor: [ica_batch_processor.py] *)

Module BatchProcessor.

(** The value under ['custom_params'] in a row: a mapping (a YAML sheet),
    or a scalar: a text (every cell of a CSV sheet is one), a number, a
    truth value or [None] (an empty YAML value, a short CSV row).  A YAML
    sequence, which [update] reads as a list of pairs, is not among the
    rows of the embedding. *)
Inductive custom : Type :=
  | CustomMapping (m : gmap string pyval)
  | CustomScalar (v : pyval).

(** A work item: a row of the sample sheet.  The code indexes [sample_id],
    [data_folder], [pipeline] and [reference] directly, reads [target_bed]
    with [.get] and tests ['custom_params' in sample]; the record has the
    same shape, the first four fields present in every row. *)
Record sample : Type := Sample {
  sample_id : string;
  data_folder : string;
  pipeline : string;
  reference : string;
  target_bed : option string;
  custom_params : option custom
}.

(** [d.update(other)] for a mapping: every key of [other] is written into
    [d]. *)
Definition update (d other : gmap string pyval) : gmap string pyval :=
  other ∪ d.

(** [d.update(other)] for the value of a row.  A scalar is not a mapping:
    the empty text is an empty sequence of pairs and changes nothing, the
    first character of another text is not a pair ([ValueError]), and the
    other scalars cannot be iterated over ([TypeError]). *)
Definition update_from (d : gmap string pyval) (other : custom)
    : py (gmap string pyval) :=
  match other with
  | CustomMapping m => mret (update d m)
  | CustomScalar (PStr s) =>
      if String.eqb s "" then mret d
      else raise (Exn OtherError
                    "dictionary update sequence element #0 has length 1; 2 is required")
  | CustomScalar (PBool _) => raise (Exn OtherError "'bool' object is not iterable")
  | CustomScalar (PInt _) => raise (Exn OtherError "'int' object is not iterable")
  | CustomScalar PNone => raise (Exn OtherError "'NoneType' object is not iterable")
  end.

Definition base_params (s : sample) : gmap string pyval :=
  <["sample-id" := PStr (sample_id s)]>
  (<["reference-tar" :=
       PStr ("/reference-data/" +:+ reference s +:+ "/" +:+ reference s +:+ ".fa")]>
  (<["output-directory" := PStr "/output"]> ∅)).

Definition germline_params : gmap string pyval :=
  <["enable-map-align" := PBool true]>
  (<["enable-sort" := PBool true]>
  (<["enable-duplicate-marking" := PBool true]>
  (<["enable-variant-caller" := PBool true]> ∅))).

Definition rna_params (s : sample) : gmap string pyval :=
  <["enable-rna" := PBool true]>
  (<["enable-rna-quantification" := PBool true]>
  (<["annotation-file" :=
       PStr ("/reference-data/" +:+ reference s +:+ "/genes.gtf")]> ∅)).

Definition enrichment_params (s : sample) : gmap string pyval :=
  <["enable-map-align" := PBool true]>
  (<["enable-variant-caller" := PBool true]>
  (<["vc-target-bed" := from_option PStr PNone (target_bed s)]>
  (<["vc-target-bed-padding" := PInt 100]> ∅))).

(** The [if / elif / elif] on [sample['pipeline']]. *)
Definition pipeline_params (s : sample) : gmap string pyval :=
  if String.eqb (pipeline s) "dragen-germline" then germline_params
  else if String.eqb (pipeline s) "dragen-rna" then rna_params s
  else if String.eqb (pipeline s) "dragen-enrichment" then enrichment_params s
  else ∅.

Definition _generate_params (s : sample) : py (gmap string pyval) :=
  let base := update (base_params s) (pipeline_params s) in
  match custom_params s with
  | Some custom => update_from base custom
  | None => mret base
  end.

(** What happened outside the interpreter while one sample was processed:
    how the upload script ended, whether writing the parameter file raised,
    how the workflow script ended, and what [datetime.now().isoformat()]
    gave when the result was built. *)
Record sample_world : Type := SampleWorld {
  upload_run : proc_result;
  params_write : option exn;
  pipeline_run : proc_result;
  finished_at : string
}.

(** [with open(path, 'w') as f: json.dump(doc, f, indent=4)]. *)
Definition write_json (path : string) (doc : json_doc) (raised : option exn)
    : py unit :=
  emit (WriteJson path doc);;
  match raised with
  | Some e => raise e
  | None => mret tt
  end.

(** What happened outside the interpreter during one call of
    [process_batch]: what reading the sample sheet gave (the rows, or the
    exception of [open], [csv.DictReader] or [yaml.safe_load]), the world
    met by the job of the [i]-th row, the time at which the summary is
    built, and whether creating the output directory and writing each of
    the two files raised. *)
Record batch_world : Type := BatchWorld {
  sheet : exn + list sample;
  worlds : nat → sample_world;
  now : string;
  mkdir : option exn;
  results_write : option exn;
  summary_write : option exn
}.

Section process.

(** [self.project_name] and [self.max_concurrent]. *)
Variable project_name : string.
Variable max_concurrent : Z.

Definition upload_cmd (s : sample) : list string :=
  ["python"; "ica_cli_upload.py"; data_folder s; project_name;
   "--folder-name"; sample_id s].

Definition params_file (s : sample) : string :=
  sample_id s +:+ "_params.json".

Definition pipeline_cmd (s : sample) : list string :=
  ["python"; "ica_cli_workflow.py"; data_folder s; project_name;
   pipeline s; "./results/" +:+ sample_id s;
   "--params-file"; params_file s].

(** The body of the [try] in [process_sample]. *)
Definition process_sample_try (w : sample_world) (s : sample) : py result_row :=
  '(rc, _, err) ← subprocess_run (upload_cmd s) (upload_run w);
  if negb (rc =? 0) then raise (Exn RuntimeError ("Upload failed: " +:+ err))
  else
    params ← _generate_params s;
    write_json (params_file s) (DocParams params) (params_write w);;
    '(rc, _, err) ← subprocess_run (pipeline_cmd s) (pipeline_run w);
    if negb (rc =? 0) then raise (Exn RuntimeError ("Pipeline failed: " +:+ err))
    else
      mret {| res_sample_id := sample_id s;
              res_status := "completed";
              res_error := None;
              res_timestamp := finished_at w |}.

Definition process_sample (w : sample_world) (s : sample) : py result_row :=
  try_except (process_sample_try w s)
    (λ e,
      emit (LogError ("Error processing " +:+ sample_id s +:+ ": " +:+ exn_str e));;
      mret {| res_sample_id := sample_id s;
              res_status := "failed";
              res_error := Some (exn_str e);
              res_timestamp := finished_at w |}).

(** [future.result()]: the events of the job happened on the worker thread;
    the caller gets the value the job returned, or the exception it raised
    is raised again in the caller. *)
Definition future_result {A : Type} (job : py A) : py A := ([], result job).

(** The loop [for future in future_to_sample: ...] over the submitted jobs,
    in submission order. *)
Fixpoint collect_results (futures : list (py result_row)) : py (list result_row) :=
  match futures with
  | [] => mret []
  | future :: rest =>
      r ← future_result future;
      emit (LogInfo ("Sample " +:+ res_sample_id r +:+ " " +:+ res_status r));;
      rs ← collect_results rest;
      mret (r :: rs)
  end.

Definition has_status (st : string) (r : result_row) : bool :=
  String.eqb (res_status r) st.

(** [ThreadPoolExecutor(max_workers=n)] for an [int]. *)
Definition new_pool (n : Z) : py unit :=
  if n <=? 0 then raise (Exn OtherError "max_workers must be greater than 0")
  else mret tt.

Definition process_batch (w : batch_world) : py (list result_row) :=
  samples ← external (sheet w);
  new_pool max_concurrent;;
  let future_to_sample := imap (λ i s, process_sample (worlds w i) s) samples in
  results ← collect_results future_to_sample;
  let summary :=
    {| total_samples := length samples;
       completed := length (List.filter (has_status "completed") results);
       failed := length (List.filter (has_status "failed") results);
       sum_timestamp := now w |} in
  attempt (mkdir w);;
  write_json "batch_results/results.json" (DocResults results) (results_write w);;
  write_json "batch_results/summary.json" (DocSummary summary) (summary_write w);;
  mret results.

End process.

End BatchProcessor.

(** ** Helpers shared by the command line scripts

    [check_ica_cli] and [get_project_id] are defined with the same body in
    [ica_cli_upload.py], [ica_cli_pipeline.py] and [ica_cli_download.py]
    ([check_ica_cli] also in [ica_cli_workflow.py]). *)

(** What a loop that may still be running has come to. *)
Inductive loop_end (A : Type) : Type :=
  | Finished (a : A)       (* the loop was left with [return a] *)
  | Polling.               (* the script of replies is used up: still looping *)
Arguments Finished {A} a.
Arguments Polling {A}.

(** [json.loads(text)] with what it gave: the decoded value or the exception. *)
Definition json_loads {A : Type} (decoded : exn + A) : py A :=
  match decoded with
  | inl e => raise e
  | inr a => mret a
  end.

Fixpoint for_each {A : Type} (f : A → py unit) (l : list A) : py unit :=
  match l with
  | [] => mret tt
  | a :: r => f a;; for_each f r
  end.

Module IcaCli.

(** An element of the JSON array printed by [ica projects list] and
    [ica pipelines list]. *)
Record entry : Type := Entry { name : string; id : string }.

(** A listing command: how the process ended and what [json.loads] made of
    its standard output. *)
Record listing : Type := Listing {
  list_run : proc_result;
  list_json : exn + list entry
}.

Definition version_cmd : list string := ["ica"; "--version"].

Definition check_ica_cli (r : proc_result) : py bool :=
  try_except_cls FileNotFoundError
    ('(rc, _, _) ← subprocess_run version_cmd r;
     mret (rc =? 0))
    (λ _, mret false).

Section names.

Context {unicode : PyStr.UnicodeLower}.

(** [a.lower() == b.lower()]. *)
Definition same_name (a b : string) : bool :=
  String.eqb (PyStr.lower a) (PyStr.lower b).

(** [for e in entries: if e['name'].lower() == wanted.lower(): return e['id']]. *)
Fixpoint first_id (wanted : string) (entries : list entry) : option string :=
  match entries with
  | [] => None
  | e :: rest => if same_name (name e) wanted then Some (id e) else first_id wanted rest
  end.

Definition projects_list_cmd : list string :=
  ["ica"; "projects"; "list"; "--output"; "json"].

Definition get_project_id (project_name : string) (w : listing) : py (option string) :=
  try_except
    ('(rc, out, err) ← subprocess_run projects_list_cmd (list_run w);
     if negb (rc =? 0) then
       emit (Stdout ("Error listing projects: " +:+ err));;
       mret None
     else
       projects ← json_loads (list_json w);
       match first_id project_name projects with
       | Some i => mret (Some i)
       | None =>
           emit (Stdout ("Project '" +:+ project_name +:+ "' not found"));;
           mret None
       end)
    (λ e,
      emit (Stdout ("Error getting project ID: " +:+ exn_str e));;
      mret None).

Definition get_pipeline_id (project_id pipeline_name : string) (w : listing)
    : py (option string) :=
  try_except
    ('(rc, out, err) ← subprocess_run
        ["ica"; "pipelines"; "list"; "--project-id"; project_id; "--output"; "json"]
        (list_run w);
     if negb (rc =? 0) then
       emit (Stdout ("Error listing pipelines: " +:+ err));;
       mret None
     else
       pipelines ← json_loads (list_json w);
       match first_id pipeline_name pipelines with
       | Some i => mret (Some i)
       | None =>
           emit (Stdout ("Pipeline '" +:+ pipeline_name +:+ "' not found in project"));;
           mret None
       end)
    (λ e,
      emit (Stdout ("Error getting pipeline ID: " +:+ exn_str e));;
      mret None).

End names.

(** The two lines printed when the [ica] executable is not usable. *)
Definition print_cli_missing : py unit :=
  emit (Stdout "Error: ICA CLI not found. Please install and configure the ICA CLI first.");;
  emit (Stdout "Installation instructions: https://help.ica.illumina.com/command-line/latest/install").

End IcaCli.

(** ** The workflow driver: [ica_cli_workflow.py] *)

Module Workflow.

Import IcaCli.

(** How [subprocess.Popen] and the loop that streams its output end: the
    non-empty strings [readline()] gave, the return code and the error
    output; or [Popen] raised. *)
Inductive stream_result : Type :=
  | Streamed (lines : list string) (returncode : Z) (stderr : string)
  | PopenRaised (e : exn).

Record args : Type := Args {
  input_folder : string;
  project_name : string;
  pipeline_name : string;
  output_dir : string;
  folder_name : option string;
  params_file : option string;
  analysis_name : option string;
  polling_interval : Z
}.

Record world : Type := World {
  cli_check : proc_result;
  upload_run : proc_result;
  pipeline_run : proc_result;
  download_run : stream_result
}.

Section scripts.

(** [sys.executable] and [os.path.join(os.path.dirname(__file__), name)]. *)
Variable sys_executable : string.
Variable script_path : string → string.

Definition upload_cmd (input_folder project_name : string)
    (folder_name : option string) : list string :=
  [sys_executable; script_path "ica_cli_upload.py"; input_folder; project_name]
  ++ (if truthy folder_name then ["--folder-name"; default "" folder_name] else []).

Definition run_upload (input_folder project_name : string)
    (folder_name : option string) (r : proc_result) : py (option string) :=
  try_except
    (let cmd := upload_cmd input_folder project_name folder_name in
     emit (Stdout (PyStr.nl +:+ "=== Step 1: Uploading Data ==="));;
     emit (Stdout ("Uploading " +:+ input_folder +:+ " to project '"
                  +:+ project_name +:+ "'..."));;
     '(rc, _, err) ← subprocess_run cmd r;
     if rc =? 0 then
       mret (Some (if truthy folder_name then default "" folder_name
                   else PyStr.basename (PyStr.rstrip_seps input_folder)))
     else
       emit (Stdout ("Error during upload: " +:+ err));;
       mret None)
    (λ e,
      emit (Stdout ("Error running upload script: " +:+ exn_str e));;
      mret None).

Definition pipeline_cmd (project_name pipeline_name input_folder : string)
    (params_file analysis_name : option string) : list string :=
  [sys_executable; script_path "ica_cli_pipeline.py";
   project_name; pipeline_name; input_folder]
  ++ (if truthy params_file then ["--params-file"; default "" params_file] else [])
  ++ (if truthy analysis_name then ["--analysis-name"; default "" analysis_name] else []).

(** The scan of the output for the first line with ["Analysis ID:"]. *)
Fixpoint extract_analysis_id (lines : list string) : option string :=
  match lines with
  | [] => None
  | line :: rest =>
      match PyStr.after_first "Analysis ID:" line with
      | Some tail => Some (PyStr.strip tail)
      | None => extract_analysis_id rest
      end
  end.

Definition run_pipeline (project_name pipeline_name input_folder : string)
    (params_file analysis_name : option string) (r : proc_result)
    : py (option string) :=
  try_except
    (let cmd := pipeline_cmd project_name pipeline_name input_folder
                  params_file analysis_name in
     emit (Stdout (PyStr.nl +:+ "=== Step 2: Starting Pipeline ==="));;
     emit (Stdout ("Starting pipeline '" +:+ pipeline_name +:+ "' on folder '"
                  +:+ input_folder +:+ "'..."));;
     '(rc, out, err) ← subprocess_run cmd r;
     if rc =? 0 then
       match extract_analysis_id (PyStr.splitlines out) with
       | Some i => mret (Some i)
       | None =>
           emit (Stdout "Warning: Could not extract analysis ID from output");;
           mret None
       end
     else
       emit (Stdout ("Error starting pipeline: " +:+ err));;
       mret None)
    (λ e,
      emit (Stdout ("Error running pipeline script: " +:+ exn_str e));;
      mret None).

Definition download_cmd (project_name analysis_id output_dir : string)
    (polling_interval : Z) : list string :=
  [sys_executable; script_path "ica_cli_download.py";
   project_name; analysis_id; output_dir;
   "--polling-interval"; PyStr.str_int polling_interval].

Definition run_download (project_name analysis_id output_dir : string)
    (polling_interval : Z) (r : stream_result) : py bool :=
  try_except
    (let cmd := download_cmd project_name analysis_id output_dir polling_interval in
     emit (Stdout (PyStr.nl +:+ "=== Step 3: Downloading Results ==="));;
     emit (Stdout ("Monitoring analysis " +:+ analysis_id
                  +:+ " and downloading results..."));;
     emit (Spawn cmd);;
     match r with
     | PopenRaised e => raise e
     | Streamed lines rc err =>
         for_each (λ line, emit (Stdout (PyStr.strip line))) lines;;
         if rc =? 0 then
           emit (Stdout (PyStr.nl +:+ "Workflow completed successfully!"));;
           emit (Stdout ("Results downloaded to: " +:+ output_dir));;
           mret true
         else
           emit (Stdout ("Error downloading results: " +:+ err));;
           mret false
     end)
    (λ e,
      emit (Stdout ("Error running download script: " +:+ exn_str e));;
      mret false).

(** [main] after argument parsing; the value is the exit status given to
    [sys.exit]. *)
Definition main (a : args) (w : world) : py Z :=
  ok ← check_ica_cli (cli_check w);
  if negb ok then
    print_cli_missing;;
    mret 1
  else
    folder ← run_upload (input_folder a) (project_name a) (folder_name a) (upload_run w);
    if negb (truthy folder) then
      emit (Stdout "Upload failed. Stopping workflow.");;
      mret 1
    else
      analysis ← run_pipeline (project_name a) (pipeline_name a) (default "" folder)
                   (params_file a) (analysis_name a) (pipeline_run w);
      if negb (truthy analysis) then
        emit (Stdout "Pipeline start failed. Stopping workflow.");;
        mret 1
      else
        success ← run_download (project_name a) (default "" analysis) (output_dir a)
                    (polling_interval a) (download_run w);
        mret (if success : bool then 0 else 1).

End scripts.

End Workflow.

(** ** The status poller and the download script: [ica_cli_download.py] *)

Module Download.

Import IcaCli.

(** What [analysis.get('output', {}).get('folder', {}).get('id')] comes to:
    the identifier found ([None] when a key is missing), or an
    [AttributeError] because ['output'] or ['folder'] is not an object. *)
Inductive output_lookup : Type :=
  | FolderId (id : option string)
  | LookupRaised.

(** The decoded reply of [ica pipelines history]: [analysis.get('status')]
    and the output folder lookup. *)
Record analysis : Type := Analysis {
  status : option string;
  output_folder : output_lookup
}.

(** One status query: how the process ended and what [json.loads] made of
    its standard output. *)
Record status_world : Type := StatusWorld {
  history_run : proc_result;
  history_json : exn + analysis
}.

Definition history_cmd (analysis_id : string) : list string :=
  ["ica"; "pipelines"; "history"; "--analysis-id"; analysis_id; "--output"; "json"].

Definition get_analysis_status (analysis_id : string) (w : status_world)
    : py (option string * option string) :=
  try_except
    ('(rc, out, err) ← subprocess_run (history_cmd analysis_id) (history_run w);
     if negb (rc =? 0) then
       emit (Stdout ("Error getting analysis status: " +:+ err));;
       mret (None, None)
     else
       analysis ← json_loads (history_json w);
       let status := status analysis in
       output_folder_id ←
         (if bool_decide (status = Some "COMPLETED") then
            match output_folder analysis with
            | FolderId i => mret i
            | LookupRaised =>
                emit (Stdout "Warning: Could not find output folder ID in completed analysis");;
                mret None
            end
          else mret None);
       mret (status, output_folder_id))
    (λ e,
      emit (Stdout ("Error checking analysis status: " +:+ exn_str e));;
      mret (None, None)).

(** [status in ['FAILED', 'ABORTED', 'TERMINATED']]. *)
Definition ended_badly (status : string) : bool :=
  existsb (String.eqb status) ["FAILED"; "ABORTED"; "TERMINATED"].

(** The [while True] loop of [wait_for_analysis], one status query per
    element of the script. *)
Fixpoint wait_loop (analysis_id : string) (polling_interval : Z)
    (script : list status_world) : py (loop_end (option string)) :=
  match script with
  | [] => mret Polling
  | w :: rest =>
      '(status, folder_id) ← get_analysis_status analysis_id w;
      match status with
      | None => mret (Finished None)
      | Some st =>
          emit (Stdout ("Current status: " +:+ st));;
          if String.eqb st "COMPLETED" then
            emit (Stdout "Analysis completed successfully!");;
            mret (Finished folder_id)
          else if ended_badly st then
            emit (Stdout ("Analysis ended with status: " +:+ st));;
            mret (Finished None)
          else
            time_sleep polling_interval;;
            wait_loop analysis_id polling_interval rest
      end
  end.

Definition wait_for_analysis (analysis_id : string) (polling_interval : Z)
    (script : list status_world) : py (loop_end (option string)) :=
  emit (Stdout ("Monitoring analysis " +:+ analysis_id +:+ "..."));;
  wait_loop analysis_id polling_interval script.

Definition download_cmd (project_id folder_id output_dir : string) : list string :=
  ["ica"; "files"; "download"; "--project-id"; project_id;
   "--data-ids"; folder_id; "--output-folder"; output_dir].

(** [makedirs] tells whether [os.makedirs(output_dir, exist_ok=True)] raised. *)
Definition download_folder (project_id folder_id output_dir : string)
    (makedirs : option exn) (r : proc_result) : py bool :=
  try_except
    (match makedirs with Some e => raise e | None => mret tt end;;
     emit (Stdout ("Downloading results to: " +:+ output_dir));;
     '(rc, _, err) ← subprocess_run (download_cmd project_id folder_id output_dir) r;
     if rc =? 0 then
       emit (Stdout "Successfully downloaded results");;
       mret true
     else
       emit (Stdout ("Error downloading results: " +:+ err));;
       mret false)
    (λ e,
      emit (Stdout ("Error during download: " +:+ exn_str e));;
      mret false).

Record args : Type := Args {
  project_name : string;
  analysis_id : string;
  output_dir : string;
  no_wait : bool;
  polling_interval : Z
}.

Record world : Type := World {
  cli_check : proc_result;
  projects : listing;
  statuses : list status_world;
  makedirs : option exn;
  download_run : proc_result
}.

(** The part of [main] that finds the output folder: [inl code] when it
    calls [sys.exit(code)], [inr folder_id] when it goes on. *)
Definition find_folder (a : args) (w : world) : py (loop_end (Z + option string)) :=
  if no_wait a then
    match statuses w with
    | [] => mret Polling
    | sw :: _ =>
        '(status, folder_id) ← get_analysis_status (analysis_id a) sw;
        if bool_decide (status = Some "COMPLETED") then mret (Finished (inr folder_id))
        else
          emit (Stdout ("Analysis is not complete (status: "
                       +:+ default "None" status +:+ ")"));;
          emit (Stdout "Use --no-wait flag only when analysis is already complete");;
          mret (Finished (inl 1))
    end
  else
    r ← wait_for_analysis (analysis_id a) (polling_interval a) (statuses w);
    mret (match r with
          | Finished folder_id => Finished (inr folder_id)
          | Polling => Polling
          end).

(** [main] after argument parsing; the value is the exit status given to
    [sys.exit], when the script gets that far. *)
Definition main `{!PyStr.UnicodeLower} (a : args) (w : world) : py (loop_end Z) :=
  ok ← check_ica_cli (cli_check w);
  if negb ok then
    print_cli_missing;;
    mret (Finished 1)
  else
    project_id ← get_project_id (project_name a) (projects w);
    if negb (truthy project_id) then mret (Finished 1)
    else
      found ← find_folder a w;
      match found with
      | Polling => mret Polling
      | Finished (inl code) => mret (Finished code)
      | Finished (inr folder_id) =>
          if negb (truthy folder_id) then
            emit (Stdout "Could not get output folder ID");;
            mret (Finished 1)
          else
            success ← download_folder (default "" project_id) (default "" folder_id)
                        (output_dir a) (makedirs w) (download_run w);
            mret (Finished (if success : bool then 0 else 1))
      end.

End Download.

(** ** The monitors and their notifications: [ica_monitor.py] *)

Module Monitor.

Record NotificationConfig : Type := {
  email_to : string;
  smtp_host : string;
  smtp_port : Z;
  smtp_user : option string;
  smtp_pass : option string;
  slack_webhook : option string
}.

(** What happens to one notification outside the interpreter: whether the
    SMTP session raised, and whether [requests.post] raised. *)
Record delivery : Type := Delivery {
  smtp : option exn;
  post : option exn
}.

Section monitor.

Variable project_name : string.
Variable config : NotificationConfig.

(** [self.config.smtp_user or "ica-monitor@localhost"]. *)
Definition sender : string :=
  if truthy (smtp_user config) then default "" (smtp_user config)
  else "ica-monitor@localhost".

(** The SMTP session: connect, log in when user and password are
    configured, [send_message]; [raised] is the exception it ended with. *)
Definition _send_email (subject body : string) (raised : option exn) : py unit :=
  emit (SmtpSend sender (email_to config) subject body);;
  match raised with
  | Some e => raise e
  | None => mret tt
  end.

Definition _send_slack (message : string) (raised : option exn) : py unit :=
  if negb (truthy (slack_webhook config)) then mret tt
  else
    try_except
      (emit (HttpPost (default "" (slack_webhook config)) message);;
       match raised with
       | Some e => raise e
       | None => mret tt
       end)
      (λ e, emit (LogError ("Failed to send Slack notification: " +:+ exn_str e))).

(** The pair of calls made wherever a monitor notifies:
    [self._send_email(subject, msg); self._send_slack(msg)]. *)
Definition notify (subject msg : string) (d : delivery) : py unit :=
  _send_email subject msg (smtp d);;
  _send_slack msg (post d).

(** A threshold monitor never leaves its loop with [return]. *)
Definition running : Type := loop_end Empty_set.

Definition storage_cmd : list string := ["ica"; "projects"; "storage"; project_name].

Definition costs_cmd : list string := ["ica"; "projects"; "costs"; project_name].

(** The numbers of the two threshold monitors are floating point, the
    binary64 numbers of the kernel.  Division, multiplication and
    comparison are computed; [float(text)], [str(x)] and
    [format(x, '.<n>f')] are given from outside. *)
Variable float_of_text : string → exn + float.
Variable float_text : float → string.
Variable fixed : nat → float → string.

(** The text of the [UnboundLocalError] for a local name; its wording
    depends on the version of the interpreter. *)
Variable unbound_text : string → string.

(** The local variables [used_gb] and [total_gb] of [monitor_storage]:
    unbound until a line of a report assigns them, and kept from one
    iteration of the loop to the next. *)
Record levels : Type := Levels {
  used_gb : option float;
  total_gb : option float
}.

(** [float(line.split()[1].replace('GB', ''))]. *)
Definition gb_field (line : string) : py float :=
  field ← index (PyStr.split_ws line) 1;
  external (float_of_text (PyStr.remove "GB" field)).

(** [for line in lines: if 'Used:' in line: used_gb = ...
    elif 'Total:' in line: total_gb = ...]. *)
Fixpoint read_report (lines : list string) (l : levels) : py levels :=
  match lines with
  | [] => mret l
  | line :: rest =>
      if PyStr.contains "Used:" line then
        v ← gb_field line;
        read_report rest (Levels (Some v) (total_gb l))
      else if PyStr.contains "Total:" line then
        v ← gb_field line;
        read_report rest (Levels (used_gb l) (Some v))
      else read_report rest l
  end.

(** The value of a local variable. *)
Definition local (name : string) (v : option float) : py float :=
  match v with
  | Some x => mret x
  | None => raise (Exn OtherError (unbound_text name))       (* UnboundLocalError *)
  end.

(** [a / b]. *)
Definition float_div (a b : float) : py float :=
  if PrimFloat.eqb b 0 then
    raise (Exn OtherError "float division by zero")           (* ZeroDivisionError *)
  else mret (PrimFloat.div a b).

(** [a >= b]. *)
Definition float_ge (a b : float) : bool := PrimFloat.leb b a.

Definition storage_alert (usage_percent used total : float) : string :=
  "Storage usage alert: " +:+ fixed 1 usage_percent +:+ "% ("
  +:+ fixed 1 used +:+ "GB of " +:+ fixed 1 total +:+ "GB)".

(** One iteration of the storage or of the cost monitor seen from outside:
    the query; what [float(json.loads(result.stdout)['total_cost'])] came to
    (looked at by the cost monitor only); and what happens to the
    notification the iteration may send. *)
Record poll : Type := Poll {
  query_run : proc_result;
  total_cost : exn + float;
  deliver : delivery
}.

(** The [while True] loop of [monitor_storage], one iteration per element
    of the script, from the values of [used_gb] and [total_gb]. *)
Fixpoint storage_loop (threshold_percent : float) (check_interval : Z)
    (l : levels) (script : list poll) : py running :=
  match script with
  | [] => mret Polling
  | p :: rest =>
      '(rc, out, err) ← subprocess_run storage_cmd (query_run p);
      if negb (rc =? 0) then
        let error_msg := "Failed to get storage info: " +:+ err in
        emit (LogError error_msg);;
        notify "Storage Monitoring Error" error_msg (deliver p);;
        (* continue *)
        storage_loop threshold_percent check_interval l rest
      else
        l' ← read_report (PyStr.splitlines out) l;
        used ← local "used_gb" (used_gb l');
        total ← local "total_gb" (total_gb l');
        ratio ← float_div used total;
        let usage_percent := PrimFloat.mul ratio 100 in
        (if float_ge usage_percent threshold_percent then
           let msg := storage_alert usage_percent used total in
           emit (LogWarning msg);;
           notify "Storage Usage Alert" msg (deliver p)
         else mret tt);;
        time_sleep check_interval;;
        storage_loop threshold_percent check_interval l' rest
  end.

Definition monitor_storage (threshold_percent : float) (check_interval : Z)
    (script : list poll) : py running :=
  emit (LogInfo ("Starting storage monitoring (threshold: "
                 +:+ float_text threshold_percent +:+ "%)"));;
  storage_loop threshold_percent check_interval (Levels None None) script.

Definition cost_alert (current_cost budget_threshold : float) : string :=
  "Cost alert: Current cost $" +:+ fixed 2 current_cost
  +:+ " exceeds budget threshold $" +:+ fixed 2 budget_threshold.

(** The [while True] loop of [monitor_costs]. *)
Fixpoint costs_loop (budget_threshold : float) (check_interval : Z)
    (script : list poll) : py running :=
  match script with
  | [] => mret Polling
  | p :: rest =>
      '(rc, out, err) ← subprocess_run costs_cmd (query_run p);
      if negb (rc =? 0) then
        let error_msg := "Failed to get cost info: " +:+ err in
        emit (LogError error_msg);;
        notify "Cost Monitoring Error" error_msg (deliver p);;
        (* continue *)
        costs_loop budget_threshold check_interval rest
      else
        current_cost ← external (total_cost p);
        (if float_ge current_cost budget_threshold then
           let msg := cost_alert current_cost budget_threshold in
           emit (LogWarning msg);;
           notify "Cost Alert" msg (deliver p)
         else mret tt);;
        time_sleep check_interval;;
        costs_loop budget_threshold check_interval rest
  end.

Definition monitor_costs (budget_threshold : float) (check_interval : Z)
    (script : list poll) : py running :=
  emit (LogInfo ("Starting cost monitoring (threshold: $"
                 +:+ float_text budget_threshold +:+ ")"));;
  costs_loop budget_threshold check_interval script.

(** One iteration of [monitor_pipeline]: the query, what [json.loads] made
    of its output (an object, of which the scalar values are kept), and
    what happens to the notification the iteration may send. *)
Record status_poll : Type := StatusPoll {
  status_run : proc_result;
  status_json : exn + gmap string pyval;
  status_deliver : delivery
}.

Definition analysis_cmd (analysis_id : string) : list string :=
  ["ica"; "projects"; "analyses"; "get"; project_name; analysis_id].

(** [current_status in ['Completed', 'Failed']], with the status when it is
    one of the two. *)
Definition final_status (v : pyval) : option string :=
  match v with
  | PStr s => if String.eqb s "Completed" || String.eqb s "Failed" then Some s else None
  | _ => None
  end.

(** [{'status': 'error', 'message': error_msg}]. *)
Definition error_report (error_msg : string) : gmap string pyval :=
  <["status" := PStr "error"]> (<["message" := PStr error_msg]> ∅).

(** The [while True] loop of [monitor_pipeline], one iteration per element
    of the script. *)
Fixpoint pipeline_loop `{!PyStr.UnicodeLower} (analysis_id : string) (check_interval : Z)
    (script : list status_poll) : py (loop_end (gmap string pyval)) :=
  match script with
  | [] => mret Polling
  | p :: rest =>
      '(rc, out, err) ← subprocess_run (analysis_cmd analysis_id) (status_run p);
      if negb (rc =? 0) then
        let error_msg := "Failed to get analysis status: " +:+ err in
        emit (LogError error_msg);;
        notify "Pipeline Monitoring Error" error_msg (status_deliver p);;
        mret (Finished (error_report error_msg))
      else
        status_data ← json_loads (status_json p);
        current_status ←
          match status_data !! "status" with
          | Some v => mret v
          | None => raise (Exn OtherError "'status'")     (* KeyError *)
          end;
        match final_status current_status with
        | Some st =>
            let msg := "Pipeline " +:+ analysis_id +:+ " " +:+ PyStr.lower st in
            emit (LogInfo msg);;
            notify ("Pipeline " +:+ st) msg (status_deliver p);;
            mret (Finished status_data)
        | None =>
            time_sleep check_interval;;
            pipeline_loop analysis_id check_interval rest
        end
  end.

Definition monitor_pipeline `{!PyStr.UnicodeLower} (analysis_id : string) (check_interval : Z)
    (script : list status_poll) : py (loop_end (gmap string pyval)) :=
  emit (LogInfo ("Starting monitoring of analysis " +:+ analysis_id));;
  pipeline_loop analysis_id check_interval script.

End monitor.

End Monitor.

(** ** The pipeline starter: [ica_cli_pipeline.py] *)

Module Pipeline.

Import IcaCli.

(** An element of the JSON array printed by [ica files list]. *)
Record file_entry : Type := FileEntry {
  file_name : string;
  file_type : string;
  file_id : string
}.

Record files_listing : Type := FilesListing {
  files_run : proc_result;
  files_json : exn + list file_entry
}.

Definition files_list_cmd (project_id : string) : list string :=
  ["ica"; "files"; "list"; "--project-id"; project_id; "--output"; "json"].

(** [folder_path.rstrip('/')]. *)
Definition rstrip_slash (s : string) : string :=
  PyStr.rstrip_with (λ c, Ascii.eqb c "/"%char) s.

(** [for file in files: if file['name'] == folder_name and
    file['type'] == 'FOLDER': return file['id']]. *)
Fixpoint first_folder (folder_name : string) (files : list file_entry)
    : option string :=
  match files with
  | [] => None
  | f :: rest =>
      if String.eqb (file_name f) folder_name && String.eqb (file_type f) "FOLDER"
      then Some (file_id f)
      else first_folder folder_name rest
  end.

Definition get_data_id (project_id folder_path : string) (w : files_listing)
    : py (option string) :=
  try_except
    ('(rc, out, err) ← subprocess_run (files_list_cmd project_id) (files_run w);
     if negb (rc =? 0) then
       emit (Stdout ("Error listing files: " +:+ err));;
       mret None
     else
       files ← json_loads (files_json w);
       let folder_name := PyStr.basename (rstrip_slash folder_path) in
       match first_folder folder_name files with
       | Some i => mret (Some i)
       | None =>
           emit (Stdout ("Folder '" +:+ folder_name +:+ "' not found in project"));;
           mret None
       end)
    (λ e,
      emit (Stdout ("Error getting data ID: " +:+ exn_str e));;
      mret None).

(** What [json.loads(result.stdout)] and [response.get('id')] come to for
    the output of [ica pipelines start]: an object and the value under
    ['id'] ([None] when the key is missing), a [json.JSONDecodeError], or
    another exception. *)
Inductive start_response : Type :=
  | StartObject (id : option string)
  | StartNotJson
  | StartRaised (e : exn).

Record world : Type := World {
  projects : listing;
  pipelines : listing;
  files : files_listing;
  params_is_file : bool;            (* os.path.isfile(params_file) *)
  start_run : proc_result;
  start_reply : start_response
}.

Definition start_cmd (project_id pipeline_id data_id : string)
    (params_file analysis_name : option string) : list string :=
  ["ica"; "pipelines"; "start"; "--project-id"; project_id;
   "--pipeline-id"; pipeline_id; "--input"; "folder_id=" +:+ data_id]
  ++ (if truthy params_file then ["--params-file"; default "" params_file] else [])
  ++ (if truthy analysis_name then ["--name"; default "" analysis_name] else []).

(** [f"{analysis_id}"] for the value of [response.get('id')]. *)
Definition id_text (id : option string) : string := default "None" id.

Definition start_pipeline `{!PyStr.UnicodeLower} (project_name pipeline_name input_folder : string)
    (params_file analysis_name : option string) (w : world) : py bool :=
  try_except
    (project_id ← get_project_id project_name (projects w);
     if negb (truthy project_id) then mret false
     else
       let project_id := default "" project_id in
       pipeline_id ← get_pipeline_id project_id pipeline_name (pipelines w);
       if negb (truthy pipeline_id) then mret false
       else
         let pipeline_id := default "" pipeline_id in
         data_id ← get_data_id project_id input_folder (files w);
         if negb (truthy data_id) then mret false
         else
           let data_id := default "" data_id in
           if truthy params_file && negb (params_is_file w) then
             emit (Stdout ("Error: Parameters file not found: "
                          +:+ default "" params_file));;
             mret false
           else
             let cmd := start_cmd project_id pipeline_id data_id
                          params_file analysis_name in
             emit (Stdout ("Starting pipeline '" +:+ pipeline_name
                          +:+ "' in project '" +:+ project_name +:+ "'..."));;
             emit (Stdout ("Using input folder: " +:+ input_folder));;
             '(rc, out, err) ← subprocess_run cmd (start_run w);
             if rc =? 0 then
               match start_reply w with
               | StartObject analysis_id =>
                   emit (Stdout "Successfully started pipeline analysis");;
                   emit (Stdout ("Analysis ID: " +:+ id_text analysis_id));;
                   emit (Stdout ("Monitor progress with: ica pipelines history --analysis-id "
                                +:+ id_text analysis_id));;
                   mret true
               | StartNotJson =>
                   emit (Stdout "Error parsing pipeline response");;
                   mret false
               | StartRaised e => raise e
               end
             else
               emit (Stdout ("Error starting pipeline: " +:+ err));;
               mret false)
    (λ e,
      emit (Stdout ("Error during pipeline execution: " +:+ exn_str e));;
      mret false).

Record args : Type := Args {
  project_name : string;
  pipeline_name : string;
  input_folder : string;
  params_file : option string;
  analysis_name : option string
}.

(** [main] after argument parsing; the value is the exit status given to
    [sys.exit]. *)
Definition main `{!PyStr.UnicodeLower} (a : args) (cli_check : proc_result)
    (w : world) : py Z :=
  ok ← check_ica_cli cli_check;
  if negb ok then
    print_cli_missing;;
    mret 1
  else
    success ← start_pipeline (project_name a) (pipeline_name a) (input_folder a)
                (params_file a) (analysis_name a) w;
    mret (if success : bool then 0 else 1).

End Pipeline.

(** ** The folder upload: [ica_cli_upload.py] *)

Module Upload.

Import IcaCli.

Record world : Type := World {
  is_dir : bool;                    (* os.path.isdir(folder_path) *)
  projects : listing;
  upload_run : proc_result
}.

Definition upload_cmd (project_id folder_path folder_name : string) : list string :=
  ["ica"; "files"; "upload"; "--project-id"; project_id; "--recursive";
   folder_path; folder_name].

Section upload.

Context {unicode : PyStr.UnicodeLower}.

(** [os.path.abspath], which depends on the working directory. *)
Variable abspath : string → string.

(** The name the folder gets in the project: [folder_name] when one is
    given, the last component of the absolute path otherwise. *)
Definition target_name (folder_path : string) (folder_name : option string)
    : string :=
  if truthy folder_name then default "" folder_name
  else PyStr.basename (abspath folder_path).

Definition upload_folder (folder_path project_name : string)
    (folder_name : option string) (w : world) : py bool :=
  try_except
    (let folder_path' := abspath folder_path in
     if negb (is_dir w) then
       emit (Stdout ("Error: Folder not found: " +:+ folder_path'));;
       mret false
     else
       project_id ← get_project_id project_name (projects w);
       if negb (truthy project_id) then mret false
       else
         let folder_name' := target_name folder_path folder_name in
         let cmd := upload_cmd (default "" project_id) folder_path' folder_name' in
         emit (Stdout ("Uploading folder '" +:+ folder_path' +:+ "' to project '"
                      +:+ project_name +:+ "'..."));;
         '(rc, _, err) ← subprocess_run cmd (upload_run w);
         if rc =? 0 then
           emit (Stdout "Successfully uploaded folder to ICA");;
           emit (Stdout ("Upload location: " +:+ folder_name'));;
           mret true
         else
           emit (Stdout ("Error uploading folder: " +:+ err));;
           mret false)
    (λ e,
      emit (Stdout ("Error during upload: " +:+ exn_str e));;
      mret false).

Record args : Type := Args {
  folder_path : string;
  project_name : string;
  folder_name : option string
}.

Definition main (a : args) (cli_check : proc_result) (w : world) : py Z :=
  ok ← check_ica_cli cli_check;
  if negb ok then
    print_cli_missing;;
    mret 1
  else
    success ← upload_folder (folder_path a) (project_name a) (folder_name a) w;
    mret (if success : bool then 0 else 1).

End upload.

End Upload.

(** ** The project data manager: [ica_project_manager.py] *)

Module ProjectManager.

(** One entry of the list returned by [list_data]. *)
Record data_item : Type := DataItem {
  item_name : string;
  item_created : string;
  item_size : string;
  item_type : string
}.

#[global] Instance data_item_eq_dec : EqDecision data_item.
Proof. solve_decision. Defined.

(** One call of [list_data] seen from outside: how the listing command
    ended, and what [datetime.now()] gave when it was called for the
    [i]-th line after the header, in microseconds since the epoch. *)
Record listing_world : Type := ListingWorld {
  ls_run : proc_result;
  ls_clock : nat → Z
}.

(** One call of [cleanup_old_data]: its listing, and how the delete command
    of the [i]-th listed item ended. *)
Record cleanup_world : Type := CleanupWorld {
  cl_listing : listing_world;
  cl_delete : nat → proc_result
}.

(** One call of [archive_old_data]: its listing, whether creating the
    archive directory raised, how the download of the [i]-th listed item
    ended, and the call of [cleanup_old_data] that follows it. *)
Record archive_world : Type := ArchiveWorld {
  ar_listing : listing_world;
  ar_mkdir : option exn;
  ar_download : nat → proc_result;
  ar_cleanup : nat → cleanup_world
}.

(** The microseconds of one day. *)
Definition day : Z := 86400000000.

(** [timedelta(days=n)], in microseconds; the magnitude of [n] is limited. *)
Definition timedelta_days (n : Z) : py Z :=
  if 999999999 <? Z.abs n
  then raise (Exn OtherError
                ("days=" +:+ PyStr.str_int n +:+ "; must have magnitude <= 999999999"))
  else mret (n * day).

Section manager.

Variable project_name : string.

(** [datetime.strptime(text, '%Y-%m-%d')]: the instant, in microseconds
    since the epoch, or the [ValueError]. *)
Variable strptime : string → exn + Z.

(** [str(Path(archive_dir) / name)]. *)
Variable path_join : string → string → string.

Definition list_cmd (pattern : option string) : list string :=
  ["ica"; "projects"; "data"; "ls"; project_name]
  ++ (if truthy pattern then ["--filter"; default "" pattern] else []).

(** [days and (datetime.now() - created) > timedelta(days=days)]. *)
Definition too_old (days : option Z) (now created : Z) : py bool :=
  match days with
  | None => mret false
  | Some n =>
      if n =? 0 then mret false
      else
        limit ← timedelta_days n;
        mret (limit <? now - created)
  end.

(** The body of the loop over the lines of the listing: [None] when the
    line is skipped with [continue]. *)
Definition data_row (days : option Z) (now : Z) (line : string)
    : py (option data_item) :=
  let parts := PyStr.split_ws line in
  match parts with
  | [] => mret None
  | _ =>
      created_text ← index parts 1;
      created ← external (strptime created_text);
      skip ← too_old days now created;
      if skip : bool then mret None
      else
        name ← index parts 0;
        created_text ← index parts 1;
        size ← index parts 2;
        type ← index parts 3;
        mret (Some {| item_name := name; item_created := created_text;
                      item_size := size; item_type := type |})
  end.

Fixpoint data_rows (days : option Z) (clock : nat → Z) (i : nat)
    (lines : list string) : py (list data_item) :=
  match lines with
  | [] => mret []
  | line :: rest =>
      item ← data_row days (clock i) line;
      items ← data_rows days clock (S i) rest;
      mret (match item with Some it => it :: items | None => items end)
  end.

Definition list_data (days : option Z) (pattern : option string)
    (w : listing_world) : py (list data_item) :=
  '(rc, out, err) ← subprocess_run (list_cmd pattern) (ls_run w);
  if negb (rc =? 0) then raise (Exn RuntimeError ("Failed to list data: " +:+ err))
  else data_rows days (ls_clock w) 0 (tail (PyStr.splitlines out)).

Definition delete_cmd (name : string) : list string :=
  ["ica"; "projects"; "data"; "delete"; project_name; name].

(** The loop of [cleanup_old_data] over the listed items; the value is
    [to_delete]. *)
Fixpoint cleanup_items (dry_run : bool) (deletes : nat → proc_result) (i : nat)
    (items : list data_item) : py (list string) :=
  match items with
  | [] => mret []
  | item :: rest =>
      if dry_run then
        emit (Stdout ("Would delete: " +:+ item_name item
                     +:+ " (" +:+ item_size item +:+ ")"));;
        cleanup_items dry_run deletes (S i) rest
      else
        '(rc, _, err) ← subprocess_run (delete_cmd (item_name item)) (deletes i);
        if rc =? 0 then
          names ← cleanup_items dry_run deletes (S i) rest;
          mret (item_name item :: names)
        else
          emit (Stdout ("Failed to delete " +:+ item_name item +:+ ": " +:+ err));;
          cleanup_items dry_run deletes (S i) rest
  end.

Definition cleanup_old_data (days : Z) (dry_run : bool) (w : cleanup_world)
    : py (list string) :=
  old_data ← list_data (Some days) None (cl_listing w);
  cleanup_items dry_run (cl_delete w) 0 old_data.

Definition download_cmd (name output_path : string) : list string :=
  ["ica"; "projects"; "data"; "download"; project_name; name;
   "--output-file"; output_path].

(** The loop of [archive_old_data] over the listed items; the value is
    [archived]. *)
Fixpoint archive_items (days : Z) (archive_dir : string) (w : archive_world)
    (i : nat) (items : list data_item) : py (list string) :=
  match items with
  | [] => mret []
  | item :: rest =>
      let output_path := path_join archive_dir (item_name item) in
      '(rc, _, err) ← subprocess_run (download_cmd (item_name item) output_path)
                        (ar_download w i);
      if rc =? 0 then
        cleanup_old_data days false (ar_cleanup w i);;
        names ← archive_items days archive_dir w (S i) rest;
        mret (item_name item :: names)
      else
        emit (Stdout ("Failed to archive " +:+ item_name item +:+ ": " +:+ err));;
        archive_items days archive_dir w (S i) rest
  end.

Definition archive_old_data (days : Z) (archive_dir : string) (w : archive_world)
    : py (list string) :=
  old_data ← list_data (Some days) None (ar_listing w);
  match ar_mkdir w with Some e => raise e | None => mret tt end;;
  archive_items days archive_dir w 0 old_data.

Definition storage_cmd : list string := ["ica"; "projects"; "storage"; project_name].

(** The numbers of [get_storage_usage] are floating point: [float(text)]
    and [(used / total) * 100] are given from outside, with the
    [ValueError] and the [ZeroDivisionError] they may raise. *)
Variable float : Type.
Variable parse_float : string → exn + float.
Variable percent : float → float → exn + float.

(** [float(line.split()[1].replace('GB', ''))]. *)
Definition gb_field (line : string) : py float :=
  field ← index (PyStr.split_ws line) 1;
  external (parse_float (PyStr.remove "GB" field)).

(** The loop over the lines of the storage report, from the dictionary
    [usage] filled so far. *)
Fixpoint usage_lines (usage : gmap string float) (lines : list string)
    : py (gmap string float) :=
  match lines with
  | [] => mret usage
  | line :: rest =>
      if PyStr.contains "Used:" line then
        v ← gb_field line;
        usage_lines (<["used_gb" := v]> usage) rest
      else if PyStr.contains "Available:" line then
        v ← gb_field line;
        usage_lines (<["available_gb" := v]> usage) rest
      else if PyStr.contains "Total:" line then
        v ← gb_field line;
        usage_lines (<["total_gb" := v]> usage) rest
      else usage_lines usage rest
  end.

(** [usage[k]]. *)
Definition key (usage : gmap string float) (k : string) : py float :=
  match usage !! k with
  | Some v => mret v
  | None => raise (Exn OtherError ("'" +:+ k +:+ "'"))     (* KeyError *)
  end.

Definition get_storage_usage (r : proc_result) : py (gmap string float) :=
  '(rc, out, err) ← subprocess_run storage_cmd r;
  if negb (rc =? 0) then raise (Exn RuntimeError ("Failed to get storage info: " +:+ err))
  else
    usage ← usage_lines ∅ (PyStr.splitlines out);
    used ← key usage "used_gb";
    total ← key usage "total_gb";
    p ← external (percent used total);
    mret (<["usage_percent" := p]> usage).

(** [json.dumps(value, indent=2)] for the two values [main] prints. *)
Variable dumps_items : list data_item → string.
Variable dumps_usage : gmap string float → string.

Inductive action : Type := ActList | ActCleanup | ActArchive | ActStorage.

Record args : Type := Args {
  act : action;
  days : option Z;
  pattern : option string;
  archive_dir : option string;
  dry_run : bool
}.

(** The outside world of one run of [main]: of the four, the one that
    belongs to the action is used. *)
Record world : Type := World {
  w_list : listing_world;
  w_cleanup : cleanup_world;
  w_archive : archive_world;
  w_storage : proc_result
}.

(** How [main] ends when no exception escapes: it returns, or
    [parser.error(message)] ends the process with status 2. *)
Inductive main_end : Type :=
  | Done
  | ParserError (message : string).

(** Truth value of an [Optional[int]]. *)
Definition nonzero (n : option Z) : bool :=
  match n with
  | Some n => negb (n =? 0)
  | None => false
  end.

Definition main (a : args) (w : world) : py main_end :=
  match act a with
  | ActList =>
      data ← list_data (days a) (pattern a) (w_list w);
      emit (Stdout (dumps_items data));;
      mret Done
  | ActCleanup =>
      if negb (nonzero (days a)) then mret (ParserError "--days is required for cleanup")
      else
        deleted ← cleanup_old_data (default 0 (days a)) (dry_run a) (w_cleanup w);
        emit (Stdout ("Deleted " +:+ PyStr.str_int (Z.of_nat (length deleted))
                     +:+ " items"));;
        mret Done
  | ActArchive =>
      if negb (nonzero (days a)) || negb (truthy (archive_dir a)) then
        mret (ParserError "--days and --archive-dir are required for archive")
      else
        archived ← archive_old_data (default 0 (days a)) (default "" (archive_dir a))
                     (w_archive w);
        emit (Stdout ("Archived " +:+ PyStr.str_int (Z.of_nat (length archived))
                     +:+ " items to " +:+ default "" (archive_dir a)));;
        mret Done
  | ActStorage =>
      usage ← get_storage_usage (w_storage w);
      emit (Stdout (dumps_usage usage));;
      mret Done
  end.

End manager.

End ProjectManager.

(** ** The scripts built on the SDK: [ica_download_results.py] and
       [ica_folder_upload.py] *)

Module Sdk.

(** An exception met by these scripts: the [ApiException] of the SDK, with
    [str(e)], or another exception derived from [Exception]. *)
Inductive sdk_exn : Type :=
  | ApiException (text : string)
  | OtherException (e : exn).

Definition exn_text (x : sdk_exn) : string :=
  match x with
  | ApiException text => text
  | OtherException e => exn_str e
  end.

(** What the scripts do to the outside world, in program order. *)
Inductive action : Type :=
  | GetAnalysis (project_id analysis_id : string)
  | CreateDownloadSession (project_id : string) (data_ids : list string)
  | ListFilesInFolder (project_id folder_id : string)
  | DownloadFileContent (project_id file_id : string)
  | CreateFolderUploadSession (project_id name : string)
  | UploadFolderSessionFile (session_id relative_path : string)
  | CompleteFolderUploadSession (session_id : string)
  | CreatePipelineAnalysis (project_id pipeline_id folder_id : string)
      (parameters : list (string * pyval))
  | MakeDirs (path : string)                  (* os.makedirs(path, exist_ok=True) *)
  | OpenWrite (path : string)                 (* open(path, 'wb') *)
  | OpenRead (path : string)                  (* open(path, 'rb') *)
  | Out (line : string)                       (* print(...) *)
  | Pause (seconds : Z).                      (* time.sleep(...) *)

#[global] Instance sdk_exn_eq_dec : EqDecision sdk_exn.
Proof. solve_decision. Defined.

#[global] Instance action_eq_dec : EqDecision action.
Proof. solve_decision. Defined.

(** How a computation ends: with a value, with an exception, or with
    [sys.exit(code)], which no [except Exception] clause catches. *)
Inductive ending (A : Type) : Type :=
  | Returned (a : A)
  | Raised (x : sdk_exn)
  | Exited (code : Z).
Arguments Returned {A} a.
Arguments Raised {A} x.
Arguments Exited {A} code.

Definition sdk (A : Type) : Type := list action * ending A.

#[global] Instance sdk_ret : MRet sdk := λ A a, ([], Returned a).

#[global] Instance sdk_bind : MBind sdk := λ A B k m,
  match m with
  | (t, Returned a) => let '(t', r) := k a in (t ++ t', r)
  | (t, Raised x) => (t, Raised x)
  | (t, Exited code) => (t, Exited code)
  end.

Definition act (a : action) : sdk unit := ([a], Returned tt).
Definition throw {A : Type} (x : sdk_exn) : sdk A := ([], Raised x).
Definition sys_exit {A : Type} (code : Z) : sdk A := ([], Exited code).

Definition actions {A : Type} (m : sdk A) : list action := m.1.
Definition ended {A : Type} (m : sdk A) : ending A := m.2.

(** [try: body except ApiException as e: handler (str e)]. *)
Definition except_api {A : Type} (body : sdk A) (handler : string → sdk A) : sdk A :=
  match body with
  | (t, Raised (ApiException text)) => let '(t', r) := handler text in (t ++ t', r)
  | _ => body
  end.

(** [try: body except Exception as e: handler (str e)]. *)
Definition except_any {A : Type} (body : sdk A) (handler : string → sdk A) : sdk A :=
  match body with
  | (t, Raised x) => let '(t', r) := handler (exn_text x) in (t ++ t', r)
  | _ => body
  end.

(** [try: body except ApiException as e: on_api (str e)
    except Exception as e: on_other (str e)]. *)
Definition except_api_any {A : Type} (body : sdk A)
    (on_api on_other : string → sdk A) : sdk A :=
  match body with
  | (t, Raised (ApiException text)) => let '(t', r) := on_api text in (t ++ t', r)
  | (t, Raised (OtherException e)) =>
      let '(t', r) := on_other (exn_str e) in (t ++ t', r)
  | _ => body
  end.

(** A call that gives a value, with the value or the exception it ended
    with; and a call made for its effect, with the exception if any. *)
Definition call {A : Type} (a : action) (r : sdk_exn + A) : sdk A :=
  act a;;
  match r with
  | inl x => throw x
  | inr v => mret v
  end.

Definition effect (a : action) (raised : option sdk_exn) : sdk unit :=
  act a;;
  match raised with
  | Some x => throw x
  | None => mret tt
  end.

(** [time.sleep(seconds)] for an [int], with the [OverflowError] and the
    [ValueError] of a length that does not fit or is negative. *)
Definition pause (seconds : Z) : sdk unit :=
  if sleep_max <? Z.abs seconds then
    throw (OtherException
             (Exn OtherError "timestamp too large to convert to C _PyTime_t"))
  else if seconds <? 0 then
    throw (OtherException (Exn OtherError "sleep length must be non-negative"))
  else act (Pause seconds).

(** The API calls and the sleeps in a list of actions, in order. *)
Definition is_api_call (a : action) : bool :=
  match a with
  | MakeDirs _ | OpenWrite _ | OpenRead _ | Out _ | Pause _ => false
  | _ => true
  end.

Definition api_calls (t : list action) : list action := List.filter is_api_call t.

Definition pauses (t : list action) : list Z :=
  omap (λ a, match a with Pause n => Some n | _ => None end) t.

Definition outs (t : list action) : list string :=
  omap (λ a, match a with Out line => Some line | _ => None end) t.

(** *** [authenticate_ica], the same in both scripts *)

Record client : Type := Client { host : string; api_key : string }.

Definition default_base_url : string := "https://ica.illumina.com/ica/rest".

(** [env] is [os.environ]; [construct] tells whether building the
    [Configuration] and the [ApiClient] raised. *)
Definition authenticate_ica (env : gmap string string) (construct : option sdk_exn)
    : sdk client :=
  except_any
    (let api_key := env !! "ICA_API_KEY" in
     let base_url := default default_base_url (env !! "ICA_BASE_URL") in
     if negb (truthy api_key) then
       throw (OtherException
                (Exn OtherError "ICA_API_KEY environment variable is not set"))
     else
       match construct with
       | Some x => throw x
       | None => mret (Client base_url (default "" api_key))
       end)
    (λ text,
      act (Out ("Authentication failed: " +:+ text));;
      sys_exit 1).

(** *** [ica_download_results.py] *)

Module DownloadResults.

(** [status in ["FAILED", "CANCELLED", "TERMINATED"]]. *)
Definition ended_badly (status : string) : bool :=
  existsb (String.eqb status) ["FAILED"; "CANCELLED"; "TERMINATED"].

(** One turn of the [while True] loop of [wait_for_analysis_completion]:
    [Some b] when it leaves the function with [return b], [None] when the
    loop goes on.  [reply] is what [get_analysis(...).status] came to. *)
Definition check_once (project_id analysis_id : string) (polling_interval : Z)
    (reply : sdk_exn + string) : sdk (option bool) :=
  except_api
    (status ← call (GetAnalysis project_id analysis_id) reply;
     act (Out ("Current status: " +:+ status));;
     if String.eqb status "SUCCEEDED" then mret (Some true)
     else if ended_badly status then
       act (Out ("Analysis ended with status: " +:+ status));;
       mret (Some false)
     else
       pause polling_interval;;
       mret None)
    (λ text,
      act (Out ("Error checking analysis status: " +:+ text));;
      mret (Some false)).

Fixpoint completion_loop (project_id analysis_id : string) (polling_interval : Z)
    (script : list (sdk_exn + string)) : sdk (loop_end bool) :=
  match script with
  | [] => mret Polling
  | reply :: rest =>
      v ← check_once project_id analysis_id polling_interval reply;
      match v with
      | Some b => mret (Finished b)
      | None => completion_loop project_id analysis_id polling_interval rest
      end
  end.

Definition wait_for_analysis_completion (project_id analysis_id : string)
    (polling_interval : Z) (script : list (sdk_exn + string)) : sdk (loop_end bool) :=
  act (Out ("Monitoring analysis " +:+ analysis_id +:+ "..."));;
  completion_loop project_id analysis_id polling_interval script.

(** [reply] is what [get_analysis(...).output.folder.id] came to. *)
Definition get_analysis_output_folder (project_id analysis_id : string)
    (reply : sdk_exn + string) : sdk string :=
  except_api
    (call (GetAnalysis project_id analysis_id) reply)
    (λ text,
      act (Out ("Error getting output folder: " +:+ text));;
      sys_exit 1).

(** An element of the listing of the folder: [file.path], [file.id]. *)
Record remote_file : Type := RemoteFile { file_path : string; file_id : string }.

(** What happens to one file: creating its directory, opening the local
    file, fetching the content. *)
Record file_world : Type := FileWorld {
  fw_makedirs : option sdk_exn;
  fw_open : option sdk_exn;
  fw_download : option sdk_exn
}.

Record folder_world : Type := FolderWorld {
  session : option sdk_exn;
  root_makedirs : option sdk_exn;
  listing : sdk_exn + list remote_file;
  per_file : nat → file_world
}.

Section paths.

(** [os.path.join] and [os.path.dirname]. *)
Variable path_join : string → string → string.
Variable dirname : string → string.

(** The loop [for file in files] of [download_folder]. *)
Fixpoint download_files (project_id local_path : string)
    (per_file : nat → file_world) (i : nat) (files : list remote_file) : sdk unit :=
  match files with
  | [] => mret tt
  | file :: rest =>
      let local_file_path := path_join local_path (file_path file) in
      effect (MakeDirs (dirname local_file_path)) (fw_makedirs (per_file i));;
      act (Out ("Downloading: " +:+ file_path file));;
      effect (OpenWrite local_file_path) (fw_open (per_file i));;
      effect (DownloadFileContent project_id (file_id file)) (fw_download (per_file i));;
      download_files project_id local_path per_file (S i) rest
  end.

Definition download_folder (project_id folder_id local_path : string)
    (w : folder_world) : sdk unit :=
  except_api_any
    (effect (CreateDownloadSession project_id [folder_id]) (session w);;
     effect (MakeDirs local_path) (root_makedirs w);;
     files ← call (ListFilesInFolder project_id folder_id) (listing w);
     download_files project_id local_path (per_file w) 0 files;;
     act (Out ("Successfully downloaded all files to: " +:+ local_path)))
    (λ text,
      act (Out ("API error occurred: " +:+ text));;
      sys_exit 1)
    (λ text,
      act (Out ("An error occurred: " +:+ text));;
      sys_exit 1).

Record args : Type := Args {
  project_id : string;
  analysis_id : string;
  output_dir : string;
  wait_for_completion : bool;
  polling_interval : Z
}.

Record world : Type := World {
  env : gmap string string;
  construct : option sdk_exn;
  statuses : list (sdk_exn + string);
  output_folder : sdk_exn + string;
  folder : folder_world
}.

(** [main] after argument parsing: [Finished tt] when it runs to its end. *)
Definition main (a : args) (w : world) : sdk (loop_end unit) :=
  authenticate_ica (env w) (construct w);;
  waited ←
    (if wait_for_completion a then
       r ← wait_for_analysis_completion (project_id a) (analysis_id a)
             (polling_interval a) (statuses w);
       match r with
       | Polling => mret Polling
       | Finished success =>
           if negb success then
             act (Out "Analysis did not complete successfully");;
             sys_exit 1
           else mret (Finished tt)
       end
     else mret (Finished tt));
  match waited with
  | Polling => mret Polling
  | Finished _ =>
      folder_id ← get_analysis_output_folder (project_id a) (analysis_id a)
                    (output_folder w);
      download_folder (project_id a) folder_id (output_dir a) (folder w);;
      mret (Finished tt)
  end.

End paths.

End DownloadResults.

(** *** [ica_folder_upload.py] *)

Module FolderUpload.

(** What happens to one file of the folder: opening it, sending it. *)
Record file_world : Type := FileWorld {
  fw_open : option sdk_exn;
  fw_upload : option sdk_exn
}.

Record world : Type := World {
  is_dir : bool;                                  (* os.path.isdir(folder_path) *)
  env : gmap string string;
  construct : option sdk_exn;
  session : sdk_exn + string;                     (* the session, by its id *)
  walk : list (string * list string);             (* os.walk: root and files *)
  per_file : nat → file_world;
  complete : sdk_exn + string;                    (* the folder, by its id *)
  params_json : exn + (sdk_exn + list (string * pyval));
  analysis : sdk_exn + string                     (* the analysis, by its id *)
}.

(** The files met by the two nested loops over [os.walk], in order, each
    with the directory it is in. *)
Definition walk_files (walk : list (string * list string)) : list (string * string) :=
  walk ≫= λ '(root, files), pair root <$> files.

Section paths.

(** [os.path.abspath], [os.path.join] and [os.path.relpath]. *)
Variable abspath : string → string.
Variable path_join : string → string → string.
Variable relpath : string → string → string.

Fixpoint upload_files (session_id folder_path : string)
    (per_file : nat → file_world) (i : nat) (files : list (string * string))
    : sdk unit :=
  match files with
  | [] => mret tt
  | (root, file) :: rest =>
      let file_path := path_join root file in
      let relative_path := relpath file_path folder_path in
      act (Out ("Uploading: " +:+ relative_path));;
      effect (OpenRead file_path) (fw_open (per_file i));;
      effect (UploadFolderSessionFile session_id relative_path)
        (fw_upload (per_file i));;
      upload_files session_id folder_path per_file (S i) rest
  end.

Definition upload_folder (folder_path project_id : string) (w : world) : sdk string :=
  except_api_any
    (let folder_path' := abspath folder_path in
     if negb (is_dir w) then
       throw (OtherException (Exn OtherError ("Folder not found: " +:+ folder_path')))
     else
       authenticate_ica (env w) (construct w);;
       let folder_name := PyStr.basename folder_path' in
       session_id ← call (CreateFolderUploadSession project_id folder_name) (session w);
       act (Out ("Created upload session for folder: " +:+ folder_name));;
       upload_files session_id folder_path' (per_file w) 0 (walk_files (walk w));;
       folder_id ← call (CompleteFolderUploadSession session_id) (complete w);
       act (Out ("Successfully uploaded folder: " +:+ folder_name));;
       mret folder_id)
    (λ text,
      act (Out ("API error occurred: " +:+ text));;
      sys_exit 1)
    (λ text,
      act (Out ("An error occurred: " +:+ text));;
      sys_exit 1).

(** [params] is what [params.items()] and the construction of the request
    came to: the pairs of the parameters, in order, or an exception. *)
Definition start_dragen_pipeline (project_id folder_id pipeline_id : string)
    (params : sdk_exn + list (string * pyval)) (w : world) : sdk string :=
  except_api_any
    (authenticate_ica (env w) (construct w);;
     parameters ← match params with
                  | inl x => throw x
                  | inr items => mret items
                  end;
     analysis_id ← call (CreatePipelineAnalysis project_id pipeline_id folder_id
                           parameters) (analysis w);
     act (Out ("Started DRAGEN pipeline analysis. Analysis ID: " +:+ analysis_id));;
     mret analysis_id)
    (λ text,
      act (Out ("API error occurred while starting pipeline: " +:+ text));;
      sys_exit 1)
    (λ text,
      act (Out ("An error occurred while starting pipeline: " +:+ text));;
      sys_exit 1).

Record args : Type := Args {
  folder_path : string;
  project_id : string;
  pipeline_id : option string
}.

Definition main (a : args) (w : world) : sdk unit :=
  folder_id ← upload_folder (folder_path a) (project_id a) w;
  if truthy (pipeline_id a) then
    params ← match params_json w with
             | inl e => throw (OtherException e)       (* json.loads raised *)
             | inr params => mret params
             end;
    analysis_id ← start_dragen_pipeline (project_id a) folder_id
                    (default "" (pipeline_id a)) params w;
    act (Out ("Pipeline started successfully. You can monitor the analysis using the analysis ID: "
              +:+ analysis_id))
  else mret tt.

End paths.

End FolderUpload.

End Sdk.

(** * The vocabulary of the properties *)

(** A length that [time.sleep] accepts. *)
Definition sleepable (seconds : Z) : Prop := 0 ≤ seconds ≤ sleep_max.

(** ** Parameter sets *)

Section parameter_vocabulary.

Import BatchProcessor.

(** The custom parameters of a row: its mapping, empty when the row has
    none or has a scalar in its place. *)
Definition custom_of (s : sample) : gmap string pyval :=
  match custom_params s with
  | Some (CustomMapping m) => m
  | _ => ∅
  end.

(** The rows on which the update with the custom parameters goes through:
    the row has no [custom_params], or a mapping, or the empty text. *)
Definition mergeable (s : sample) : bool :=
  match custom_params s with
  | None => true
  | Some (CustomMapping _) => true
  | Some (CustomScalar v) => bool_decide (v = PStr "")
  end.


Definition annotation_file (s : sample) : pyval :=
  PStr ("/reference-data/" +:+ reference s +:+ "/genes.gtf").



End parameter_vocabulary.

(** ** Rows of a batch *)

Section batch_vocabulary.

Import BatchProcessor.

(** The text of the exception raised while the parameters of the row are
    generated, if any. *)
Definition params_failure (s : sample) : option string :=
  match result (_generate_params s) with
  | Raise e => Some (exn_str e)
  | Return _ => None
  end.

(** The text of the exception that ends the [try] block of
    [process_sample] for the row [s] in the world [w], if any: the first
    stage that raises or reports a return code other than zero. *)
Definition failure_text (s : sample) (w : sample_world) : option string :=
  match upload_run w with
  | SpawnRaised e => Some (exn_str e)
  | Completed rc _ err =>
      if negb (rc =? 0) then Some ("Upload failed: " +:+ err)
      else
        match params_failure s with
        | Some text => Some text
        | None =>
            match params_write w with
            | Some e => Some (exn_str e)
            | None =>
                match pipeline_run w with
                | SpawnRaised e => Some (exn_str e)
                | Completed rc' _ err' =>
                    if negb (rc' =? 0) then Some ("Pipeline failed: " +:+ err')
                    else None
                end
            end
        end
  end.

(** An item succeeds when no stage of its pipeline fails or raises. *)
Definition succeeds (s : sample) (w : sample_world) : bool :=
  bool_decide (failure_text s w = None).

Definition completed_row (s : sample) (w : sample_world) : result_row :=
  {| res_sample_id := sample_id s; res_status := "completed";
     res_error := None; res_timestamp := finished_at w |}.

Definition failed_row (s : sample) (w : sample_world) (err : string) : result_row :=
  {| res_sample_id := sample_id s; res_status := "failed";
     res_error := Some err; res_timestamp := finished_at w |}.

Definition row_for (s : sample) (w : sample_world) : result_row :=
  match failure_text s w with
  | None => completed_row s w
  | Some err => failed_row s w err
  end.

(** The rows of a batch, one per sample, in the order of the sheet. *)
Definition batch_rows (worlds : nat → sample_world) (samples : list sample)
    : list result_row :=
  imap (λ i s, row_for s (worlds i)) samples.

Definition log_line (r : result_row) : event :=
  LogInfo ("Sample " +:+ res_sample_id r +:+ " " +:+ res_status r).

Definition summary_of (now : string) (samples : list sample)
    (results : list result_row) : summary :=
  {| total_samples := length samples;
     completed := length (List.filter (has_status "completed") results);
     failed := length (List.filter (has_status "failed") results);
     sum_timestamp := now |}.

(** A row is [completed] or [failed]. *)
Definition two_valued (r : result_row) : Prop :=
  res_status r = "completed" ∨ res_status r = "failed".

(** The number of rows of a sheet that succeed, and that fail, in their
    worlds. *)
Definition count_rows (wanted : bool) (worlds : nat → sample_world)
    (samples : list sample) : nat :=
  length (List.filter (λ b, Bool.eqb b wanted)
            (imap (λ i s, succeeds s (worlds i)) samples)).

(** The batch meets nothing that ends it early: the sheet is read, the
    pool can be built, and the directory and the two files can be
    written. *)
Definition undisturbed (max_concurrent : Z) (w : batch_world)
    (samples : list sample) : Prop :=
  sheet w = inr samples ∧ 0 < max_concurrent
  ∧ mkdir w = None ∧ results_write w = None ∧ summary_write w = None.

(** The artifacts written in a trace: the paths of the files, in order. *)
Definition artifacts (t : list event) : list (string * json_doc) :=
  omap (λ e, match e with WriteJson path doc => Some (path, doc) | _ => None end) t.

End batch_vocabulary.

(** ** Replies to the status poller *)

Section poller_vocabulary.

Import Download.

(** A status query that succeeds: the command exits with 0, its output
    [out] decodes to an object with the status [st] and the output folder
    lookup [lookup]. *)
Definition answered (out err st : string) (lookup : output_lookup) : status_world :=
  StatusWorld (Completed 0 out err) (inr (Analysis (Some st) lookup)).

(** A status that makes the poller sleep and ask again. *)
Definition in_progress (st : string) : bool :=
  negb (String.eqb st "COMPLETED") && negb (ended_badly st).

Definition reply_in_progress (w : status_world) : Prop :=
  ∃ out err st lookup, w = answered out err st lookup ∧ in_progress st = true.

(** A reply from which no output folder identifier is read: the key is
    missing, or the lookup raised. *)
Definition no_identifier (lookup : output_lookup) : Prop :=
  lookup = FolderId None ∨ lookup = LookupRaised.

(** What [get_analysis_status] reads from a successful query. *)
Definition folder_read (st : string) (lookup : output_lookup) : option string :=
  if String.eqb st "COMPLETED"
  then match lookup with FolderId i => i | LookupRaised => None end
  else None.

Definition lookup_warning (st : string) (lookup : output_lookup) : list event :=
  if String.eqb st "COMPLETED"
  then match lookup with
       | FolderId _ => []
       | LookupRaised =>
           [Stdout "Warning: Could not find output folder ID in completed analysis"]
       end
  else [].

(** The failure value of the poller carries the terminal status as its
    reason when the status can be read back from what the poller returns:
    there is a way to read outcomes that gives, for each of the three
    terminal statuses, that status from the outcome of a run ending with
    it. *)
Definition failure_carries_reason
    (run : string → outcome (loop_end (option string))) : Prop :=
  ∃ reason_of : outcome (loop_end (option string)) → string,
    ∀ st, st ∈ ["FAILED"; "ABORTED"; "TERMINATED"] → reason_of (run st) = st.

(** A call of the poller surfaces an error when it raises, or when it
    returns its failure value [None] without having announced that the
    analysis completed successfully. *)
Definition surfaces_error (m : py (loop_end (option string))) : Prop :=
  (∃ e, result m = Raise e)
  ∨ (result m = Return (Finished None)
     ∧ Stdout "Analysis completed successfully!" ∉ trace m).

End poller_vocabulary.

(** ** Names *)

(** Two characters are the same letter when they are equal or one is the
    lower-case form of the other, an upper-case ASCII letter. *)
Definition is_upper (c : ascii) : Prop := (65 ≤ PyStr.code c ≤ 90)%N.

Definition same_letter (a b : ascii) : Prop :=
  a = b
  ∨ (is_upper a ∧ PyStr.code b = (PyStr.code a + 32)%N)
  ∨ (is_upper b ∧ PyStr.code a = (PyStr.code b + 32)%N).

(** Two ASCII names with the same letters: same length, and the same
    letter at each place. *)
Inductive same_letters : string → string → Prop :=
  | sl_empty : same_letters EmptyString EmptyString
  | sl_cons a b s t :
      same_letter a b → same_letters s t →
      same_letters (String a s) (String b t).

Section names_vocabulary.

Context {unicode : PyStr.UnicodeLower}.

(** Equality of names ignoring case: the two names have the same
    lower-case form. *)
Definition equal_ignoring_case (a b : string) : Prop :=
  PyStr.lower a = PyStr.lower b.

(** What resolving [wanted] in a listing must give: the identifier of the
    first entry whose name equals [wanted] ignoring case, or nothing when
    there is no such entry. *)
Definition resolves_to (wanted : string) (entries : list IcaCli.entry)
    (r : option string) : Prop :=
  match r with
  | Some i =>
      ∃ pre e post,
        entries = pre ++ e :: post
        ∧ Forall (λ x, ¬ equal_ignoring_case (IcaCli.name x) wanted) pre
        ∧ equal_ignoring_case (IcaCli.name e) wanted
        ∧ IcaCli.id e = i
  | None => Forall (λ x, ¬ equal_ignoring_case (IcaCli.name x) wanted) entries
  end.

End names_vocabulary.

(** ** Stages of the workflow *)

Section workflow_vocabulary.

Import Workflow.

Variable sys_executable : string.
Variable script_path : string → string.

(** The three stages of the workflow for the arguments [a] in the world
    [w]; the second is given the value of the first, the third the value of
    the second. *)
Definition stage_upload (a : args) (w : world) : py (option string) :=
  run_upload sys_executable script_path
    (input_folder a) (project_name a) (folder_name a) (upload_run w).

Definition stage_pipeline (a : args) (w : world) (folder : option string)
    : py (option string) :=
  run_pipeline sys_executable script_path
    (project_name a) (pipeline_name a) (default "" folder)
    (params_file a) (analysis_name a) (pipeline_run w).

Definition stage_download (a : args) (w : world) (analysis : option string)
    : py bool :=
  run_download sys_executable script_path
    (project_name a) (default "" analysis) (output_dir a)
    (polling_interval a) (download_run w).

(** The commands of the three stages, given the values passed along. *)
Definition upload_command (a : args) : list string :=
  upload_cmd sys_executable script_path
    (input_folder a) (project_name a) (folder_name a).

Definition pipeline_command (a : args) (folder : option string) : list string :=
  pipeline_cmd sys_executable script_path
    (project_name a) (pipeline_name a) (default "" folder)
    (params_file a) (analysis_name a).

Definition download_command (a : args) (analysis : option string) : list string :=
  download_cmd sys_executable script_path
    (project_name a) (default "" analysis) (output_dir a) (polling_interval a).

End workflow_vocabulary.

(** ** Iterations of a monitor *)

Section monitor_vocabulary.

Import Monitor.

(** The mail a notification sends. *)
Definition mail (config : NotificationConfig) (subject body : string) : event :=
  SmtpSend (sender config) (email_to config) subject body.

(** An iteration whose query exits with a status other than zero while the
    error notification goes through. *)
Definition query_fails (p : poll) : Prop :=
  ∃ rc out err, query_run p = Completed rc out err ∧ rc ≠ 0
  ∧ smtp (deliver p) = None.

(** An iteration of the cost monitor whose query succeeds and gives the
    cost [c], and whose alert, if any, goes through. *)
Definition cost_reads (p : poll) (c : float) : Prop :=
  ∃ out err, query_run p = Completed 0 out err
  ∧ total_cost p = inr c
  ∧ smtp (deliver p) = None.

End monitor_vocabulary.

(** ** Concrete runs *)

(** A germline row whose custom parameters switch one flag off and rename
    the output directory. *)
Definition germline_row : BatchProcessor.sample :=
  {| BatchProcessor.sample_id := "NA12878";
     BatchProcessor.data_folder := "/data/NA12878";
     BatchProcessor.pipeline := "dragen-germline";
     BatchProcessor.reference := "hg38";
     BatchProcessor.target_bed := None;
     BatchProcessor.custom_params :=
       Some (BatchProcessor.CustomMapping
               (<["enable-sort" := PBool false]>
               (<["output-directory" := PStr "/scratch"]> ∅))) |}.


(** A batch of three rows in which the workflow of the second one exits
    with status 2 and the other two run through. *)
Definition sheet3 : list BatchProcessor.sample :=
  [ BatchProcessor.Sample "S1" "/data/S1" "dragen-germline" "hg38" None None;
    BatchProcessor.Sample "S2" "/data/S2" "dragen-rna" "hg38" None None;
    BatchProcessor.Sample "S3" "/data/S3" "dragen-enrichment" "hg19"
      (Some "/beds/panel.bed") None ].

Definition world_ok : BatchProcessor.sample_world :=
  BatchProcessor.SampleWorld (Completed 0 "" "") None (Completed 0 "" "")
    "2024-05-01T10:00:00".

Definition world_pipeline_fails : BatchProcessor.sample_world :=
  BatchProcessor.SampleWorld (Completed 0 "" "") None
    (Completed 2 "" "Pipeline start failed. Stopping workflow.")
    "2024-05-01T10:00:07".

Definition worlds3 (i : nat) : BatchProcessor.sample_world :=
  if Nat.eqb i 1 then world_pipeline_fails else world_ok.

Definition batch3 : BatchProcessor.batch_world :=
  BatchProcessor.BatchWorld (inr sheet3) worlds3 "2024-05-01T10:01:00"
    None None None.

(** The same batch in which every item succeeds, and in which the disk is
    full when [results.json] is written. *)
Definition batch3_disk_full : BatchProcessor.batch_world :=
  BatchProcessor.BatchWorld (inr sheet3) (λ _, world_ok) "2024-05-01T10:01:00"
    None (Some (Exn OtherError "[Errno 28] No space left on device")) None.

(** A run of the download script: two RUNNING replies, then COMPLETED with
    an output object that has no folder identifier. *)
Definition world_without_folder : Download.world :=
  Download.World
    (Completed 0 "ica 2.21" "")
    (IcaCli.Listing (Completed 0 "[...]" "") (inr [IcaCli.Entry "Demo" "p-17"]))
    [answered "{...}" "" "RUNNING" (Download.FolderId None);
     answered "{...}" "" "RUNNING" (Download.FolderId None);
     answered "{...}" "" "COMPLETED" (Download.FolderId None)]
    None
    (Completed 0 "" "").

Definition args_wait : Download.args :=
  Download.Args "demo" "a-42" "./out" false 60.

(** A listing in which two projects differ from the requested name only in
    the case of their letters. *)
Definition projects_listing : IcaCli.listing :=
  IcaCli.Listing (Completed 0 "[...]" "")
    (inr [IcaCli.Entry "Alpha" "p-1"; IcaCli.Entry "DEMO" "p-2";
          IcaCli.Entry "demo" "p-3"]).

(** A run of the workflow in which the upload succeeds and gives the folder
    name [run7], and the pipeline script exits with status 3. *)
Definition args_run7 : Workflow.args :=
  Workflow.Args "/data/run7/" "Demo" "dragen-germline" "./out"
    None (Some "params.json") None 60.

Definition world_submit_fails : Workflow.world :=
  Workflow.World (Completed 0 "ica 2.21" "") (Completed 0 "" "")
    (Completed 3 "" "Pipeline 'dragen-germline' not found in project")
    (Workflow.Streamed ["Downloading results"] 0 "").

Definition scripts_in_opt (name : string) : string := "/opt/ica/" +:+ name.

(** A configuration with a chat webhook, and a query that fails. *)
Definition config_with_webhook : Monitor.NotificationConfig :=
  {| Monitor.email_to := "ops@example.org"; Monitor.smtp_host := "localhost";
     Monitor.smtp_port := 25; Monitor.smtp_user := None; Monitor.smtp_pass := None;
     Monitor.slack_webhook := Some "https://hooks.example.org/T1" |}.

Definition failing_poll : Monitor.poll :=
  Monitor.Poll (Completed 1 "" "permission denied")
    (inl (Exn OtherError "Expecting value: line 1 column 1 (char 0)"))
    (Monitor.Delivery None None).

(** For the concrete runs, whose names are ASCII, the lower-case form of
    other text is never asked for. *)
Definition ascii_names : PyStr.UnicodeLower := λ s, s.

(** * The vocabulary of the properties of the other scripts *)

(** ** Folders of a project *)

Section files_vocabulary.

Import Pipeline.

Definition is_folder_named (wanted : string) (f : file_entry) : Prop :=
  file_name f = wanted ∧ file_type f = "FOLDER".

(** What looking up the folder [wanted] in a file listing must give: the
    identifier of the first entry of type [FOLDER] with exactly this name,
    or nothing when there is no such entry. *)
Definition finds_folder (wanted : string) (files : list file_entry)
    (r : option string) : Prop :=
  match r with
  | Some i =>
      ∃ pre f post,
        files = pre ++ f :: post
        ∧ Forall (λ x, ¬ is_folder_named wanted x) pre
        ∧ is_folder_named wanted f
        ∧ file_id f = i
  | None => Forall (λ x, ¬ is_folder_named wanted x) files
  end.

Definition pipelines_list_cmd (project_id : string) : list string :=
  ["ica"; "pipelines"; "list"; "--project-id"; project_id; "--output"; "json"].

(** The start command has all it needs: the three identifiers are not
    empty, and the parameter file, when one is named, exists. *)
Definition ready (project pipeline data params_file : option string)
    (w : world) : bool :=
  truthy project && truthy pipeline && truthy data
  && (negb (truthy params_file) || params_is_file w).

(** The start command ends with status 0 and its output decodes to an
    object. *)
Definition accepted (w : world) : bool :=
  match start_run w, start_reply w with
  | Completed rc _ _, StartObject _ => rc =? 0
  | _, _ => false
  end.

End files_vocabulary.

(** ** Texts *)

(** What a script has written to its standard output: every printed line,
    each followed by a line feed. *)
Fixpoint printed (t : list event) : string :=
  match t with
  | [] => ""
  | Stdout line :: r => line +:+ PyStr.nl +:+ printed r
  | _ :: r => printed r
  end.

(** A text without line boundaries. *)
Fixpoint one_line (s : string) : bool :=
  match s with
  | EmptyString => true
  | String c r => negb (PyStr.is_linebreak c) && one_line r
  end.

(** A text without a slash. *)
Fixpoint no_slash (s : string) : bool :=
  match s with
  | EmptyString => true
  | String c r => negb (Ascii.eqb c "/"%char) && no_slash r
  end.

(** ** What the pipeline starter prints before it runs the start command *)

Definition starting_line (a : Pipeline.args) : string :=
  "Starting pipeline '" +:+ Pipeline.pipeline_name a +:+ "' in project '"
  +:+ Pipeline.project_name a +:+ "'...".

Definition input_line (a : Pipeline.args) : string :=
  "Using input folder: " +:+ Pipeline.input_folder a.

(** ** The folder upload *)

Section upload_vocabulary.

Import Upload.

(** Everything the upload needs is there: the folder exists and the
    project was resolved to an identifier that is not empty. *)
Definition uploadable (project : option string) (w : world) : bool :=
  is_dir w && truthy project.

End upload_vocabulary.

(** The name under which [get_data_id] looks up the folder [folder_path]. *)
Definition looked_up (folder_path : string) : string :=
  PyStr.basename (Pipeline.rstrip_slash folder_path).

(** ** Replies to the status poller, continued *)

Section poller_vocabulary_more.

Import Download.

(** A status query is answered when the command ends with status 0 and its
    output decodes. *)
Definition is_answered (w : status_world) : Prop :=
  ∃ out err a, history_run w = Completed 0 out err ∧ history_json w = inr a.

(** Three replies that keep the poller waiting. *)
Definition three_pending : list status_world :=
  [answered "{...}" "" "QUEUED" (FolderId None);
   answered "{...}" "" "RUNNING" (FolderId None);
   answered "{...}" "" "RUNNING" (FolderId None)].

(** A run of the download script that waits through two RUNNING replies
    and then downloads the output folder ["fol.9"]. *)
Definition world_with_folder : Download.world :=
  Download.World
    (Completed 0 "ica 2.21" "")
    (IcaCli.Listing (Completed 0 "[...]" "") (inr [IcaCli.Entry "Demo" "p-17"]))
    [answered "{...}" "" "RUNNING" (FolderId None);
     answered "{...}" "" "RUNNING" (FolderId None);
     answered "{...}" "" "COMPLETED" (FolderId (Some "fol.9"))]
    None
    (Completed 0 "" "").

(** The same run asked not to wait, while the analysis is still running. *)
Definition args_no_wait : Download.args :=
  Download.Args "demo" "a-42" "./out" true 60.

End poller_vocabulary_more.

(** ** Iterations of the pipeline monitor *)

Section pipeline_monitor_vocabulary.

Import Monitor.

(** The mails sent in a trace, as subject and body, in order. *)
Definition mails (t : list event) : list (string * string) :=
  omap (λ e, match e with
             | SmtpSend _ _ subject body => Some (subject, body)
             | _ => None
             end) t.

(** An iteration whose query is answered with a status that is neither
    [Completed] nor [Failed]. *)
Definition still_running (p : status_poll) : Prop :=
  ∃ out err data v,
    status_run p = Completed 0 out err ∧ status_json p = inr data
    ∧ data !! "status" = Some v ∧ final_status v = None.

(** An iteration whose query is answered with the object [data], with the
    final status [st], while the notification goes through. *)
Definition ends_with (data : gmap string pyval) (st : string) (p : status_poll)
    : Prop :=
  ∃ out err,
    status_run p = Completed 0 out err ∧ status_json p = inr data
    ∧ data !! "status" = Some (PStr st) ∧ (st = "Completed" ∨ st = "Failed")
    ∧ smtp (status_deliver p) = None.

(** An iteration whose query is answered with the final status [st], while
    the SMTP session of the notification raises [e]. *)
Definition ends_undelivered (st : string) (e : exn) (p : status_poll) : Prop :=
  ∃ out err data chat,
    status_run p = Completed 0 out err ∧ status_json p = inr data
    ∧ data !! "status" = Some (PStr st) ∧ (st = "Completed" ∨ st = "Failed")
    ∧ status_deliver p = Delivery (Some e) chat.

(** An iteration whose query exits with the status [rc], not zero, and the
    error output [err], while the notification goes through. *)
Definition query_breaks (err : string) (p : status_poll) : Prop :=
  ∃ rc out, status_run p = Completed rc out err ∧ rc ≠ 0
            ∧ smtp (status_deliver p) = None.

(** A reply of the pipeline monitor with the status [st]. *)
Definition status_reply (st : string) : status_poll :=
  StatusPoll (Completed 0 "{...}" "")
    (inr (<["status" := PStr st]> (<["id" := PStr "a-42"]> ∅)))
    (Delivery None None).

End pipeline_monitor_vocabulary.

(** ** Lines of a data listing *)

Section manager_vocabulary.

Import ProjectManager.

Variable strptime : string → exn + Z.

(** The line [line] of a listing describes [item], created at the instant
    [created]: its first four fields are those of the item, and the second
    is the date of that instant. *)
Definition describes (line : string) (item : data_item) (created : Z) : Prop :=
  (∃ rest, PyStr.split_ws line
           = item_name item :: item_created item :: item_size item
               :: item_type item :: rest)
  ∧ strptime (item_created item) = inr created.

(** An item created at [created] passes the age filter of [list_data] at
    the instant [now]: there is no filter ([days] is [None] or 0), or the
    item is at most [days] days old. *)
Definition kept (days : option Z) (now created : Z) : Prop :=
  match days with
  | Some n => n = 0 ∨ now - created ≤ n * day
  | None => True
  end.

(** The lines of a listing after the header. *)
Definition data_lines (out : string) : list string := tail (PyStr.splitlines out).

(** The line a dry run prints for an item. *)
Definition would_delete (item : data_item) : string :=
  "Would delete: " +:+ item_name item +:+ " (" +:+ item_size item +:+ ")".

(** The key of the storage report that a line of the output sets: the
    first of the three markers found in the line decides. *)
Definition usage_key (line : string) : option string :=
  if PyStr.contains "Used:" line then Some "used_gb"
  else if PyStr.contains "Available:" line then Some "available_gb"
  else if PyStr.contains "Total:" line then Some "total_gb"
  else None.

End manager_vocabulary.

Section archive_vocabulary.

Import ProjectManager.

Variable project_name : string.
Variable strptime : string → exn + Z.
Variable path_join : string → string → string.

(** A download that ended with status 0. *)
Definition downloaded (r : proc_result) : bool :=
  match r with
  | Completed rc _ _ => rc =? 0
  | SpawnRaised _ => false
  end.

(** The commands of an archive run over [items], the first of which has
    the index [i], in order: for each item the download command and, when
    the download ended with status 0, the commands of the call of
    [cleanup_old_data] made then; the download of the next item comes
    after them. *)
Fixpoint archive_commands (days : Z) (archive_dir : string) (w : archive_world)
    (i : nat) (items : list data_item) : list (list string) :=
  match items with
  | [] => []
  | item :: rest =>
      download_cmd project_name (item_name item)
        (path_join archive_dir (item_name item))
      :: (if downloaded (ar_download w i)
          then spawned (trace (cleanup_old_data project_name strptime days false
                                 (ar_cleanup w i)))
          else [])
      ++ archive_commands days archive_dir w (S i) rest
  end.

End archive_vocabulary.

(** ** Alerts of the threshold monitors *)

Section alert_vocabulary.

Import Monitor.

Variable float_of_text : string → exn + float.
Variable fixed : nat → float → string.

(** The alert of the cost monitor, as subject and body, for the cost [c]:
    one when [c >= budget], none otherwise. *)
Definition cost_alert_of (budget c : float) : option (string * string) :=
  if PrimFloat.leb budget c then Some ("Cost Alert", cost_alert fixed c budget)
  else None.

(** The usage in percent of [used] out of [total]. *)
Definition usage_of (used total : float) : float :=
  PrimFloat.mul (PrimFloat.div used total) 100.

(** The alert of the storage monitor for the values of [used_gb] and
    [total_gb] in force: one when the usage is at or above the threshold. *)
Definition storage_alert_of (threshold : float) (l : levels)
    : option (string * string) :=
  match used_gb l, total_gb l with
  | Some used, Some total =>
      if PrimFloat.leb threshold (usage_of used total)
      then Some ("Storage Usage Alert",
                 storage_alert fixed (usage_of used total) used total)
      else None
  | _, _ => None
  end.

(** Both values are bound and the total is not zero. *)
Definition measurable (l : levels) : Prop :=
  ∃ used total, l = Levels (Some used) (Some total)
                ∧ PrimFloat.eqb total 0 = false.

(** An iteration of the storage monitor whose query succeeds, whose report
    is read without an exception and changes the values of [used_gb] and
    [total_gb] as [f] does, and whose alert, if any, goes through. *)
Definition report_reads (p : poll) (f : levels → levels) : Prop :=
  ∃ out err, query_run p = Completed 0 out err
  ∧ (∀ l, read_report float_of_text (PyStr.splitlines out) l = ([], Return (f l)))
  ∧ smtp (deliver p) = None.

(** The values in force in each iteration: those left by the reports read
    so far. *)
Fixpoint in_force (fs : list (levels → levels)) (l : levels) : list levels :=
  match fs with
  | [] => []
  | f :: rest => f l :: in_force rest (f l)
  end.

End alert_vocabulary.

(** The warnings logged in a trace, in order. *)
Definition warnings (t : list event) : list string :=
  omap (λ e, match e with LogWarning msg => Some msg | _ => None end) t.

(** The texts logged at level INFO in a trace, in order. *)
Definition infos (t : list event) : list string :=
  omap (λ e, match e with LogInfo msg => Some msg | _ => None end) t.

(** An enrichment row without a target file, and without custom
    parameters. *)
Definition enrichment_row : BatchProcessor.sample :=
  BatchProcessor.Sample "S9" "/data/S9" "dragen-enrichment" "hg19" None None.


(** ** Vocabulary for the scripts built on the SDK *)


Definition uploads (t : list Sdk.action) : list (string * string) :=
  omap (λ a, match a with
             | Sdk.UploadFolderSessionFile s r => Some (s, r)
             | _ => None
             end) t.

(** A reply after which [wait_for_analysis_completion] sleeps and asks
    again: a status other than the four that end the loop. *)
Definition keeps_waiting (reply : Sdk.sdk_exn + string) : bool :=
  match reply with
  | inr status =>
      negb (String.eqb status "SUCCEEDED")
      && negb (Sdk.DownloadResults.ended_badly status)
  | inl _ => false
  end.

(** How the wait ends at a reply that does not keep it waiting. *)
Definition verdict (reply : Sdk.sdk_exn + string) : Sdk.ending (loop_end bool) :=
  match reply with
  | inr status => Sdk.Returned (Finished (String.eqb status "SUCCEEDED"))
  | inl (Sdk.ApiException _) => Sdk.Returned (Finished false)
  | inl (Sdk.OtherException e) => Sdk.Raised (Sdk.OtherException e)
  end.

Definition no_key_line : string :=
  "Authentication failed: ICA_API_KEY environment variable is not set".


Definition sending_of (path_join relpath : string → string → string)
    (session_id folder_path : string) (f : string * string) : string * string :=
  (session_id, relpath (path_join f.1 f.2) folder_path).




(** The upload sessions completed in a list of actions, and the id of the
    session of an upload (the empty text when creating it raised). *)
Definition completions (t : list Sdk.action) : list string :=
  omap (λ a, match a with
             | Sdk.CompleteFolderUploadSession s => Some s
             | _ => None
             end) t.

Definition session_id_of (w : Sdk.FolderUpload.world) : string :=
  match Sdk.FolderUpload.session w with
  | inr session_id => session_id
  | inl _ => ""
  end.
(** ** Concrete runs of the other scripts *)

(** A start of the germline pipeline on the uploaded folder [run7]: the
    project listing has the project under another spelling, the file
    listing a file and a folder of that name. *)
Definition args_start : Pipeline.args :=
  Pipeline.Args "Demo" "dragen-germline" "run7" (Some "params.json") None.

Definition world_started (id : option string) : Pipeline.world :=
  Pipeline.World
    projects_listing
    (IcaCli.Listing (Completed 0 "[...]" "")
       (inr [IcaCli.Entry "DRAGEN-Germline" "pl-9"]))
    (Pipeline.FilesListing (Completed 0 "[...]" "")
       (inr [Pipeline.FileEntry "run7" "FILE" "fil.1";
             Pipeline.FileEntry "run7" "FOLDER" "fol.7"]))
    true
    (Completed 0 "{...}" "")
    (Pipeline.StartObject id).

(** Two replies that keep the pipeline monitor waiting, the second with
    the status in upper case. *)
Definition two_waiting : list Monitor.status_poll :=
  [status_reply "Running"; status_reply "COMPLETED"].

(** A listing of three items, of which the third is a month older than the
    other two, read one day after these were created. *)
Definition demo_strptime (text : string) : exn + Z :=
  if String.eqb text "2024-05-01" then inr 0
  else if String.eqb text "2024-04-01" then inr (-30 * ProjectManager.day)
  else inl (Exn OtherError ("time data '" +:+ text
                            +:+ "' does not match format '%Y-%m-%d'")).

Definition demo_listing : ProjectManager.listing_world :=
  ProjectManager.ListingWorld
    (Completed 0
       ("NAME CREATED SIZE TYPE" +:+ PyStr.nl
        +:+ "runA 2024-05-01 10GB FOLDER" +:+ PyStr.nl
        +:+ "runB 2024-05-01 2GB FOLDER" +:+ PyStr.nl
        +:+ "old 2024-04-01 1GB FOLDER" +:+ PyStr.nl) "")
    (λ _, ProjectManager.day).

(** An enrichment row with a panel and its own padding. *)
Definition panel_row : BatchProcessor.sample :=
  BatchProcessor.Sample "S3" "/data/S3" "dragen-enrichment" "hg19"
    (Some "/beds/panel.bed")
    (Some (BatchProcessor.CustomMapping {[ "vc-target-bed-padding" := PInt 50 ]})).

(** An archive run in which the first download succeeds and the others
    fail, and every delete command succeeds. *)
Definition demo_archive : ProjectManager.archive_world :=
  ProjectManager.ArchiveWorld
    demo_listing None
    (λ i, if Nat.eqb i 0 then Completed 0 "" "" else Completed 1 "" "quota exceeded")
    (λ _, ProjectManager.CleanupWorld demo_listing (λ _, Completed 0 "" "")).

Definition demo_join (dir name : string) : string := dir +:+ "/" +:+ name.

(** Numbers for the concrete runs of the monitors: the texts and numbers
    that occur in them. *)
Definition demo_float (text : string) : exn + float :=
  if String.eqb text "95" then inr 95%float
  else if String.eqb text "100" then inr 100%float
  else if String.eqb text "40" then inr 40%float
  else inl (Exn OtherError ("could not convert string to float: '" +:+ text +:+ "'")).

Definition demo_fixed (digits : nat) (x : float) : string :=
  if PrimFloat.eqb x 95 then "95.0"
  else if PrimFloat.eqb x 100 then "100.0"
  else if PrimFloat.eqb x 120 then "120.00"
  else if PrimFloat.eqb x 130 then "130.00"
  else "40.0".

Definition demo_float_text (x : float) : string :=
  if PrimFloat.eqb x 90 then "90.0" else "100.0".

Definition demo_unbound (name : string) : string :=
  "local variable '" +:+ name +:+ "' referenced before assignment".

(** Three polls of a threshold monitor.  The storage reports: 95 of 100 GB,
    a report without the two lines, and one that gives only the 40 GB used;
    the costs: 120, 100 and 80. *)
Definition three_readings : list Monitor.poll :=
  [Monitor.Poll
     (Completed 0 ("Used: 95GB" +:+ PyStr.nl +:+ "Total: 100GB" +:+ PyStr.nl) "")
     (inr 120%float) (Monitor.Delivery None None);
   Monitor.Poll (Completed 0 ("maintenance" +:+ PyStr.nl) "")
     (inr 100%float) (Monitor.Delivery None None);
   Monitor.Poll (Completed 0 ("Used: 40GB" +:+ PyStr.nl) "")
     (inr 80%float) (Monitor.Delivery None None)].

(** What the three reports do to the values of [used_gb] and [total_gb]. *)
Definition three_changes : list (Monitor.levels → Monitor.levels) :=
  [λ _, Monitor.Levels (Some 95%float) (Some 100%float);
   λ l, l;
   λ l, Monitor.Levels (Some 40%float) (Monitor.total_gb l)].

(** Path functions for relative paths without doubled slashes: what
    precedes the last slash, the path under a directory, and the path from a
    working directory [/work]. *)
Fixpoint dirname_from (s : string) : option string :=
  match s with
  | EmptyString => None
  | String c rest =>
      match dirname_from rest with
      | Some d => Some (String c d)
      | None => if Ascii.eqb c "/"%char then Some EmptyString else None
      end
  end.

Definition demo_dirname (path : string) : string := default "" (dirname_from path).

Definition demo_relpath (path start : string) : string :=
  default path (PyStr.strip_prefix (start +:+ "/") path).

Definition demo_abspath (path : string) : string :=
  match PyStr.strip_prefix "/" path with
  | Some _ => path
  | None => "/work/" +:+ path
  end.

Definition env_with_key : gmap string string := {[ "ICA_API_KEY" := "k3y" ]}.

(** A run of the results script that waits through one RUNNING status and
    then fetches the two files of the output folder. *)
Definition args_results : Sdk.DownloadResults.args :=
  Sdk.DownloadResults.Args "proj" "an.1" "out" true 60.

Definition world_results : Sdk.DownloadResults.world :=
  Sdk.DownloadResults.World env_with_key None
    [inr "RUNNING"; inr "SUCCEEDED"]
    (inr "fol.out")
    (Sdk.DownloadResults.FolderWorld None None
       (inr [Sdk.DownloadResults.RemoteFile "a.vcf" "fil.1";
             Sdk.DownloadResults.RemoteFile "qc/b.txt" "fil.2"])
       (λ _, Sdk.DownloadResults.FileWorld None None None)).

(** The same folder when the second file cannot be fetched. *)
Definition folder_second_fails : Sdk.DownloadResults.folder_world :=
  Sdk.DownloadResults.FolderWorld None None
    (inr [Sdk.DownloadResults.RemoteFile "a.vcf" "fil.1";
          Sdk.DownloadResults.RemoteFile "qc/b.txt" "fil.2";
          Sdk.DownloadResults.RemoteFile "qc/c.txt" "fil.3"])
    (λ i, Sdk.DownloadResults.FileWorld None None
            (if Nat.eqb i 1 then Some (Sdk.ApiException "(404) Not Found") else None)).

(** An upload of a folder with a file at the top and one in a directory,
    followed by the start of a pipeline with one parameter; and the same
    with parameters that are not JSON. *)
Definition args_upload : Sdk.FolderUpload.args :=
  Sdk.FolderUpload.Args "run7" "proj" (Some "pl-9").

Definition world_upload (params : exn + (Sdk.sdk_exn + list (string * pyval)))
    : Sdk.FolderUpload.world :=
  Sdk.FolderUpload.World true env_with_key None
    (inr "ses.1")
    [("/work/run7", ["a.fastq"]); ("/work/run7/lane1", ["b.fastq"])]
    (λ _, Sdk.FolderUpload.FileWorld None None)
    (inr "fol.7")
    params
    (inr "an.9").
(** * Properties *)

(** ** Computations *)

Lemma bind_Return {A B : Type} (t : list event) (a : A) (k : A → py B) :
  (t, Return a) ≫= k = (t ++ trace (k a), result (k a)).
Proof. unfold mbind, py_bind, trace, result. by destruct (k a). Qed.

Lemma bind_Raise {A B : Type} (t : list event) (e : exn) (k : A → py B) :
  (t, Raise e) ≫= k = (t, Raise e).
Proof. done. Qed.

Lemma bind_mret {A : Type} (m : py A) : m ≫= mret = m.
Proof.
  destruct m as [t [a|e]]; [|done].
  rewrite bind_Return. simpl. by rewrite app_nil_r.
Qed.

Lemma bind_emit {B : Type} (e : event) (m : py B) :
  emit e ≫= (λ _, m) = (e :: trace m, result m).
Proof. unfold emit. by rewrite bind_Return. Qed.

Lemma bind_mret_l {A B : Type} (a : A) (k : A → py B) : mret a ≫= k = k a.
Proof.
  unfold mret, py_ret. rewrite bind_Return. unfold trace, result.
  by destruct (k a).
Qed.

Lemma py_eta {A : Type} (m : py A) : (trace m, result m) = m.
Proof. by destruct m. Qed.

Lemma bind_of_result {A B : Type} (m : py A) (a : A) (k : A → py B) :
  result m = Return a →
  m ≫= k = (trace m ++ trace (k a), result (k a)).
Proof. intros H. by rewrite <- (py_eta m), H, bind_Return. Qed.

Lemma bind_of_raise {A B : Type} (m : py A) (e : exn) (k : A → py B) :
  result m = Raise e →
  m ≫= k = (trace m, Raise e).
Proof. intros H. by rewrite <- (py_eta m), H. Qed.

Lemma subprocess_run_completed {B : Type} (cmd : list string) (rc : Z)
    (out err : string) (k : Z * string * string → py B) :
  subprocess_run cmd (Completed rc out err) ≫= k
  = (Spawn cmd :: trace (k (rc, out, err)), result (k (rc, out, err))).
Proof.
  unfold subprocess_run. rewrite bind_emit.
  cbn [trace result mret py_ret fst snd]. by rewrite bind_Return.
Qed.


(** [time.sleep] with a length it accepts, and with another one. *)
Lemma time_sleep_sleepable (seconds : Z) :
  sleepable seconds → time_sleep seconds = emit (Sleep seconds).
Proof.
  intros [H0 Hmax]. unfold time_sleep.
  assert ((sleep_max <? Z.abs seconds) = false) as -> by lia.
  by assert ((seconds <? 0) = false) as -> by lia.
Qed.

Lemma time_sleep_refused (seconds : Z) :
  ¬ sleepable seconds → ∃ e, time_sleep seconds = ([], Raise e).
Proof.
  intros H. unfold time_sleep, sleepable in *.
  destruct (sleep_max <? Z.abs seconds) eqn:E1; [by eexists|].
  destruct (seconds <? 0) eqn:E2; [by eexists|]. lia.
Qed.

Lemma sleepable_dec (seconds : Z) : sleepable seconds ∨ ¬ sleepable seconds.
Proof. unfold sleepable. lia. Qed.
(** ** Parameter generator *)

Section generate_params.

Import BatchProcessor.

(** The custom parameters laid over the type-specific ones laid over the
    base ones. *)
Lemma layers_lookup (s : sample) (k : string) :
  (custom_of s ∪ (pipeline_params s ∪ base_params s)) !! k =
    match custom_of s !! k with
    | Some v => Some v
    | None =>
        match pipeline_params s !! k with
        | Some v => Some v
        | None => base_params s !! k
        end
    end.
Proof.
  rewrite !lookup_union.
  destruct (custom_of s !! k), (pipeline_params s !! k), (base_params s !! k); done.
Qed.

(** On a row whose custom parameters can be merged the generated set is
    these three layers; on every other row the update raises. *)
Lemma generate_params_cases (s : sample) :
  (mergeable s = true
   ∧ _generate_params s
     = ([], Return (custom_of s ∪ (pipeline_params s ∪ base_params s))))
  ∨ (mergeable s = false ∧ ∃ e, _generate_params s = ([], Raise e)).
Proof.
  unfold _generate_params, mergeable, custom_of, update_from, update.
  destruct (custom_params s) as [[m|[text|b|z|]]|].
  - by left.
  - destruct (String.eqb_spec text "") as [->|Hne].
    + left. split; [done|]. by rewrite (left_id_L ∅ (∪)).
    + right. split; [|by eexists].
      apply bool_decide_eq_false. congruence.
  - right. split; [done|by eexists].
  - right. split; [done|by eexists].
  - right. split; [done|by eexists].
  - left. split; [done|]. by rewrite (left_id_L ∅ (∪)).
Qed.






End generate_params.

(** The germline row with custom parameters: they win over the flag and
    the output directory the generator sets. *)
Example generate_params_germline_row :
  ∃ params,
    BatchProcessor._generate_params germline_row = ([], Return params)
    ∧ params !! "enable-sort" = Some (PBool false)
    ∧ params !! "output-directory" = Some (PStr "/scratch")
    ∧ params !! "sample-id" = Some (PStr "NA12878")
    ∧ params !! "reference-tar" = Some (PStr "/reference-data/hg38/hg38.fa")
    ∧ params !! "enable-variant-caller" = Some (PBool true).
Proof. eexists. split; [reflexivity|]. repeat split; by vm_compute. Qed.

(** ** Batch processor *)

Section batch.

Import BatchProcessor.

Variable project_name : string.
Variable max_concurrent : Z.

(** [process_sample] returns for every row and every world: whatever is
    raised inside the [try] is turned into a [failed] row. *)
Lemma process_sample_returns (w : sample_world) (s : sample) :
  result (process_sample project_name w s) = Return (row_for s w).
Proof.
  unfold process_sample, process_sample_try, row_for, failure_text, params_failure.
  destruct w as [up pw pl ts]; simpl.
  destruct up as [rc out err|e]; simpl; [|done].
  destruct (rc =? 0); simpl; [|done].
  destruct (generate_params_cases s) as [[_ ->]|[_ [e ->]]]; simpl; [|done].
  destruct pw as [e|]; simpl; [done|].
  destruct pl as [rc' out' err'|e]; simpl; [|done].
  destruct (rc' =? 0); done.
Qed.

Lemma row_for_status (s : sample) (w : sample_world) :
  res_status (row_for s w) = (if succeeds s w then "completed" else "failed")
  ∧ res_sample_id (row_for s w) = sample_id s.
Proof.
  unfold row_for, succeeds. destruct (failure_text s w); simpl; done.
Qed.

Lemma collect_results_rows (worlds : nat → sample_world) (samples : list sample) :
  collect_results (imap (λ i s, process_sample project_name (worlds i) s) samples)
  = (log_line <$> batch_rows worlds samples, Return (batch_rows worlds samples)).
Proof.
  revert worlds. induction samples as [|s samples IH]; intros worlds; [done|].
  unfold batch_rows in *. cbn [imap collect_results].
  specialize (IH (worlds ∘ S)). unfold compose in *. cbv beta.
  rewrite IH. unfold future_result. rewrite process_sample_returns.
  rewrite bind_Return, bind_emit, bind_Return. simpl. by rewrite app_nil_r.
Qed.

(** An undisturbed batch: the log lines of the rows, then the two files. *)
Lemma process_batch_eq (w : batch_world) (samples : list sample) :
  undisturbed max_concurrent w samples →
  let results := batch_rows (worlds w) samples in
  process_batch project_name max_concurrent w
  = ((log_line <$> results)
       ++ [WriteJson "batch_results/results.json" (DocResults results);
           WriteJson "batch_results/summary.json"
             (DocSummary (summary_of (now w) samples results))],
     Return results).
Proof.
  intros (Hsheet & Hpool & Hmkdir & Hres & Hsum) results. subst results.
  unfold process_batch, new_pool, attempt, write_json.
  rewrite Hsheet, Hmkdir, Hres, Hsum. cbn [external].
  rewrite bind_mret_l.
  assert ((max_concurrent <=? 0) = false) as -> by lia.
  rewrite bind_mret_l, collect_results_rows. done.
Qed.

Lemma batch_rows_length (worlds : nat → sample_world) (samples : list sample) :
  length (batch_rows worlds samples) = length samples.
Proof. apply length_imap. Qed.

Lemma batch_rows_lookup (worlds : nat → sample_world) (samples : list sample)
    (i : nat) :
  batch_rows worlds samples !! i = (λ s, row_for s (worlds i)) <$> samples !! i.
Proof. unfold batch_rows. by rewrite list_lookup_imap. Qed.

Lemma two_valued_counts (rows : list result_row) :
  Forall two_valued rows →
  (length (List.filter (has_status "completed") rows)
   + length (List.filter (has_status "failed") rows) = length rows)%nat.
Proof.
  induction 1 as [|r rows [Hr|Hr] _ IH]; [done| |];
    cbn [List.filter]; unfold has_status; rewrite Hr; simpl;
    fold (has_status "completed") (has_status "failed"); lia.
Qed.

Lemma batch_rows_two_valued (worlds : nat → sample_world) (samples : list sample) :
  Forall two_valued (batch_rows worlds samples).
Proof.
  apply Forall_forall. intros r Hr.
  apply elem_of_lookup_imap in Hr as (i & s & -> & _).
  unfold two_valued. destruct (row_for_status s (worlds i)) as [-> _].
  destruct (succeeds s (worlds i)); auto.
Qed.

Lemma status_counts (worlds : nat → sample_world) (samples : list sample) :
  (length (List.filter (has_status "completed") (batch_rows worlds samples))
   + length (List.filter (has_status "failed") (batch_rows worlds samples))
   = length samples)%nat.
Proof.
  rewrite two_valued_counts by apply batch_rows_two_valued.
  apply batch_rows_length.
Qed.

Lemma filter_imap_length {A B C : Type} (p : B → bool) (q : C → bool)
    (f : nat → A → B) (g : nat → A → C) (l : list A) :
  (∀ i a, p (f i a) = q (g i a)) →
  length (List.filter p (imap f l)) = length (List.filter q (imap g l)).
Proof.
  revert f g. induction l as [|a l IH]; intros f g H; [done|].
  cbn [imap List.filter]. rewrite (H 0%nat a).
  specialize (IH (f ∘ S) (g ∘ S) (λ i b, H (S i) b)).
  destruct (q (g 0%nat a)); cbn [length]; by rewrite IH.
Qed.

(** The rows counted under a status are the items that succeed, or fail. *)
Lemma status_count_rows (worlds : nat → sample_world) (samples : list sample) :
  length (List.filter (has_status "completed") (batch_rows worlds samples))
  = count_rows true worlds samples
  ∧ length (List.filter (has_status "failed") (batch_rows worlds samples))
    = count_rows false worlds samples.
Proof.
  unfold batch_rows, count_rows.
  split; apply filter_imap_length; intros i s; unfold has_status;
    destruct (row_for_status s (worlds i)) as [-> _];
    by destruct (succeeds s (worlds i)).
Qed.

(** Filtering rows that all have the status [st]. *)
Lemma same_status_filter (st st' : string) (rows : list result_row) :
  Forall (λ r, res_status r = st) rows →
  List.filter (has_status st') rows = if String.eqb st st' then rows else [].
Proof.
  induction 1 as [|r rows Hr _ IH].
  - by destruct (String.eqb st st').
  - cbn [List.filter]. change (has_status st' r) with (String.eqb (res_status r) st').
    rewrite Hr, IH. by destruct (String.eqb st st').
Qed.


Lemma artifacts_log_lines (rows : list result_row) :
  artifacts (log_line <$> rows) = [].
Proof. by induction rows. Qed.

(** C1, as the code has it.  A batch that is not disturbed from outside
    (the sheet is read, [max_concurrent] is positive, the output directory
    and the two files can be written) comes to its end whatever happened to
    the items, which may all have failed: [process_batch] returns one row
    per sample, the row of each item in the order of the sheet; it writes
    exactly [results.json], with these rows, and then [summary.json], with
    the counts of these rows: [completed] is the number of items that
    succeeded, [failed] the number of those that did not,
    [completed + failed = total_samples], and there are as many results as
    samples. *)
Theorem process_batch_completes (w : batch_world) (samples : list sample) :
  undisturbed max_concurrent w samples →
  ∃ (results : list result_row) (sm : summary),
    result (process_batch project_name max_concurrent w) = Return results
    ∧ artifacts (trace (process_batch project_name max_concurrent w))
      = [("batch_results/results.json", DocResults results);
         ("batch_results/summary.json", DocSummary sm)]
    ∧ (∀ i s, samples !! i = Some s →
         results !! i = Some (row_for s (worlds w i)))
    ∧ total_samples sm = length samples
    ∧ completed sm = count_rows true (worlds w) samples
    ∧ failed sm = count_rows false (worlds w) samples
    ∧ sum_timestamp sm = now w
    ∧ (completed sm + failed sm = total_samples sm)%nat
    ∧ length results = total_samples sm.
Proof.
  intros Hw.
  exists (batch_rows (worlds w) samples),
         (summary_of (now w) samples (batch_rows (worlds w) samples)).
  rewrite (process_batch_eq w samples Hw). cbn [trace result fst snd].
  destruct (status_count_rows (worlds w) samples) as [Hc Hf].
  split; [done|]. split.
  { unfold artifacts at 1. rewrite omap_app.
    fold (artifacts (log_line <$> batch_rows (worlds w) samples)).
    by rewrite artifacts_log_lines. }
  split.
  { intros i s Hi. by rewrite batch_rows_lookup, Hi. }
  cbn [summary_of completed failed total_samples sum_timestamp].
  split; [done|]. split; [done|]. split; [done|]. split; [done|].
  split; [apply status_counts|apply batch_rows_length].
Qed.

(** When every item fails, the summary still exists and counts them all. *)
Lemma process_batch_all_failed (w : batch_world) (samples : list sample) :
  undisturbed max_concurrent w samples →
  (∀ i s, samples !! i = Some s → succeeds s (worlds w i) = false) →
  ∃ t results,
    process_batch project_name max_concurrent w = (t, Return results)
    ∧ WriteJson "batch_results/summary.json"
        (DocSummary {| total_samples := length samples; completed := 0;
                       failed := length samples; sum_timestamp := now w |}) ∈ t.
Proof.
  intros Hw Hall. rewrite (process_batch_eq w samples Hw). eexists _, _.
  split; [done|].
  assert (Hf : Forall (λ r, res_status r = "failed") (batch_rows (worlds w) samples)).
  { apply Forall_forall. intros r Hr.
    apply elem_of_lookup_imap in Hr as (i & s & -> & Hi).
    destruct (row_for_status s (worlds w i)) as [-> _]. by rewrite (Hall i s Hi). }
  pose proof (same_status_filter _ "completed" _ Hf) as Hc.
  pose proof (same_status_filter _ "failed" _ Hf) as Hfl.
  cbn [String.eqb Ascii.eqb Bool.eqb] in Hc, Hfl.
  unfold summary_of. rewrite Hc, Hfl, batch_rows_length. set_solver.
Qed.

(** A batch is ended early by what it meets outside its items: a sheet
    that cannot be read, a pool that cannot be built, a directory or a file
    that cannot be written. *)
Lemma process_batch_disturbed (w : batch_world) :
  (∀ e, sheet w = inl e → process_batch project_name max_concurrent w = ([], Raise e))
  ∧ (∀ samples, sheet w = inr samples → max_concurrent ≤ 0 →
       ∃ e, process_batch project_name max_concurrent w = ([], Raise e)).
Proof.
  split.
  - intros e He. unfold process_batch. by rewrite He.
  - intros samples Hs Hn. unfold process_batch, new_pool. rewrite Hs.
    cbn [external]. rewrite bind_mret_l.
    assert ((max_concurrent <=? 0) = true) as -> by lia. by eexists.
Qed.


End batch.

Lemma process_batch_completes_witness :
  ∃ (results : list result_row) (sm : summary),
    result (BatchProcessor.process_batch "demo" 5 batch3) = Return results
    ∧ artifacts (trace (BatchProcessor.process_batch "demo" 5 batch3))
      = [("batch_results/results.json", DocResults results);
         ("batch_results/summary.json", DocSummary sm)]
    ∧ (∀ i s, sheet3 !! i = Some s →
         results !! i = Some (row_for s (BatchProcessor.worlds batch3 i)))
    ∧ total_samples sm = length sheet3
    ∧ completed sm = count_rows true (BatchProcessor.worlds batch3) sheet3
    ∧ failed sm = count_rows false (BatchProcessor.worlds batch3) sheet3
    ∧ sum_timestamp sm = BatchProcessor.now batch3
    ∧ (completed sm + failed sm = total_samples sm)%nat
    ∧ length results = total_samples sm.
Proof.
  apply (process_batch_completes "demo" 5 batch3 sheet3).
  repeat split; reflexivity.
Defined.

(** C1, as stated, does not hold for every batch run.  With
    [--max-concurrent 0] the pool cannot be built: the batch raises
    [ValueError] before any item is processed and writes nothing.  And when
    every item succeeds but [results.json] cannot be written, the batch
    raises and no summary is produced. *)
Lemma batch_can_end_without_a_summary :
  (BatchProcessor.process_batch "demo" 0 batch3
   = ([], Raise (Exn OtherError "max_workers must be greater than 0")))
  ∧ result (BatchProcessor.process_batch "demo" 5 batch3_disk_full)
    = Raise (Exn OtherError "[Errno 28] No space left on device")
  ∧ (∀ sm, ("batch_results/summary.json", DocSummary sm)
           ∉ artifacts (trace (BatchProcessor.process_batch "demo" 5
                                 batch3_disk_full))).
Proof.
  split; [reflexivity|]. split; [reflexivity|].
  intros sm H. vm_compute in H.
  apply list_elem_of_singleton in H. discriminate H.
Qed.

(** ** Status poller *)

Section poller.

Import Download.

Lemma spawned_app (t1 t2 : list event) : spawned (t1 ++ t2) = spawned t1 ++ spawned t2.
Proof. apply omap_app. Qed.

Lemma sleeps_app (t1 t2 : list event) : sleeps (t1 ++ t2) = sleeps t1 ++ sleeps t2.
Proof. apply omap_app. Qed.

Variable analysis_id : string.
Variable polling_interval : Z.

Local Abbreviation query := (Spawn (history_cmd analysis_id)).

Lemma get_analysis_status_answered (out err st : string) (lookup : output_lookup) :
  get_analysis_status analysis_id (answered out err st lookup)
  = (query :: lookup_warning st lookup, Return (Some st, folder_read st lookup)).
Proof.
  unfold get_analysis_status, answered, folder_read, lookup_warning. cbn.
  destruct (String.eqb_spec st "COMPLETED") as [->|Hne].
  - rewrite bool_decide_eq_true_2 by done. by destruct lookup.
  - rewrite bool_decide_eq_false_2 by congruence. done.
Qed.

Lemma wait_loop_in_progress (out err st : string) (lookup : output_lookup)
    (rest : list status_world) :
  sleepable polling_interval →
  in_progress st = true →
  wait_loop analysis_id polling_interval (answered out err st lookup :: rest)
  = ([query; Stdout ("Current status: " +:+ st); Sleep polling_interval]
       ++ trace (wait_loop analysis_id polling_interval rest),
     result (wait_loop analysis_id polling_interval rest)).
Proof.
  unfold in_progress. intros Hsleep [Hc Hb]%andb_true_iff.
  apply negb_true_iff in Hc. apply negb_true_iff in Hb.
  cbn [wait_loop]. rewrite get_analysis_status_answered, bind_Return.
  unfold lookup_warning.
  rewrite Hc, bind_emit, Hb, (time_sleep_sleepable _ Hsleep), bind_emit. done.
Qed.

(** With a length that [time.sleep] refuses, the first reply that would
    make the poller wait ends it with the exception of the sleep. *)
Lemma wait_loop_refused (out err st : string) (lookup : output_lookup)
    (rest : list status_world) :
  ¬ sleepable polling_interval →
  in_progress st = true →
  ∃ e,
    wait_loop analysis_id polling_interval (answered out err st lookup :: rest)
    = ([query; Stdout ("Current status: " +:+ st)], Raise e).
Proof.
  unfold in_progress. intros Hsleep [Hc Hb]%andb_true_iff.
  apply negb_true_iff in Hc. apply negb_true_iff in Hb.
  destruct (time_sleep_refused _ Hsleep) as [e He]. exists e.
  cbn [wait_loop]. rewrite get_analysis_status_answered, bind_Return.
  unfold lookup_warning. rewrite Hc, bind_emit, Hb, He. done.
Qed.

Lemma wait_loop_ended_badly (out err st : string) (lookup : output_lookup)
    (rest : list status_world) :
  ended_badly st = true →
  wait_loop analysis_id polling_interval (answered out err st lookup :: rest)
  = ([query; Stdout ("Current status: " +:+ st);
      Stdout ("Analysis ended with status: " +:+ st)],
     Return (Finished None)).
Proof.
  intros Hb.
  assert (String.eqb st "COMPLETED" = false) as Hc.
  { apply String.eqb_neq. intros ->. done. }
  cbn [wait_loop]. rewrite get_analysis_status_answered, bind_Return.
  unfold lookup_warning. rewrite Hc, bind_emit, Hb, bind_emit. done.
Qed.

Lemma wait_loop_completed (out err : string) (lookup : output_lookup)
    (rest : list status_world) :
  wait_loop analysis_id polling_interval (answered out err "COMPLETED" lookup :: rest)
  = ((query :: lookup_warning "COMPLETED" lookup)
       ++ [Stdout "Current status: COMPLETED"; Stdout "Analysis completed successfully!"],
     Return (Finished (folder_read "COMPLETED" lookup))).
Proof.
  cbn [wait_loop]. rewrite get_analysis_status_answered, bind_Return.
  rewrite bind_emit. done.
Qed.

(** Any number of in-progress replies: one query and one sleep each, then
    the loop goes on with what follows. *)
Lemma wait_loop_pending (pending rest : list status_world) :
  pending = [] ∨ sleepable polling_interval →
  Forall reply_in_progress pending →
  ∃ t,
    wait_loop analysis_id polling_interval (pending ++ rest)
    = (t ++ trace (wait_loop analysis_id polling_interval rest),
       result (wait_loop analysis_id polling_interval rest))
    ∧ spawned t = replicate (length pending) (history_cmd analysis_id)
    ∧ sleeps t = replicate (length pending) polling_interval.
Proof.
  intros Hsleep Hpending.
  induction Hpending
    as [|w pending (out & err & st & lookup & -> & Hst) _ IH].
  - exists []. simpl. by rewrite py_eta.
  - destruct Hsleep as [|Hsleep]; [done|].
    destruct (IH (or_intror Hsleep)) as (t & IHt & Hsp & Hsl). clear IH.
    rename IHt into IH.
    eexists (_ ++ t). rewrite <- app_comm_cons, wait_loop_in_progress by done.
    rewrite IH. cbn [trace result fst snd]. rewrite app_assoc.
    split; [reflexivity|]. rewrite spawned_app, sleeps_app, Hsp, Hsl. done.
Qed.

Lemma wait_for_analysis_eq (script : list status_world) :
  wait_for_analysis analysis_id polling_interval script
  = (Stdout ("Monitoring analysis " +:+ analysis_id +:+ "...")
       :: trace (wait_loop analysis_id polling_interval script),
     result (wait_loop analysis_id polling_interval script)).
Proof. unfold wait_for_analysis. by rewrite bind_emit. Qed.

Lemma running_in_progress : in_progress "RUNNING" = true.
Proof. reflexivity. Qed.

(** C3, as the code has it.  With a polling interval that [time.sleep]
    accepts and the status sequence RUNNING, RUNNING, COMPLETED (output
    folder ["f1"]) the poller sleeps exactly twice, [polling_interval]
    seconds each time, and returns ["f1"]; with RUNNING, FAILED it sleeps
    once and returns [None] after printing that the analysis ended with
    status FAILED.  For each of FAILED, ABORTED and TERMINATED as the first
    status it makes that one query, prints the status, does not sleep or
    ask again, and returns [None]: the failure value is the same for the
    three statuses, and the status is only printed.  With an interval that
    [time.sleep] refuses (a negative one), the first RUNNING reply ends the
    poller with the exception of the sleep. *)
Theorem poller_follows_the_status_sequence :
  (sleepable polling_interval →
   (∀ o1 e1 l1 o2 e2 l2 o3 e3 rest,
      let script := [answered o1 e1 "RUNNING" l1; answered o2 e2 "RUNNING" l2;
                     answered o3 e3 "COMPLETED" (FolderId (Some "f1"))] ++ rest in
      result (wait_for_analysis analysis_id polling_interval script)
        = Return (Finished (Some "f1"))
      ∧ sleeps (trace (wait_for_analysis analysis_id polling_interval script))
        = [polling_interval; polling_interval])
   ∧ (∀ o1 e1 l1 o2 e2 l2 rest,
        let script := [answered o1 e1 "RUNNING" l1; answered o2 e2 "FAILED" l2] ++ rest in
        result (wait_for_analysis analysis_id polling_interval script)
          = Return (Finished None)
        ∧ sleeps (trace (wait_for_analysis analysis_id polling_interval script))
          = [polling_interval]
        ∧ last (trace (wait_for_analysis analysis_id polling_interval script))
          = Some (Stdout "Analysis ended with status: FAILED")))
  ∧ Forall (λ st, ∀ out err lookup rest,
       wait_for_analysis analysis_id polling_interval
         (answered out err st lookup :: rest)
       = ([Stdout ("Monitoring analysis " +:+ analysis_id +:+ "...");
           query;
           Stdout ("Current status: " +:+ st);
           Stdout ("Analysis ended with status: " +:+ st)],
          Return (Finished None)))
      ["FAILED"; "ABORTED"; "TERMINATED"]
  ∧ (¬ sleepable polling_interval →
     ∀ out err lookup rest, ∃ e,
       result (wait_for_analysis analysis_id polling_interval
                 (answered out err "RUNNING" lookup :: rest)) = Raise e
       ∧ sleeps (trace (wait_for_analysis analysis_id polling_interval
                          (answered out err "RUNNING" lookup :: rest))) = []).
Proof.
  split; [|split].
  - intros Hsleep. split.
    + intros. subst script. cbn [app].
      rewrite wait_for_analysis_eq, !wait_loop_in_progress, wait_loop_completed
        by (exact Hsleep || apply running_in_progress).
      done.
    + intros. subst script. cbn [app].
      rewrite wait_for_analysis_eq, wait_loop_in_progress, wait_loop_ended_badly
        by (exact Hsleep || apply running_in_progress || reflexivity).
      done.
  - repeat apply Forall_cons_2; [..|apply Forall_nil_2]; intros;
      by rewrite wait_for_analysis_eq, wait_loop_ended_badly.
  - intros Hsleep out err lookup rest.
    destruct (wait_loop_refused out err "RUNNING" lookup rest Hsleep
                running_in_progress) as [e He].
    exists e. by rewrite wait_for_analysis_eq, He.
Qed.

(** After any number of in-progress replies, a terminal status ends the
    polling: one query per reply seen, one sleep per in-progress reply, the
    status printed as the reason, [None] returned. *)
Lemma terminal_status_ends_polling (pending rest : list Download.status_world)
    (out err st : string) (lookup : Download.output_lookup) :
  pending = [] ∨ sleepable polling_interval →
  Forall reply_in_progress pending →
  Download.ended_badly st = true →
  let m := Download.wait_for_analysis analysis_id polling_interval
             (pending ++ answered out err st lookup :: rest) in
  result m = Return (Finished None)
  ∧ spawned (trace m) = replicate (S (length pending)) (Download.history_cmd analysis_id)
  ∧ sleeps (trace m) = replicate (length pending) polling_interval
  ∧ last (trace m) = Some (Stdout ("Analysis ended with status: " +:+ st)).
Proof.
  intros Hsleep Hp Hst m. subst m. rewrite wait_for_analysis_eq.
  destruct (wait_loop_pending pending (answered out err st lookup :: rest) Hsleep Hp)
    as (t & -> & Hsp & Hsl).
  rewrite wait_loop_ended_badly by done. cbn [trace result fst snd].
  split; [done|].
  change (?e :: t ++ ?l) with ([e] ++ t ++ l).
  rewrite !spawned_app, !sleeps_app, Hsp, Hsl.
  split; [|split].
  - replace (S (length pending)) with (length pending + 1)%nat by lia.
    by rewrite replicate_add.
  - cbn. by rewrite app_nil_r.
  - rewrite !app_assoc.
    change [query; Stdout ("Current status: " +:+ st);
            Stdout ("Analysis ended with status: " +:+ st)]
      with ([query; Stdout ("Current status: " +:+ st)]
              ++ [Stdout ("Analysis ended with status: " +:+ st)]).
    by rewrite app_assoc, last_snoc.
Qed.

(** A status query that fails ends the polling at once, without a sleep. *)
Lemma query_error_ends_polling (rc : Z) (out err : string)
    (js : exn + Download.analysis) (rest : list Download.status_world) :
  rc ≠ 0 →
  Download.wait_for_analysis analysis_id polling_interval
    (Download.StatusWorld (Completed rc out err) js :: rest)
  = ([Stdout ("Monitoring analysis " +:+ analysis_id +:+ "...");
      query;
      Stdout ("Error getting analysis status: " +:+ err)],
     Return (Finished None)).
Proof.
  intros Hrc%Z.eqb_neq. rewrite wait_for_analysis_eq. cbn [Download.wait_loop].
  unfold Download.get_analysis_status. cbn [Download.history_run].
  unfold try_except. rewrite subprocess_run_completed. rewrite Hrc. cbn.
  done.
Qed.

Lemma last_lookup_warning_app (t : list event) (lookup : Download.output_lookup) :
  last (t ++ (query :: lookup_warning "COMPLETED" lookup)
          ++ [Stdout "Current status: COMPLETED";
              Stdout "Analysis completed successfully!"])
  = Some (Stdout "Analysis completed successfully!").
Proof.
  rewrite app_assoc.
  change [Stdout "Current status: COMPLETED"; Stdout "Analysis completed successfully!"]
    with ([Stdout "Current status: COMPLETED"]
            ++ [Stdout "Analysis completed successfully!"]).
  by rewrite app_assoc, last_snoc.
Qed.

(** The poller on a script that leads to a [COMPLETED] reply without an
    output folder identifier. *)
Lemma wait_loop_completed_without_folder (pending rest : list status_world)
    (out err : string) (lookup : output_lookup) :
  pending = [] ∨ sleepable polling_interval →
  Forall reply_in_progress pending →
  no_identifier lookup →
  result (wait_loop analysis_id polling_interval
            (pending ++ answered out err "COMPLETED" lookup :: rest))
    = Return (Finished None)
  ∧ spawned (trace (wait_loop analysis_id polling_interval
                      (pending ++ answered out err "COMPLETED" lookup :: rest)))
    = replicate (S (length pending)) (history_cmd analysis_id)
  ∧ last (trace (wait_loop analysis_id polling_interval
                   (pending ++ answered out err "COMPLETED" lookup :: rest)))
    = Some (Stdout "Analysis completed successfully!").
Proof.
  intros Hsleep Hp Hl.
  destruct (wait_loop_pending pending (answered out err "COMPLETED" lookup :: rest)
              Hsleep Hp)
    as (t & -> & Hsp & _).
  rewrite wait_loop_completed. cbn [trace result fst snd].
  split; [|split].
  - by destruct Hl as [-> | ->].
  - rewrite spawned_app, Hsp.
    replace (S (length pending)) with (length pending + 1)%nat by lia.
    rewrite replicate_add. f_equal. by destruct Hl as [-> | ->].
  - apply last_lookup_warning_app.
Qed.

End poller.

Section download_main.

Import IcaCli Download.

Context {unicode : PyStr.UnicodeLower}.

Lemma elem_of_spawned (t : list event) (cmd : list string) :
  Spawn cmd ∈ t → cmd ∈ spawned t.
Proof.
  intros H. unfold spawned. apply list_elem_of_omap. by exists (Spawn cmd).
Qed.

Lemma check_ica_cli_spawned (r : proc_result) :
  spawned (trace (check_ica_cli r)) = [version_cmd].
Proof. destruct r as [rc out err|[[] msg]]; reflexivity. Qed.

Lemma get_project_id_spawned (project_name : string) (w : listing) :
  spawned (trace (get_project_id project_name w)) = [projects_list_cmd].
Proof.
  unfold get_project_id. destruct w as [[rc out err|e] js]; cbn; [|done].
  destruct (rc =? 0); cbn; [|done].
  destruct js as [e|entries]; cbn; [done|].
  by destruct (first_id project_name entries).
Qed.

(** C4, as the code has it.  When the poller comes to a [COMPLETED] reply
    (after replies that made it wait only with a polling interval that
    [time.sleep] accepts, without which it does not come to the reply)
    from which no output folder identifier can be read, it announces that
    the analysis completed successfully and returns [None]: no identifier,
    the value it also returns when a run fails, and no error of its own.
    The error is surfaced by the script that called it, which prints that
    the output folder identifier could not be obtained and exits with
    status 1 without starting a download. *)
Theorem completed_without_folder_is_caught_by_main (a : args) (w : world)
    (pending rest : list status_world) (out err : string)
    (lookup : output_lookup) (pid : string) :
  result (check_ica_cli (cli_check w)) = Return true →
  result (get_project_id (project_name a) (projects w)) = Return (Some pid) →
  pid ≠ "" →
  no_wait a = false →
  statuses w = pending ++ answered out err "COMPLETED" lookup :: rest →
  Forall reply_in_progress pending →
  pending = [] ∨ sleepable (polling_interval a) →
  no_identifier lookup →
  result (wait_for_analysis (analysis_id a) (polling_interval a) (statuses w))
    = Return (Finished None)
  ∧ last (trace (wait_for_analysis (analysis_id a) (polling_interval a) (statuses w)))
    = Some (Stdout "Analysis completed successfully!")
  ∧ result (main a w) = Return (Finished 1)
  ∧ last (trace (main a w)) = Some (Stdout "Could not get output folder ID")
  ∧ (∀ project_id folder_id dir,
       Spawn (download_cmd project_id folder_id dir) ∉ trace (main a w)).
Proof.
  intros Hcli Hproj Hpid Hwait Hscript Hpending Hsleep Hlookup.
  destruct (wait_loop_completed_without_folder (analysis_id a) (polling_interval a)
              pending rest out err lookup Hsleep Hpending Hlookup)
    as (Hres & Hsp & Hlast).
  rewrite <- Hscript in Hres, Hsp, Hlast.
  assert (Hsaid : last (trace (wait_for_analysis (analysis_id a) (polling_interval a)
                                 (statuses w)))
                  = Some (Stdout "Analysis completed successfully!")).
  { rewrite wait_for_analysis_eq. cbn [trace fst].
    destruct (trace (wait_loop (analysis_id a) (polling_interval a) (statuses w)));
      [done|]. by rewrite last_cons, Hlast. }
  assert (Hpoll : result (wait_for_analysis (analysis_id a) (polling_interval a)
                            (statuses w)) = Return (Finished None)).
  { by rewrite wait_for_analysis_eq. }
  assert (Hfind : find_folder a w
                  = (trace (wait_for_analysis (analysis_id a) (polling_interval a)
                              (statuses w)),
                     Return (Finished (inr None)))).
  { unfold find_folder. rewrite Hwait.
    rewrite (bind_of_result _ _ _ Hpoll). cbn. by rewrite app_nil_r. }
  assert (Hmain : main a w
                  = (trace (check_ica_cli (cli_check w))
                       ++ trace (get_project_id (project_name a) (projects w))
                       ++ trace (wait_for_analysis (analysis_id a) (polling_interval a)
                                   (statuses w))
                       ++ [Stdout "Could not get output folder ID"],
                     Return (Finished 1))).
  { unfold main. rewrite (bind_of_result _ _ _ Hcli). cbn [negb].
    rewrite (bind_of_result _ _ _ Hproj).
    assert (truthy (Some pid) = true) as ->.
    { unfold truthy. apply negb_true_iff. by apply String.eqb_neq. }
    cbn [negb]. rewrite Hfind, bind_Return. cbn. done. }
  split; [done|]. split; [done|]. rewrite Hmain. cbn [trace result fst snd].
  split; [done|]. split.
  - by rewrite !app_assoc, last_snoc.
  - intros project_id folder_id dir Hin%elem_of_spawned.
    rewrite !spawned_app, check_ica_cli_spawned, get_project_id_spawned in Hin.
    rewrite wait_for_analysis_eq in Hin. cbn [trace fst] in Hin.
    change (spawned (?e :: ?t)) with (spawned t) in Hin.
    rewrite Hsp in Hin. cbn [spawned omap] in Hin.
    rewrite app_nil_r in Hin.
    rewrite !elem_of_app, elem_of_replicate, !list_elem_of_singleton in Hin.
    destruct Hin as [Hcheck|[Hlist|[Hquery _]]]; discriminate.
Qed.

End download_main.

Section download_runs.

#[local] Existing Instance ascii_names.

Lemma completed_without_folder_is_caught_by_main_witness :
  result (Download.wait_for_analysis "a-42" 60 (Download.statuses world_without_folder))
    = Return (Finished None)
  ∧ last (trace (Download.wait_for_analysis "a-42" 60
                   (Download.statuses world_without_folder)))
    = Some (Stdout "Analysis completed successfully!")
  ∧ result (Download.main args_wait world_without_folder) = Return (Finished 1)
  ∧ last (trace (Download.main args_wait world_without_folder))
    = Some (Stdout "Could not get output folder ID")
  ∧ (∀ project_id folder_id dir,
       Spawn (Download.download_cmd project_id folder_id dir)
         ∉ trace (Download.main args_wait world_without_folder)).
Proof.
  apply (completed_without_folder_is_caught_by_main args_wait world_without_folder
           [answered "{...}" "" "RUNNING" (Download.FolderId None);
            answered "{...}" "" "RUNNING" (Download.FolderId None)]
           [] "{...}" "" (Download.FolderId None) "p-17").
  - reflexivity.
  - reflexivity.
  - discriminate.
  - reflexivity.
  - reflexivity.
  - repeat constructor;
      exists "{...}", "", "RUNNING", (Download.FolderId None); split; reflexivity.
  - right. unfold sleepable, sleep_max. cbn. lia.
  - left. reflexivity.
Defined.

End download_runs.

(** C4, as stated, does not hold.  With the single reply COMPLETED whose
    output object has no folder identifier, the poller makes one query,
    prints that the analysis completed successfully and returns [None]:
    it surfaces no error. *)
Lemma completed_without_folder_reports_success :
  Download.wait_for_analysis "a-42" 60
    [answered "{...}" "" "COMPLETED" (Download.FolderId None)]
  = ([Stdout "Monitoring analysis a-42...";
      Spawn (Download.history_cmd "a-42");
      Stdout "Current status: COMPLETED";
      Stdout "Analysis completed successfully!"],
     Return (Finished None))
  ∧ ¬ surfaces_error
        (Download.wait_for_analysis "a-42" 60
           [answered "{...}" "" "COMPLETED" (Download.FolderId None)]).
Proof.
  assert (Download.wait_for_analysis "a-42" 60
            [answered "{...}" "" "COMPLETED" (Download.FolderId None)]
          = ([Stdout "Monitoring analysis a-42...";
              Spawn (Download.history_cmd "a-42");
              Stdout "Current status: COMPLETED";
              Stdout "Analysis completed successfully!"],
             Return (Finished None))) as -> by reflexivity.
  split; [reflexivity|].
  intros [[e He]|[_ Hquiet]]; [discriminate He|].
  apply Hquiet. cbn [trace fst]. do 3 right. left.
Qed.

(** The failures the poller does surface: a terminal status. *)
Example failed_run_surfaces_error :
  surfaces_error
    (Download.wait_for_analysis "a-42" 60
       [answered "{...}" "" "FAILED" (Download.FolderId None)]).
Proof.
  assert (Download.wait_for_analysis "a-42" 60
            [answered "{...}" "" "FAILED" (Download.FolderId None)]
          = ([Stdout "Monitoring analysis a-42...";
              Spawn (Download.history_cmd "a-42");
              Stdout "Current status: FAILED";
              Stdout "Analysis ended with status: FAILED"],
             Return (Finished None))) as -> by reflexivity.
  right. split; [reflexivity|]. cbn [trace fst].
  rewrite !elem_of_cons, elem_of_nil. intros [H|[H|[H|[H|[]]]]]; discriminate H.
Qed.


(** C3, as stated, does not hold: the failure the poller returns does not
    carry the terminal status.  After a RUNNING reply, the runs that end
    with FAILED, with ABORTED and with TERMINATED all return the same value
    [None], the value also returned when the status query itself fails, so
    the status cannot be read back from what the poller returns. *)
Lemma failure_does_not_carry_the_status :
  (∀ st, st ∈ ["FAILED"; "ABORTED"; "TERMINATED"] →
     result (Download.wait_for_analysis "a-42" 60
               [answered "{...}" "" "RUNNING" (Download.FolderId None);
                answered "{...}" "" st (Download.FolderId None)])
     = Return (Finished None))
  ∧ result (Download.wait_for_analysis "a-42" 60
              [answered "{...}" "" "RUNNING" (Download.FolderId None);
               Download.StatusWorld (Completed 1 "" "no such analysis")
                 (inl (Exn OtherError "Expecting value"))])
    = Return (Finished None)
  ∧ ¬ failure_carries_reason
        (λ st, result (Download.wait_for_analysis "a-42" 60
                         [answered "{...}" "" "RUNNING" (Download.FolderId None);
                          answered "{...}" "" st (Download.FolderId None)])).
Proof.
  assert (H : ∀ st, st ∈ ["FAILED"; "ABORTED"; "TERMINATED"] →
            result (Download.wait_for_analysis "a-42" 60
                      [answered "{...}" "" "RUNNING" (Download.FolderId None);
                       answered "{...}" "" st (Download.FolderId None)])
            = Return (Finished None)).
  { intros st Hst.
    repeat (apply elem_of_cons in Hst as [->|Hst]; [reflexivity|]).
    by apply elem_of_nil in Hst. }
  split; [exact H|]. split; [reflexivity|].
  intros [reason_of Hreason].
  pose proof (Hreason "FAILED" ltac:(set_solver)) as H1.
  pose proof (Hreason "ABORTED" ltac:(set_solver)) as H2.
  cbv beta in H1, H2.
  rewrite H in H1 by set_solver. rewrite H in H2 by set_solver.
  rewrite H1 in H2. discriminate H2.
Qed.

(** With the polling interval -5 the poller does not come to the second
    reply: the first sleep raises. *)
Example negative_interval_ends_the_poller :
  Download.wait_for_analysis "a-42" (-5)
    [answered "{...}" "" "RUNNING" (Download.FolderId None);
     answered "{...}" "" "COMPLETED" (Download.FolderId (Some "f1"))]
  = ([Stdout "Monitoring analysis a-42...";
      Spawn (Download.history_cmd "a-42");
      Stdout "Current status: RUNNING"],
     Raise (Exn OtherError "sleep length must be non-negative")).
Proof. reflexivity. Qed.

(** With the interval 60 and the replies RUNNING, RUNNING, COMPLETED with
    the folder ["f1"], the poller sleeps twice and returns ["f1"]. *)
Example poller_returns_the_folder :
  Download.wait_for_analysis "a-42" 60
    [answered "{...}" "" "RUNNING" (Download.FolderId None);
     answered "{...}" "" "RUNNING" (Download.FolderId None);
     answered "{...}" "" "COMPLETED" (Download.FolderId (Some "f1"))]
  = ([Stdout "Monitoring analysis a-42...";
      Spawn (Download.history_cmd "a-42");
      Stdout "Current status: RUNNING"; Sleep 60;
      Spawn (Download.history_cmd "a-42");
      Stdout "Current status: RUNNING"; Sleep 60;
      Spawn (Download.history_cmd "a-42");
      Stdout "Current status: COMPLETED";
      Stdout "Analysis completed successfully!"],
     Return (Finished (Some "f1"))).
Proof. reflexivity. Qed.
(** ** Resolving names to identifiers *)

Section resolve.

Import IcaCli.

Lemma code_inj (a b : ascii) : PyStr.code a = PyStr.code b → a = b.
Proof.
  unfold PyStr.code. intros H.
  by rewrite <- (ascii_N_embedding a), <- (ascii_N_embedding b), H.
Qed.

Lemma code_lt (a : ascii) : (PyStr.code a < 256)%N.
Proof. apply N_ascii_bounded. Qed.

Lemma code_lower_char (a : ascii) :
  PyStr.code (PyStr.lower_char a)
  = if ((65 <=? PyStr.code a) && (PyStr.code a <=? 90))%N
    then (PyStr.code a + 32)%N else PyStr.code a.
Proof.
  unfold PyStr.lower_char.
  destruct ((65 <=? PyStr.code a) && (PyStr.code a <=? 90))%N eqn:E; [|done].
  unfold PyStr.code in *. apply N_ascii_embedding.
  apply andb_true_iff in E as [_ E%N.leb_le]. lia.
Qed.

Lemma lower_char_same_letter (a b : ascii) :
  PyStr.lower_char a = PyStr.lower_char b ↔ same_letter a b.
Proof.
  unfold same_letter, is_upper. split.
  - intros H. apply (f_equal PyStr.code) in H. rewrite !code_lower_char in H.
    destruct ((65 <=? PyStr.code a) && (PyStr.code a <=? 90))%N eqn:Ea;
    destruct ((65 <=? PyStr.code b) && (PyStr.code b <=? 90))%N eqn:Eb;
      try (apply andb_true_iff in Ea as [Ea1%N.leb_le Ea2%N.leb_le]);
      try (apply andb_true_iff in Eb as [Eb1%N.leb_le Eb2%N.leb_le]).
    + left. apply code_inj. lia.
    + right. left. split; [lia|]. lia.
    + right. right. split; [lia|]. lia.
    + left. by apply code_inj.
  - intros H. apply code_inj. rewrite !code_lower_char.
    destruct ((65 <=? PyStr.code a) && (PyStr.code a <=? 90))%N eqn:Ea;
    destruct ((65 <=? PyStr.code b) && (PyStr.code b <=? 90))%N eqn:Eb;
      try (apply andb_true_iff in Ea as [Ea1%N.leb_le Ea2%N.leb_le]);
      try (apply andb_true_iff in Eb as [Eb1%N.leb_le Eb2%N.leb_le]);
      try (apply andb_false_iff in Ea as [Ea%N.leb_gt|Ea%N.leb_gt]);
      try (apply andb_false_iff in Eb as [Eb%N.leb_gt|Eb%N.leb_gt]);
      destruct H as [->|[[? ?]|[? ?]]]; lia.
Qed.

Lemma lower_ascii_same_letters (a b : string) :
  PyStr.lower_ascii a = PyStr.lower_ascii b ↔ same_letters a b.
Proof.
  revert b. induction a as [|c a IH]; intros [|d b]; simpl.
  - split; [constructor|done].
  - split; [done|inversion 1].
  - split; [done|inversion 1].
  - split.
    + intros [= Hc Hs]. constructor; [by apply lower_char_same_letter|by apply IH].
    + inversion 1; subst. f_equal; [by apply lower_char_same_letter|by apply IH].
Qed.

Context {unicode : PyStr.UnicodeLower}.

Lemma same_name_ignores_case (a b : string) :
  same_name a b = true ↔ equal_ignoring_case a b.
Proof. unfold same_name, equal_ignoring_case. apply String.eqb_eq. Qed.

(** On ASCII names, equality ignoring case is the equality of the letters,
    place by place. *)
Lemma ascii_names_same_letters (a b : string) :
  PyStr.is_ascii a = true → PyStr.is_ascii b = true →
  equal_ignoring_case a b ↔ same_letters a b.
Proof.
  intros Ha Hb. unfold equal_ignoring_case, PyStr.lower. rewrite Ha, Hb.
  apply lower_ascii_same_letters.
Qed.

(** [first_id] is the identifier of the first entry with the wanted name. *)
Lemma first_id_Some (wanted : string) (entries : list entry) (i : string) :
  first_id wanted entries = Some i ↔
  ∃ pre e post,
    entries = pre ++ e :: post
    ∧ Forall (λ x, ¬ equal_ignoring_case (name x) wanted) pre
    ∧ equal_ignoring_case (name e) wanted
    ∧ id e = i.
Proof.
  induction entries as [|x entries IH]; simpl.
  - split; [done|]. intros (pre & e & post & H & _). by destruct pre.
  - destruct (same_name (name x) wanted) eqn:E.
    + apply same_name_ignores_case in E. split.
      * intros [= <-]. exists [], x, entries. by repeat split.
      * intros ([|y pre] & e & post & [= -> ->] & Hpre & He & <-); [done|].
        by apply Forall_cons_1 in Hpre as [Hy _].
    + assert (¬ equal_ignoring_case (name x) wanted) as Hx.
      { rewrite <- same_name_ignores_case. by rewrite E. }
      rewrite IH. split.
      * intros (pre & e & post & -> & Hpre & He & <-).
        exists (x :: pre), e, post. repeat split; [by constructor|done].
      * intros ([|y pre] & e & post & [= -> ->] & Hpre & He & <-); [done|].
        apply Forall_cons_1 in Hpre as [_ Hpre]. by exists pre, e, post.
Qed.

Lemma first_id_None (wanted : string) (entries : list entry) :
  first_id wanted entries = None ↔
  Forall (λ x, ¬ equal_ignoring_case (name x) wanted) entries.
Proof.
  induction entries as [|x entries IH]; simpl; [by split|].
  destruct (same_name (name x) wanted) eqn:E.
  - apply same_name_ignores_case in E. split; [done|].
    by intros [Hx _]%Forall_cons_1.
  - rewrite IH. split.
    + intros H. constructor; [|done].
      rewrite <- same_name_ignores_case. by rewrite E.
    + by intros [_ H]%Forall_cons_1.
Qed.

Lemma first_id_resolves (wanted : string) (entries : list entry) :
  resolves_to wanted entries (first_id wanted entries).
Proof.
  destruct (first_id wanted entries) as [i|] eqn:E; simpl.
  - by apply first_id_Some.
  - by apply first_id_None.
Qed.

(** C10. When the listing command succeeds and its output decodes to the
    list [entries], [get_project_id] and [get_pipeline_id] return the
    identifier of the first entry whose name equals the requested name
    ignoring case, and return [None] after printing the not-found message
    when no entry has such a name.  Two names are equal ignoring case when
    their lower-case forms ([str.lower]) are equal; for ASCII names, when
    they have the same length and the same letter, up to its case, at each
    place. *)
Theorem names_resolve_ignoring_case (wanted : string) (w : listing)
    (out err : string) (entries : list entry) :
  list_run w = Completed 0 out err →
  list_json w = inr entries →
  (∃ r,
     result (get_project_id wanted w) = Return r
     ∧ resolves_to wanted entries r
     ∧ (r = None →
        last (trace (get_project_id wanted w))
        = Some (Stdout ("Project '" +:+ wanted +:+ "' not found"))))
  ∧ (∀ project_id, ∃ r,
       result (get_pipeline_id project_id wanted w) = Return r
       ∧ resolves_to wanted entries r
       ∧ (r = None →
          last (trace (get_pipeline_id project_id wanted w))
          = Some (Stdout ("Pipeline '" +:+ wanted +:+ "' not found in project"))))
  ∧ (∀ a b, equal_ignoring_case a b ↔ PyStr.lower a = PyStr.lower b)
  ∧ (∀ a b, PyStr.is_ascii a = true → PyStr.is_ascii b = true →
       equal_ignoring_case a b ↔ same_letters a b).
Proof.
  intros Hrun Hjson. pose proof (first_id_resolves wanted entries) as Hres.
  split; [|split; [intros project_id|split; [done|apply ascii_names_same_letters]]];
    exists (first_id wanted entries);
    unfold get_project_id, get_pipeline_id; rewrite Hrun, Hjson; cbn;
    destruct (first_id wanted entries); cbn; done.
Qed.

End resolve.

Section resolve_runs.

#[local] Existing Instance ascii_names.

Lemma names_resolve_ignoring_case_witness :
  (∃ r,
     result (IcaCli.get_project_id "Demo" projects_listing) = Return r
     ∧ resolves_to "Demo"
         [IcaCli.Entry "Alpha" "p-1"; IcaCli.Entry "DEMO" "p-2";
          IcaCli.Entry "demo" "p-3"] r
     ∧ (r = None →
        last (trace (IcaCli.get_project_id "Demo" projects_listing))
        = Some (Stdout ("Project '" +:+ "Demo" +:+ "' not found"))))
  ∧ (∀ project_id, ∃ r,
       result (IcaCli.get_pipeline_id project_id "Demo" projects_listing) = Return r
       ∧ resolves_to "Demo"
           [IcaCli.Entry "Alpha" "p-1"; IcaCli.Entry "DEMO" "p-2";
            IcaCli.Entry "demo" "p-3"] r
       ∧ (r = None →
          last (trace (IcaCli.get_pipeline_id project_id "Demo" projects_listing))
          = Some (Stdout ("Pipeline '" +:+ "Demo" +:+ "' not found in project"))))
  ∧ (∀ a b, equal_ignoring_case a b ↔ PyStr.lower a = PyStr.lower b)
  ∧ (∀ a b, PyStr.is_ascii a = true → PyStr.is_ascii b = true →
       equal_ignoring_case a b ↔ same_letters a b).
Proof.
  apply (names_resolve_ignoring_case "Demo" projects_listing "[...]" "");
    reflexivity.
Defined.

End resolve_runs.

(** Whatever the lower-case form of text outside ASCII, the second of these
    ASCII names is the first that matches. *)
Example resolve_demo (unicode : PyStr.UnicodeLower) :
  result (IcaCli.get_project_id "Demo" projects_listing) = Return (Some "p-2")
  ∧ result (IcaCli.get_project_id "Beta" projects_listing) = Return None.
Proof. split; reflexivity. Qed.
(** ** Stage pipeline *)

Section workflow.

Import IcaCli Workflow.

Variable sys_executable : string.
Variable script_path : string → string.

Local Abbreviation run_upload := (Workflow.run_upload sys_executable script_path).
Local Abbreviation run_pipeline := (Workflow.run_pipeline sys_executable script_path).
Local Abbreviation run_download := (Workflow.run_download sys_executable script_path).
Local Abbreviation upload_cmd := (Workflow.upload_cmd sys_executable script_path).
Local Abbreviation pipeline_cmd := (Workflow.pipeline_cmd sys_executable script_path).
Local Abbreviation download_cmd := (Workflow.download_cmd sys_executable script_path).
Local Abbreviation main := (Workflow.main sys_executable script_path).

(** The stages never raise: what goes wrong inside is printed and turned
    into the failure value. *)
Lemma run_upload_spec (input_folder project_name : string)
    (folder_name : option string) (r : proc_result) :
  ∃ v,
    result (run_upload input_folder project_name folder_name r) = Return v
    ∧ spawned (trace (run_upload input_folder project_name folder_name r))
      = [upload_cmd input_folder project_name folder_name]
    ∧ (∀ rc out err, r = Completed rc out err → rc ≠ 0 →
         v = None
         ∧ last (trace (run_upload input_folder project_name folder_name r))
           = Some (Stdout ("Error during upload: " +:+ err))).
Proof.
  unfold Workflow.run_upload. destruct r as [rc out err|e]; cbn.
  - destruct (Z.eqb_spec rc 0) as [->|Hrc]; cbn.
    + eexists. split; [reflexivity|]. split; [reflexivity|].
      by intros rc' out' err' [= <- _ _] Hne.
    + eexists. split; [reflexivity|]. split; [reflexivity|].
      by intros rc' out' err' [= <- <- <-] _.
  - eexists. split; [reflexivity|]. split; [reflexivity|]. done.
Qed.

Lemma run_pipeline_spec (project_name pipeline_name input_folder : string)
    (params_file analysis_name : option string) (r : proc_result) :
  ∃ v,
    result (run_pipeline project_name pipeline_name input_folder
              params_file analysis_name r) = Return v
    ∧ spawned (trace (run_pipeline project_name pipeline_name input_folder
                        params_file analysis_name r))
      = [pipeline_cmd project_name pipeline_name input_folder params_file analysis_name]
    ∧ (∀ rc out err, r = Completed rc out err → rc ≠ 0 →
         v = None
         ∧ last (trace (run_pipeline project_name pipeline_name input_folder
                          params_file analysis_name r))
           = Some (Stdout ("Error starting pipeline: " +:+ err))).
Proof.
  unfold Workflow.run_pipeline. destruct r as [rc out err|e]; cbn.
  - destruct (Z.eqb_spec rc 0) as [->|Hrc]; cbn.
    + destruct (extract_analysis_id (PyStr.splitlines out)); cbn;
        (eexists; split; [reflexivity|]; split; [reflexivity|]);
        by intros rc' out' err' [= <- _ _] Hne.
    + eexists. split; [reflexivity|]. split; [reflexivity|].
      by intros rc' out' err' [= <- <- <-] _.
  - eexists. split; [reflexivity|]. split; [reflexivity|]. done.
Qed.

Lemma for_each_print_spawned (f : string → string) (lines : list string) :
  for_each (λ line, emit (Stdout (f line))) lines
  = (Stdout ∘ f <$> lines, Return tt).
Proof.
  induction lines as [|l lines IH]; [done|].
  cbn [for_each]. rewrite bind_emit, IH. done.
Qed.

Lemma spawned_prints (f : string → string) (lines : list string) :
  spawned (Stdout ∘ f <$> lines) = [].
Proof. by induction lines. Qed.

Lemma run_download_spec (project_name analysis_id output_dir : string)
    (polling_interval : Z) (r : stream_result) :
  ∃ ok : bool,
    result (run_download project_name analysis_id output_dir polling_interval r)
      = Return ok
    ∧ spawned (trace (run_download project_name analysis_id output_dir
                        polling_interval r))
      = [download_cmd project_name analysis_id output_dir polling_interval].
Proof.
  unfold Workflow.run_download. destruct r as [lines rc err|e]; cbn.
  - rewrite for_each_print_spawned. cbn.
    destruct (rc =? 0); cbn; eexists; (split; [reflexivity|]);
      rewrite spawned_app, spawned_prints; done.
  - eexists. split; reflexivity.
Qed.

(** [main] when the [ica] executable is usable, stage by stage. *)
Lemma main_stages (a : args) (w : world) (folder analysis : option string)
    (ok : bool) :
  let stage_upload := stage_upload sys_executable script_path in
  let stage_pipeline := stage_pipeline sys_executable script_path in
  let stage_download := stage_download sys_executable script_path in
  result (check_ica_cli (cli_check w)) = Return true →
  result (stage_upload a w) = Return folder →
  result (stage_pipeline a w folder) = Return analysis →
  result (stage_download a w analysis) = Return ok →
  main a w
  = if negb (truthy folder) then
      (trace (check_ica_cli (cli_check w)) ++ trace (stage_upload a w)
         ++ [Stdout "Upload failed. Stopping workflow."],
       Return 1)
    else if negb (truthy analysis) then
      (trace (check_ica_cli (cli_check w)) ++ trace (stage_upload a w)
         ++ trace (stage_pipeline a w folder)
         ++ [Stdout "Pipeline start failed. Stopping workflow."],
       Return 1)
    else
      (trace (check_ica_cli (cli_check w)) ++ trace (stage_upload a w)
         ++ trace (stage_pipeline a w folder)
         ++ trace (stage_download a w analysis),
       Return (if ok then 0 else 1)).
Proof.
  intros stage_upload stage_pipeline stage_download Hcli Hup Hpl Hdl.
  unfold Workflow.main.
  rewrite (bind_of_result _ _ _ Hcli). cbn [negb].
  fold (stage_upload a w). rewrite (bind_of_result _ _ _ Hup).
  destruct (truthy folder); cbn [negb].
  - fold (stage_pipeline a w folder). rewrite (bind_of_result _ _ _ Hpl).
    destruct (truthy analysis); cbn [negb].
    + fold (stage_download a w analysis). rewrite (bind_of_result _ _ _ Hdl).
      cbn. by rewrite app_nil_r.
    + by rewrite bind_emit.
  - by rewrite bind_emit.
Qed.

End workflow.

Section fail_fast.

Import IcaCli Workflow.

Variable sys_executable : string.
Variable script_path : string → string.

Local Abbreviation main := (Workflow.main sys_executable script_path).
Local Abbreviation upload := (stage_upload sys_executable script_path).
Local Abbreviation pipeline := (stage_pipeline sys_executable script_path).
Local Abbreviation download := (stage_download sys_executable script_path).
Local Abbreviation upload_command := (upload_command sys_executable script_path).
Local Abbreviation pipeline_command := (pipeline_command sys_executable script_path).
Local Abbreviation download_command := (download_command sys_executable script_path).
Local Abbreviation check_cmd := IcaCli.version_cmd.

(** When the [ica] executable is not usable, no stage is started. *)
Lemma no_cli_no_stage (a : args) (w : world) :
  result (check_ica_cli (cli_check w)) ≠ Return true →
  spawned (trace (main a w)) = [version_cmd].
Proof.
  intros Hno. unfold Workflow.main.
  destruct (check_ica_cli (cli_check w)) as [t [[]|e]] eqn:E.
  - by destruct Hno.
  - pose proof (check_ica_cli_spawned (cli_check w)) as Hsp.
    rewrite E in Hsp. cbn [trace fst] in Hsp.
    rewrite bind_Return. cbn [negb trace fst]. rewrite spawned_app, Hsp. done.
  - pose proof (check_ica_cli_spawned (cli_check w)) as Hsp.
    rewrite E in Hsp. cbn [trace fst] in Hsp. by rewrite bind_Raise.
Qed.

(** [process_sample] when the upload script, or the workflow script after
    it, exits with a status other than zero. *)
Lemma process_sample_fail_fast (project : string)
    (pw : BatchProcessor.sample_world) (s : BatchProcessor.sample) :
  (∀ rc out err,
     BatchProcessor.upload_run pw = Completed rc out err → rc ≠ 0 →
     BatchProcessor.process_sample project pw s
     = ([Spawn (BatchProcessor.upload_cmd project s);
         LogError ("Error processing " +:+ BatchProcessor.sample_id s +:+ ": "
                   +:+ "Upload failed: " +:+ err)],
        Return (failed_row s pw ("Upload failed: " +:+ err))))
  ∧ (∀ out err params rc' out' err',
       BatchProcessor.upload_run pw = Completed 0 out err →
       BatchProcessor._generate_params s = ([], Return params) →
       BatchProcessor.params_write pw = None →
       BatchProcessor.pipeline_run pw = Completed rc' out' err' → rc' ≠ 0 →
       BatchProcessor.process_sample project pw s
       = ([Spawn (BatchProcessor.upload_cmd project s);
           WriteJson (BatchProcessor.params_file s) (DocParams params);
           Spawn (BatchProcessor.pipeline_cmd project s);
           LogError ("Error processing " +:+ BatchProcessor.sample_id s +:+ ": "
                     +:+ "Pipeline failed: " +:+ err')],
          Return (failed_row s pw ("Pipeline failed: " +:+ err')))).
Proof.
  unfold BatchProcessor.process_sample, BatchProcessor.process_sample_try.
  split.
  - intros rc out err -> Hrc%Z.eqb_neq. cbn. by rewrite Hrc.
  - intros out err params rc' out' err' -> -> -> -> Hrc%Z.eqb_neq. cbn.
    by rewrite Hrc.
Qed.

(** C7. The stages run in their listed order and execution is fail-fast.
    In the workflow script the commands started are, in this order, a
    prefix of: version check, upload, pipeline start, download.  When the
    upload stage reports a failure the script prints the diagnostic of
    that stage, stops with exit status 1 and starts neither the pipeline
    nor the download; when the upload succeeds with a value and the
    pipeline stage reports a failure, the script prints the diagnostic of
    that stage, stops with exit status 1 and never starts the download.
    In the batch processor a failing upload gives a [failed] row that
    carries the upload diagnostic and the workflow is not started; a
    failing workflow, started with the parameters generated for the row,
    gives a [failed] row that carries its diagnostic. *)
Theorem stages_run_in_order_and_fail_fast (a : args) (w : world) :
  result (check_ica_cli (cli_check w)) = Return true →
  ∃ (folder analysis : option string) (ok : bool),
    result (upload a w) = Return folder
    ∧ result (pipeline a w folder) = Return analysis
    ∧ result (download a w analysis) = Return ok
    ∧ spawned (trace (main a w))
        `prefix_of` [check_cmd; upload_command a; pipeline_command a folder;
                     download_command a analysis]
    ∧ (truthy folder = false →
         main a w
         = (trace (check_ica_cli (cli_check w)) ++ trace (upload a w)
              ++ [Stdout "Upload failed. Stopping workflow."],
            Return 1)
         ∧ spawned (trace (main a w)) = [check_cmd; upload_command a])
    ∧ (truthy folder = true → truthy analysis = false →
         main a w
         = (trace (check_ica_cli (cli_check w)) ++ trace (upload a w)
              ++ trace (pipeline a w folder)
              ++ [Stdout "Pipeline start failed. Stopping workflow."],
            Return 1)
         ∧ spawned (trace (main a w))
           = [check_cmd; upload_command a; pipeline_command a folder])
    ∧ (truthy folder = true → truthy analysis = true →
         result (main a w) = Return (if ok then 0 else 1)
         ∧ spawned (trace (main a w))
           = [check_cmd; upload_command a; pipeline_command a folder;
              download_command a analysis])
    ∧ (∀ rc out err, upload_run w = Completed rc out err → rc ≠ 0 →
         folder = None
         ∧ last (trace (upload a w)) = Some (Stdout ("Error during upload: " +:+ err)))
    ∧ (∀ rc out err, pipeline_run w = Completed rc out err → rc ≠ 0 →
         analysis = None
         ∧ last (trace (pipeline a w folder))
           = Some (Stdout ("Error starting pipeline: " +:+ err)))
    ∧ (∀ project pw s rc out err,
         BatchProcessor.upload_run pw = Completed rc out err → rc ≠ 0 →
         BatchProcessor.process_sample project pw s
         = ([Spawn (BatchProcessor.upload_cmd project s);
             LogError ("Error processing " +:+ BatchProcessor.sample_id s +:+ ": "
                       +:+ "Upload failed: " +:+ err)],
            Return (failed_row s pw ("Upload failed: " +:+ err))))
    ∧ (∀ project pw s out err params rc' out' err',
         BatchProcessor.upload_run pw = Completed 0 out err →
         BatchProcessor._generate_params s = ([], Return params) →
         BatchProcessor.params_write pw = None →
         BatchProcessor.pipeline_run pw = Completed rc' out' err' → rc' ≠ 0 →
         BatchProcessor.process_sample project pw s
         = ([Spawn (BatchProcessor.upload_cmd project s);
             WriteJson (BatchProcessor.params_file s) (DocParams params);
             Spawn (BatchProcessor.pipeline_cmd project s);
             LogError ("Error processing " +:+ BatchProcessor.sample_id s +:+ ": "
                       +:+ "Pipeline failed: " +:+ err')],
            Return (failed_row s pw ("Pipeline failed: " +:+ err')))).
Proof.
  intros Hcli.
  destruct (run_upload_spec sys_executable script_path (input_folder a)
              (project_name a) (folder_name a) (upload_run w))
    as (folder & Hup & Hup_cmd & Hup_err).
  destruct (run_pipeline_spec sys_executable script_path (project_name a)
              (pipeline_name a) (default "" folder) (params_file a)
              (analysis_name a) (pipeline_run w))
    as (analysis & Hpl & Hpl_cmd & Hpl_err).
  destruct (run_download_spec sys_executable script_path (project_name a)
              (default "" analysis) (output_dir a) (polling_interval a)
              (download_run w))
    as (ok & Hdl & Hdl_cmd).
  exists folder, analysis, ok.
  pose proof (main_stages sys_executable script_path a w folder analysis ok
                Hcli Hup Hpl Hdl) as Hmain.
  fold (upload a w) (pipeline a w folder) (download a w analysis)
    in Hup, Hpl, Hdl, Hup_cmd, Hpl_cmd, Hdl_cmd, Hup_err, Hpl_err.
  fold (upload_command a) in Hup_cmd.
  fold (pipeline_command a folder) in Hpl_cmd.
  fold (download_command a analysis) in Hdl_cmd.
  assert (Hsp : spawned (trace (main a w))
    = if negb (truthy folder) then [check_cmd; upload_command a]
      else if negb (truthy analysis)
           then [check_cmd; upload_command a; pipeline_command a folder]
           else [check_cmd; upload_command a; pipeline_command a folder;
                 download_command a analysis]).
  { rewrite Hmain.
    destruct (truthy folder); cbn [negb]; [destruct (truthy analysis); cbn [negb]|];
      cbn [trace fst];
      rewrite !spawned_app, ?Hup_cmd, ?Hpl_cmd, ?Hdl_cmd, check_ica_cli_spawned;
      done. }
  split; [done|]. split; [done|]. split; [done|]. split.
  { rewrite Hsp.
    destruct (truthy folder); cbn [negb]; [destruct (truthy analysis); cbn [negb]|].
    - done.
    - by eexists [_].
    - by eexists [_; _]. }
  split. { intros Hf. rewrite Hsp, Hmain, Hf. done. }
  split. { intros Hf Ha. rewrite Hsp, Hmain, Hf, Ha. done. }
  split. { intros Hf Ha. rewrite Hsp, Hmain, Hf, Ha. done. }
  split; [exact Hup_err|]. split; [exact Hpl_err|].
  split.
  - intros project pw s. apply process_sample_fail_fast.
  - intros project pw s. apply process_sample_fail_fast.
Qed.

End fail_fast.

Example submit_failure_skips_download :
  Workflow.main "python3" scripts_in_opt args_run7 world_submit_fails
  = ([Spawn ["ica"; "--version"];
      Stdout (PyStr.nl +:+ "=== Step 1: Uploading Data ===");
      Stdout "Uploading /data/run7/ to project 'Demo'...";
      Spawn ["python3"; "/opt/ica/ica_cli_upload.py"; "/data/run7/"; "Demo"];
      Stdout (PyStr.nl +:+ "=== Step 2: Starting Pipeline ===");
      Stdout "Starting pipeline 'dragen-germline' on folder 'run7'...";
      Spawn ["python3"; "/opt/ica/ica_cli_pipeline.py"; "Demo"; "dragen-germline";
             "run7"; "--params-file"; "params.json"];
      Stdout "Error starting pipeline: Pipeline 'dragen-germline' not found in project";
      Stdout "Pipeline start failed. Stopping workflow."],
     Return 1).
Proof. reflexivity. Qed.

Lemma stages_run_in_order_and_fail_fast_witness :
  result (Workflow.main "python3" scripts_in_opt args_run7 world_submit_fails)
    = Return 1
  ∧ spawned (trace (Workflow.main "python3" scripts_in_opt
                      args_run7 world_submit_fails))
    = [IcaCli.version_cmd;
       upload_command "python3" scripts_in_opt args_run7;
       pipeline_command "python3" scripts_in_opt args_run7 (Some "run7")].
Proof.
  destruct (stages_run_in_order_and_fail_fast "python3" scripts_in_opt
              args_run7 world_submit_fails eq_refl)
    as (folder & analysis & ok & Hup & Hpl & _ & _ & _ & Hsubmit & _).
  vm_compute in Hup. injection Hup as <-.
  vm_compute in Hpl. injection Hpl as <-.
  destruct (Hsubmit eq_refl eq_refl) as [Hmain Hspawned].
  split; [by rewrite Hmain|exact Hspawned].
Defined.

(** ** Notifications and monitors *)

Section notifications.

Import Monitor.

Variable project_name : string.
Variable config : NotificationConfig.

(** [float(text)], [str(x)], [format(x, '.<n>f')] and the text of an
    [UnboundLocalError]. *)
Variable float_of_text : string → exn + float.
Variable float_text : float → string.
Variable fixed : nat → float → string.
Variable unbound_text : string → string.

Local Abbreviation mail := (mail config).
Local Abbreviation storage_cmd := (storage_cmd project_name).
Local Abbreviation costs_cmd := (costs_cmd project_name).

(** Without a webhook the chat channel does nothing. *)
Lemma no_webhook_is_noop (message : string) (raised : option exn) :
  truthy (slack_webhook config) = false →
  _send_slack config message raised = ([], Return tt).
Proof. intros H. unfold _send_slack. by rewrite H. Qed.

(** A failure of the chat channel is caught and logged; it comes after the
    mail channel has been tried. *)
Lemma chat_failure_is_caught (subject msg url : string) (e : exn) :
  slack_webhook config = Some url → url ≠ "" →
  notify config subject msg (Delivery None (Some e))
  = ([mail subject msg; HttpPost url msg;
      LogError ("Failed to send Slack notification: " +:+ exn_str e)],
     Return tt).
Proof.
  intros Hurl Hne. unfold notify, _send_email, _send_slack. rewrite Hurl.
  assert (truthy (Some url) = true) as ->.
  { unfold truthy. apply negb_true_iff. by apply String.eqb_neq. }
  reflexivity.
Qed.

(** C5 (what the code does). A failure of the mail channel is not caught:
    the exception raised by the SMTP session leaves [_send_email], the chat
    channel is not tried, nothing is logged, and the exception reaches the
    caller of the two sends. *)
Theorem mail_failure_is_not_caught (subject msg : string) (e : exn)
    (chat : option exn) :
  notify config subject msg (Delivery (Some e) chat)
  = ([mail subject msg], Raise e).
Proof. reflexivity. Qed.

Lemma notify_delivered (subject msg : string) (d : delivery) :
  smtp d = None →
  result (notify config subject msg d) = Return tt
  ∧ spawned (trace (notify config subject msg d)) = []
  ∧ sleeps (trace (notify config subject msg d)) = [].
Proof.
  intros Hs. unfold notify, _send_email, _send_slack. rewrite Hs.
  destruct (truthy (slack_webhook config)); [|done].
  by destruct (post d).
Qed.

Local Abbreviation storage_loop :=
  (storage_loop project_name config float_of_text fixed unbound_text).
Local Abbreviation costs_loop := (costs_loop project_name config fixed).
Local Abbreviation monitor_storage :=
  (monitor_storage project_name config float_of_text float_text fixed unbound_text).
Local Abbreviation monitor_costs :=
  (monitor_costs project_name config float_text fixed).

(** An iteration whose query fails: the error is logged and notified, and
    the loop goes on with the next poll, and with the values it had. *)
Lemma storage_loop_query_fails (threshold : float) (check_interval : Z)
    (l : levels) (p : poll) (rest : list poll) :
  query_fails p →
  ∃ t,
    storage_loop threshold check_interval l (p :: rest)
    = (Spawn storage_cmd :: t ++ trace (storage_loop threshold check_interval l rest),
       result (storage_loop threshold check_interval l rest))
    ∧ spawned t = [] ∧ sleeps t = [].
Proof.
  intros (rc & out & err & Hq & Hrc%Z.eqb_neq & Hs).
  destruct (notify_delivered "Storage Monitoring Error"
              ("Failed to get storage info: " +:+ err) (deliver p) Hs)
    as (Hres & Hsp & Hsl).
  exists (LogError ("Failed to get storage info: " +:+ err)
            :: trace (notify config "Storage Monitoring Error"
                        ("Failed to get storage info: " +:+ err) (deliver p))).
  cbn [Monitor.storage_loop]. rewrite Hq, subprocess_run_completed. cbv beta iota.
  rewrite Hrc. cbn [negb]. rewrite bind_emit, (bind_of_result _ _ _ Hres).
  cbn [trace result fst snd]. split; [done|].
  split; [exact Hsp|exact Hsl].
Qed.

Lemma costs_loop_query_fails (budget : float) (check_interval : Z)
    (p : poll) (rest : list poll) :
  query_fails p →
  ∃ t,
    costs_loop budget check_interval (p :: rest)
    = (Spawn costs_cmd :: t ++ trace (costs_loop budget check_interval rest),
       result (costs_loop budget check_interval rest))
    ∧ spawned t = [] ∧ sleeps t = [].
Proof.
  intros (rc & out & err & Hq & Hrc%Z.eqb_neq & Hs).
  destruct (notify_delivered "Cost Monitoring Error"
              ("Failed to get cost info: " +:+ err) (deliver p) Hs)
    as (Hres & Hsp & Hsl).
  exists (LogError ("Failed to get cost info: " +:+ err)
            :: trace (notify config "Cost Monitoring Error"
                        ("Failed to get cost info: " +:+ err) (deliver p))).
  cbn [Monitor.costs_loop]. rewrite Hq, subprocess_run_completed. cbv beta iota.
  rewrite Hrc. cbn [negb]. rewrite bind_emit, (bind_of_result _ _ _ Hres).
  cbn [trace result fst snd]. split; [done|].
  split; [exact Hsp|exact Hsl].
Qed.

(** As long as the script holds only failing queries, the loop starts the
    query again and again and never sleeps. *)
Lemma storage_loop_failing_queries (threshold : float) (check_interval : Z)
    (l : levels) (script : list poll) :
  Forall query_fails script →
  result (storage_loop threshold check_interval l script) = Return Polling
  ∧ spawned (trace (storage_loop threshold check_interval l script))
    = replicate (length script) storage_cmd
  ∧ sleeps (trace (storage_loop threshold check_interval l script)) = [].
Proof.
  induction 1 as [|p script Hp _ (IHr & IHsp & IHsl)]; [done|].
  destruct (storage_loop_query_fails threshold check_interval l p script Hp)
    as (t & -> & Hsp & Hsl).
  cbn [trace result fst snd]. split; [done|].
  change (Spawn storage_cmd :: t ++ ?u) with ([Spawn storage_cmd] ++ t ++ u).
  rewrite !spawned_app, !sleeps_app, Hsp, Hsl, IHsp, IHsl. done.
Qed.

Lemma costs_loop_failing_queries (budget : float) (check_interval : Z)
    (script : list poll) :
  Forall query_fails script →
  result (costs_loop budget check_interval script) = Return Polling
  ∧ spawned (trace (costs_loop budget check_interval script))
    = replicate (length script) costs_cmd
  ∧ sleeps (trace (costs_loop budget check_interval script)) = [].
Proof.
  induction 1 as [|p script Hp _ (IHr & IHsp & IHsl)]; [done|].
  destruct (costs_loop_query_fails budget check_interval p script Hp)
    as (t & -> & Hsp & Hsl).
  cbn [trace result fst snd]. split; [done|].
  change (Spawn costs_cmd :: t ++ ?u) with ([Spawn costs_cmd] ++ t ++ u).
  rewrite !spawned_app, !sleeps_app, Hsp, Hsl, IHsp, IHsl. done.
Qed.

Lemma monitor_storage_eq (threshold : float) (check_interval : Z)
    (script : list poll) :
  monitor_storage threshold check_interval script
  = (LogInfo ("Starting storage monitoring (threshold: "
              +:+ float_text threshold +:+ "%)")
       :: trace (storage_loop threshold check_interval (Levels None None) script),
     result (storage_loop threshold check_interval (Levels None None) script)).
Proof. unfold Monitor.monitor_storage. by rewrite bind_emit. Qed.

Lemma monitor_costs_eq (budget : float) (check_interval : Z) (script : list poll) :
  monitor_costs budget check_interval script
  = (LogInfo ("Starting cost monitoring (threshold: $" +:+ float_text budget +:+ ")")
       :: trace (costs_loop budget check_interval script),
     result (costs_loop budget check_interval script)).
Proof. unfold Monitor.monitor_costs. by rewrite bind_emit. Qed.

(** A computation that returns or raises, followed by one that ends in
    [Polling] or raises, ends in [Polling] or raises. *)
Lemma bind_still_polling {A : Type} (m : py A) (k : A → py running) :
  (∀ a, result (k a) = Return Polling ∨ ∃ e, result (k a) = Raise e) →
  result (m ≫= k) = Return Polling ∨ ∃ e, result (m ≫= k) = Raise e.
Proof.
  intros Hk. destruct m as [t [a|e]].
  - rewrite bind_Return. apply Hk.
  - right. by exists e.
Qed.

(** Neither loop is left with a value: it is still polling when the script
    is used up, unless an exception has left it. *)
Lemma storage_loop_leaves_only_by_exception (threshold : float)
    (check_interval : Z) (l : levels) (script : list poll) :
  result (storage_loop threshold check_interval l script) = Return Polling
  ∨ ∃ e, result (storage_loop threshold check_interval l script) = Raise e.
Proof.
  revert l. induction script as [|p script IH]; intros l; [by left|].
  cbn [Monitor.storage_loop].
  apply bind_still_polling. intros [[rc out] err].
  destruct (negb (rc =? 0)).
  - do 2 (apply bind_still_polling; intros ?). apply IH.
  - do 4 (apply bind_still_polling; intros ?).
    do 2 (apply bind_still_polling; intros ?). apply IH.
Qed.

Lemma costs_loop_leaves_only_by_exception (budget : float)
    (check_interval : Z) (script : list poll) :
  result (costs_loop budget check_interval script) = Return Polling
  ∨ ∃ e, result (costs_loop budget check_interval script) = Raise e.
Proof.
  induction script as [|p script IH]; [by left|].
  cbn [Monitor.costs_loop].
  apply bind_still_polling. intros [[rc out] err].
  destruct (negb (rc =? 0)).
  - do 2 (apply bind_still_polling; intros ?). apply IH.
  - do 3 (apply bind_still_polling; intros ?). apply IH.
Qed.

(** Neither monitor returns: it is still polling when the script is used
    up, unless an exception (a failing SMTP session, unreadable output, a
    query that cannot be started, a sleep that is refused) has left the
    loop. *)
Lemma monitors_leave_only_by_exception (threshold : float)
    (check_interval : Z) (script : list poll) :
  (result (monitor_storage threshold check_interval script) = Return Polling
   ∨ ∃ e, result (monitor_storage threshold check_interval script) = Raise e)
  ∧ (result (monitor_costs threshold check_interval script) = Return Polling
     ∨ ∃ e, result (monitor_costs threshold check_interval script) = Raise e).
Proof.
  rewrite monitor_storage_eq, monitor_costs_eq. cbn [result snd].
  split; [apply storage_loop_leaves_only_by_exception
         |apply costs_loop_leaves_only_by_exception].
Qed.

(** C8 (what the code does). When the status query fails, the error is
    logged and notified and the loop goes on, but it goes on with
    [continue], past the [time.sleep] at the end of the loop body: over any
    run of failing queries both monitors start the query once per
    iteration and never sleep between two consecutive polls. *)
Theorem failed_queries_are_retried_without_sleep (threshold : float)
    (check_interval : Z) (script : list poll) :
  Forall query_fails script →
  (result (monitor_storage threshold check_interval script) = Return Polling
   ∧ spawned (trace (monitor_storage threshold check_interval script))
     = replicate (length script) storage_cmd
   ∧ sleeps (trace (monitor_storage threshold check_interval script)) = [])
  ∧ (result (monitor_costs threshold check_interval script) = Return Polling
     ∧ spawned (trace (monitor_costs threshold check_interval script))
       = replicate (length script) costs_cmd
     ∧ sleeps (trace (monitor_costs threshold check_interval script)) = []).
Proof.
  intros H. rewrite monitor_storage_eq, monitor_costs_eq. cbn [trace result fst snd].
  split.
  - apply (storage_loop_failing_queries threshold check_interval _ script H).
  - apply (costs_loop_failing_queries threshold check_interval script H).
Qed.

(** A notification whose SMTP session raises ends a monitor: the exception
    leaves the loop. *)
Lemma mail_failure_ends_the_monitor (budget : float) (check_interval : Z)
    (out err : string) (cost : float) (e : exn) (chat : option exn)
    (rest : list poll) :
  float_ge cost budget = true →
  result (monitor_costs budget check_interval
            (Poll (Completed 0 out err) (inr cost) (Delivery (Some e) chat) :: rest))
  = Raise e.
Proof.
  intros Hge. rewrite monitor_costs_eq. cbn [result snd Monitor.costs_loop].
  unfold subprocess_run. cbn -[float_ge]. by rewrite Hge.
Qed.

End notifications.

Lemma failed_queries_are_retried_without_sleep_witness :
  (result (Monitor.monitor_storage "demo" config_with_webhook demo_float
             demo_float_text demo_fixed demo_unbound 90 3600
             [failing_poll; failing_poll]) = Return Polling
   ∧ spawned (trace (Monitor.monitor_storage "demo" config_with_webhook demo_float
                       demo_float_text demo_fixed demo_unbound 90 3600
                       [failing_poll; failing_poll]))
     = replicate (length [failing_poll; failing_poll]) (Monitor.storage_cmd "demo")
   ∧ sleeps (trace (Monitor.monitor_storage "demo" config_with_webhook demo_float
                      demo_float_text demo_fixed demo_unbound 90 3600
                      [failing_poll; failing_poll])) = [])
  ∧ (result (Monitor.monitor_costs "demo" config_with_webhook demo_float_text
               demo_fixed 90 3600 [failing_poll; failing_poll]) = Return Polling
     ∧ spawned (trace (Monitor.monitor_costs "demo" config_with_webhook
                         demo_float_text demo_fixed 90 3600
                         [failing_poll; failing_poll]))
       = replicate (length [failing_poll; failing_poll]) (Monitor.costs_cmd "demo")
     ∧ sleeps (trace (Monitor.monitor_costs "demo" config_with_webhook
                        demo_float_text demo_fixed 90 3600
                        [failing_poll; failing_poll])) = []).
Proof.
  apply (failed_queries_are_retried_without_sleep "demo" config_with_webhook
           demo_float demo_float_text demo_fixed demo_unbound 90 3600
           [failing_poll; failing_poll]).
  repeat constructor; exists 1, "", "permission denied"; repeat split; discriminate.
Defined.

Example storage_monitor_busy_retry :
  Monitor.monitor_storage "demo" config_with_webhook demo_float demo_float_text
    demo_fixed demo_unbound 90 3600 [failing_poll; failing_poll]
  = ([LogInfo "Starting storage monitoring (threshold: 90.0%)";
      Spawn ["ica"; "projects"; "storage"; "demo"];
      LogError "Failed to get storage info: permission denied";
      SmtpSend "ica-monitor@localhost" "ops@example.org" "Storage Monitoring Error"
        "Failed to get storage info: permission denied";
      HttpPost "https://hooks.example.org/T1"
        "Failed to get storage info: permission denied";
      Spawn ["ica"; "projects"; "storage"; "demo"];
      LogError "Failed to get storage info: permission denied";
      SmtpSend "ica-monitor@localhost" "ops@example.org" "Storage Monitoring Error"
        "Failed to get storage info: permission denied";
      HttpPost "https://hooks.example.org/T1"
        "Failed to get storage info: permission denied"],
     Return Polling).
Proof. reflexivity. Qed.

Example mail_failure_skips_chat :
  Monitor.notify config_with_webhook "Storage Usage Alert" "usage 95.0%"
    (Monitor.Delivery (Some (Exn OtherError "[Errno 111] Connection refused")) None)
  = ([SmtpSend "ica-monitor@localhost" "ops@example.org" "Storage Usage Alert"
        "usage 95.0%"],
     Raise (Exn OtherError "[Errno 111] Connection refused")).
Proof. reflexivity. Qed.
(** * The pipeline starter and the folder upload *)

Section pipeline_starter.

Import IcaCli Pipeline.

Context {unicode : PyStr.UnicodeLower}.

Lemma first_folder_finds (wanted : string) (files : list file_entry) :
  finds_folder wanted files (first_folder wanted files).
Proof.
  induction files as [|f files IH]; simpl; [constructor|].
  destruct (String.eqb_spec (file_name f) wanted) as [Hn|Hn]; simpl.
  - destruct (String.eqb_spec (file_type f) "FOLDER") as [Ht|Ht].
    + by exists [], f, files.
    + destruct (first_folder wanted files) as [i|]; simpl in *.
      * destruct IH as (pre & g & post & -> & Hpre & Hg & Hi).
        exists (f :: pre), g, post. split; [done|]. split; [|done].
        constructor; [|done]. by intros [_ ?].
      * constructor; [|done]. by intros [_ ?].
  - destruct (first_folder wanted files) as [i|]; simpl in *.
    + destruct IH as (pre & g & post & -> & Hpre & Hg & Hi).
      exists (f :: pre), g, post. split; [done|]. split; [|done].
      constructor; [|done]. by intros [? _].
    + constructor; [|done]. by intros [? _].
Qed.

Lemma get_data_id_returns (project_id folder_path : string) (w : files_listing) :
  ∃ r, result (get_data_id project_id folder_path w) = Return r.
Proof.
  unfold get_data_id. destruct w as [[rc out err|e] js]; cbn; [|by eexists].
  destruct (rc =? 0); cbn; [|by eexists].
  destruct js as [e|files]; cbn; [by eexists|].
  destruct (first_folder _ files); cbn; by eexists.
Qed.

Lemma get_data_id_spawned (project_id folder_path : string) (w : files_listing) :
  spawned (trace (get_data_id project_id folder_path w)) = [files_list_cmd project_id].
Proof.
  unfold get_data_id. destruct w as [[rc out err|e] js]; cbn; [|done].
  destruct (rc =? 0); cbn; [|done].
  destruct js as [e|files]; cbn; [done|].
  by destruct (first_folder _ files).
Qed.

(** X1. [get_data_id] never raises and runs one listing command.  The folder is
    looked up by the last component of its path, a trailing slash apart:
    the result is the identifier of the first entry of type [FOLDER] whose
    name is exactly this component (the case of the letters counts, unlike
    for projects and pipelines), and [None] after the not-found message
    when there is none.  A listing that fails gives [None]. *)
Theorem get_data_id_finds_the_folder (project_id folder_path : string)
    (w : files_listing) :
  let wanted := PyStr.basename (rstrip_slash folder_path) in
  ∃ r,
    result (get_data_id project_id folder_path w) = Return r
    ∧ spawned (trace (get_data_id project_id folder_path w))
      = [files_list_cmd project_id]
    ∧ (∀ out err files,
         files_run w = Completed 0 out err → files_json w = inr files →
         finds_folder wanted files r
         ∧ (r = None →
            last (trace (get_data_id project_id folder_path w))
            = Some (Stdout ("Folder '" +:+ wanted +:+ "' not found in project"))))
    ∧ (∀ rc out err,
         files_run w = Completed rc out err → rc ≠ 0 →
         r = None
         ∧ last (trace (get_data_id project_id folder_path w))
           = Some (Stdout ("Error listing files: " +:+ err)))
    ∧ (∀ e,
         files_run w = SpawnRaised e ∨ (∃ out err, files_run w = Completed 0 out err
                                        ∧ files_json w = inl e) →
         r = None
         ∧ last (trace (get_data_id project_id folder_path w))
           = Some (Stdout ("Error getting data ID: " +:+ exn_str e))).
Proof.
  intros wanted.
  destruct (get_data_id_returns project_id folder_path w) as [r Hr].
  exists r. split; [done|]. split; [apply get_data_id_spawned|].
  revert Hr. unfold get_data_id. destruct w as [run js]. cbn [files_run files_json].
  intros Hr. split; [|split].
  - intros out err files -> ->. revert Hr. cbn.
    fold wanted. pose proof (first_folder_finds wanted files) as Hf.
    destruct (first_folder wanted files) as [i|]; cbn; intros [= <-]; done.
  - intros rc out err -> Hrc. revert Hr. cbn.
    destruct (Z.eqb_spec rc 0) as [?|_]; [done|]. cbn. by intros [= <-].
  - intros e [->|(out & err & -> & ->)]; revert Hr; cbn; by intros [= <-].
Qed.

Lemma get_project_id_returns (project_name : string) (w : listing) :
  ∃ r, result (get_project_id project_name w) = Return r.
Proof.
  unfold get_project_id. destruct w as [[rc out err|e] js]; cbn; [|by eexists].
  destruct (rc =? 0); cbn; [|by eexists].
  destruct js as [e|entries]; cbn; [by eexists|].
  destruct (first_id _ entries); cbn; by eexists.
Qed.

Lemma get_pipeline_id_returns (project_id pipeline_name : string) (w : listing) :
  ∃ r, result (get_pipeline_id project_id pipeline_name w) = Return r.
Proof.
  unfold get_pipeline_id. destruct w as [[rc out err|e] js]; cbn; [|by eexists].
  destruct (rc =? 0); cbn; [|by eexists].
  destruct js as [e|entries]; cbn; [by eexists|].
  destruct (first_id _ entries); cbn; by eexists.
Qed.

Lemma get_pipeline_id_spawned (project_id pipeline_name : string) (w : listing) :
  spawned (trace (get_pipeline_id project_id pipeline_name w))
  = [pipelines_list_cmd project_id].
Proof.
  unfold get_pipeline_id. destruct w as [[rc out err|e] js]; cbn; [|done].
  destruct (rc =? 0); cbn; [|done].
  destruct js as [e|entries]; cbn; [done|].
  by destruct (first_id pipeline_name entries).
Qed.

Lemma start_cmd_not_a_listing (project_id pipeline_id data_id : string)
    (params_file analysis_name : option string) (p : string) :
  start_cmd project_id pipeline_id data_id params_file analysis_name
    ∉ [projects_list_cmd; pipelines_list_cmd p; files_list_cmd p].
Proof.
  rewrite !elem_of_cons, elem_of_nil. unfold start_cmd.
  intros [H|[H|[H|[]]]]; discriminate.
Qed.

(** X2. [start_pipeline] never raises.  It resolves the project, then the
    pipeline, then the input folder, each with one listing command, and
    stops with [False] at the first that gives no identifier, without
    running another command: the commands run are the project listing
    alone when the project is not found; this and the pipeline listing when
    the pipeline is not found; the three listings when the folder is not
    found or the parameter file named does not exist; and otherwise the
    three listings followed by the start command, which carries the three
    identifiers.  The value is [True] exactly when the start command was
    run, ended with status 0 and printed a JSON object. *)
Theorem start_pipeline_resolves_before_starting
    (project_name pipeline_name input_folder : string)
    (params_file analysis_name : option string) (w : world) :
  ∃ (project pipeline data : option string) (b : bool),
    let m := start_pipeline project_name pipeline_name input_folder
               params_file analysis_name w in
    let start := start_cmd (default "" project) (default "" pipeline)
                   (default "" data) params_file analysis_name in
    result (get_project_id project_name (projects w)) = Return project
    ∧ result (get_pipeline_id (default "" project) pipeline_name (pipelines w))
      = Return pipeline
    ∧ result (get_data_id (default "" project) input_folder (files w)) = Return data
    ∧ result m = Return b
    ∧ spawned (trace m)
      = (if negb (truthy project) then [projects_list_cmd]
         else if negb (truthy pipeline)
         then [projects_list_cmd; pipelines_list_cmd (default "" project)]
         else if negb (truthy data)
                 || (truthy params_file && negb (params_is_file w))
         then [projects_list_cmd; pipelines_list_cmd (default "" project);
               files_list_cmd (default "" project)]
         else [projects_list_cmd; pipelines_list_cmd (default "" project);
               files_list_cmd (default "" project); start])
    ∧ (start ∈ spawned (trace m)
       ↔ ready project pipeline data params_file w = true)
    ∧ (b = true
       ↔ ready project pipeline data params_file w = true ∧ accepted w = true).
Proof.
  destruct (get_project_id_returns project_name (projects w)) as [p Hp].
  destruct (get_pipeline_id_returns (default "" p) pipeline_name (pipelines w))
    as [q Hq].
  destruct (get_data_id_returns (default "" p) input_folder (files w)) as [d Hd].
  pose proof (get_project_id_spawned project_name (projects w)) as Sp.
  pose proof (get_pipeline_id_spawned (default "" p) pipeline_name (pipelines w)) as Sq.
  pose proof (get_data_id_spawned (default "" p) input_folder (files w)) as Sd.
  pose proof (start_cmd_not_a_listing (default "" p) (default "" q) (default "" d)
                params_file analysis_name (default "" p)) as Hnot.
  exists p, q, d.
  unfold start_pipeline, ready, accepted.
  rewrite (bind_of_result _ _ _ Hp).
  set (start := start_cmd (default "" p) (default "" q) (default "" d)
                  params_file analysis_name) in *.
  rewrite !elem_of_cons, elem_of_nil in Hnot.
  assert (Hstop : ∀ (t : list event) (cmds : list (list string)),
            spawned t = cmds →
            cmds `prefix_of` [projects_list_cmd; pipelines_list_cmd (default "" p);
                              files_list_cmd (default "" p)] →
            ∀ c : bool,
            spawned t = cmds
            ∧ (start ∈ spawned t ↔ false = true)
            ∧ (false = true ↔ false = true ∧ c = true)).
  { intros t cmds Ht [k Hk] c. split; [done|split].
    - split; [|done]. intros Hin. exfalso. rewrite Ht in Hin.
      assert (start ∈ [projects_list_cmd; pipelines_list_cmd (default "" p);
                       files_list_cmd (default "" p)]) as Hin'.
      { rewrite Hk. apply elem_of_app. by left. }
      rewrite !elem_of_cons, elem_of_nil in Hin'. tauto.
    - split; [done|]. by intros []. }
  destruct (truthy p); cbn beta iota delta [negb andb].
  2:{ exists false. cbn -[spawned get_project_id get_pipeline_id get_data_id start_cmd].
      rewrite app_nil_r. do 4 (split; [done|]). apply Hstop; [|by eexists].
      by rewrite Sp. }
  rewrite (bind_of_result _ _ _ Hq).
  destruct (truthy q); cbn beta iota delta [negb andb].
  2:{ exists false. cbn -[spawned get_project_id get_pipeline_id get_data_id start_cmd].
      rewrite app_nil_r. do 4 (split; [done|]). apply Hstop; [|by eexists].
      by rewrite spawned_app, Sp, Sq. }
  rewrite (bind_of_result _ _ _ Hd).
  destruct (truthy d); cbn beta iota delta [negb andb].
  2:{ exists false. cbn -[spawned get_project_id get_pipeline_id get_data_id start_cmd].
      rewrite app_nil_r. do 4 (split; [done|]). apply Hstop; [|by eexists].
      by rewrite !spawned_app, Sp, Sq, Sd. }
  destruct (truthy params_file), (params_is_file w);
    cbn beta iota delta [negb andb orb].
  2:{ exists false. cbn -[spawned get_project_id get_pipeline_id get_data_id start_cmd].
      do 4 (split; [done|]). apply Hstop; [|by eexists].
      by rewrite !spawned_app, Sp, Sq, Sd. }
  all: destruct (start_run w) as [rc out err|e];
    cbn -[spawned get_project_id get_pipeline_id get_data_id start_cmd];
    [destruct (rc =? 0); cbn -[spawned get_project_id get_pipeline_id get_data_id start_cmd];
     [destruct (start_reply w) as [i| |e];
      cbn -[spawned get_project_id get_pipeline_id get_data_id start_cmd]|]|];
    eexists; (do 4 (split; [done|]));
    rewrite ?app_nil_r, !spawned_app, Sp, Sq, Sd; cbn -[start_cmd]; fold start;
    (split; [done|]);
    (split; [split; [done|intros _; rewrite !elem_of_cons; tauto]|]);
    (split; [try done|intros [_ H]; try done; by destruct (start_reply w)]).
Qed.

End pipeline_starter.

(** * From the pipeline starter to the workflow driver *)

Section texts.

Lemma append_cons (c : ascii) (a b : string) :
  String c a +:+ b = String c (a +:+ b).
Proof. reflexivity. Qed.

Lemma append_nil_l (b : string) : "" +:+ b = b.
Proof. reflexivity. Qed.

Lemma append_nil_r (s : string) : s +:+ "" = s.
Proof.
  induction s as [|c s IH]; [done|]. by rewrite append_cons, IH.
Qed.

Lemma append_assoc (a b c : string) : (a +:+ b) +:+ c = a +:+ b +:+ c.
Proof.
  induction a as [|x a IH]; [done|]. by rewrite !append_cons, IH.
Qed.

Lemma one_line_app (a b : string) :
  one_line (a +:+ b) = one_line a && one_line b.
Proof.
  induction a as [|c a IH]; [done|].
  rewrite append_cons. simpl. by rewrite IH, andb_assoc.
Qed.

Lemma printed_app (t1 t2 : list event) :
  printed (t1 ++ t2) = printed t1 +:+ printed t2.
Proof.
  induction t1 as [|e t1 IH]; [done|].
  destruct e; simpl; try done. by rewrite IH, !append_assoc.
Qed.

Lemma splitlines_from_line (cur l rest : string) :
  one_line l = true →
  PyStr.splitlines_from cur (l +:+ PyStr.nl +:+ rest)
  = (cur +:+ l) :: PyStr.splitlines_from "" rest.
Proof.
  revert cur. induction l as [|c l IH]; intros cur Hl.
  - rewrite append_nil_l, append_nil_r. reflexivity.
  - simpl in Hl. apply andb_true_iff in Hl as [Hc Hl].
    apply negb_true_iff in Hc.
    rewrite append_cons. cbn [PyStr.splitlines_from].
    destruct (Ascii.eqb_spec c "013"%char) as [->|_]; [done|].
    rewrite Hc, (IH _ Hl), append_assoc. done.
Qed.

(** The lines printed are the lines read back, when no printed text has a
    line boundary inside. *)
Lemma splitlines_printed (lines : list string) :
  Forall (λ l, one_line l = true) lines →
  PyStr.splitlines (printed (Stdout <$> lines)) = lines.
Proof.
  unfold PyStr.splitlines. induction 1 as [|l lines Hl _ IH]; [done|].
  cbn [fmap list_fmap printed]. by rewrite splitlines_from_line, IH.
Qed.

Lemma strip_after_space (s : string) : PyStr.strip (" " +:+ s) = PyStr.strip s.
Proof. reflexivity. Qed.

Lemma not_contains (m s : string) :
  PyStr.contains m s = false → PyStr.after_first m s = None.
Proof.
  unfold PyStr.contains. intros H%bool_decide_eq_false.
  destruct (PyStr.after_first m s); [|done]. destruct H. by eexists.
Qed.

Lemma after_first_unfold (m s : string) :
  PyStr.after_first m s
  = match PyStr.strip_prefix m s with
    | Some r => Some r
    | None =>
        match s with
        | EmptyString => None
        | String _ r => PyStr.after_first m r
        end
    end.
Proof. by destruct s. Qed.

Lemma strip_prefix_app (m r : string) : PyStr.strip_prefix m (m +:+ r) = Some r.
Proof.
  induction m as [|c m IH]; [done|].
  rewrite append_cons. simpl. by rewrite Ascii.eqb_refl.
Qed.

Lemma after_first_app (m r : string) : PyStr.after_first m (m +:+ r) = Some r.
Proof. by rewrite after_first_unfold, strip_prefix_app. Qed.

End texts.

Section analysis_id.

Import IcaCli Pipeline.

Context {unicode : PyStr.UnicodeLower}.

Lemma get_project_id_found (project_name : string) (w : listing) (r : option string) :
  result (get_project_id project_name w) = Return r → truthy r = true →
  trace (get_project_id project_name w) = [Spawn projects_list_cmd].
Proof.
  unfold get_project_id. destruct w as [[rc out err|e] js]; cbn; [|by intros [= <-]].
  destruct (rc =? 0); cbn; [|by intros [= <-]].
  destruct js as [e|entries]; cbn; [by intros [= <-]|].
  destruct (first_id _ entries); cbn; by intros [= <-].
Qed.

Lemma get_pipeline_id_found (project_id pipeline_name : string) (w : listing)
    (r : option string) :
  result (get_pipeline_id project_id pipeline_name w) = Return r → truthy r = true →
  trace (get_pipeline_id project_id pipeline_name w)
  = [Spawn (pipelines_list_cmd project_id)].
Proof.
  unfold get_pipeline_id. destruct w as [[rc out err|e] js]; cbn; [|by intros [= <-]].
  destruct (rc =? 0); cbn; [|by intros [= <-]].
  destruct js as [e|entries]; cbn; [by intros [= <-]|].
  destruct (first_id _ entries); cbn; by intros [= <-].
Qed.

Lemma get_data_id_found (project_id folder_path : string) (w : files_listing)
    (r : option string) :
  result (get_data_id project_id folder_path w) = Return r → truthy r = true →
  trace (get_data_id project_id folder_path w) = [Spawn (files_list_cmd project_id)].
Proof.
  unfold get_data_id. destruct w as [[rc out err|e] js]; cbn; [|by intros [= <-]].
  destruct (rc =? 0); cbn; [|by intros [= <-]].
  destruct js as [e|files]; cbn; [by intros [= <-]|].
  destruct (first_folder _ files); cbn; by intros [= <-].
Qed.

(** The events of a call of [start_pipeline] that returns [True]. *)
Lemma start_pipeline_started (a : args) (w : world) :
  result (start_pipeline (project_name a) (pipeline_name a) (input_folder a)
            (params_file a) (analysis_name a) w) = Return true →
  ∃ (p q d : string) (id : option string),
    start_reply w = StartObject id
    ∧ trace (start_pipeline (project_name a) (pipeline_name a) (input_folder a)
               (params_file a) (analysis_name a) w)
      = [Spawn projects_list_cmd; Spawn (pipelines_list_cmd p);
         Spawn (files_list_cmd p);
         Stdout (starting_line a); Stdout (input_line a);
         Spawn (start_cmd p q d (params_file a) (analysis_name a));
         Stdout "Successfully started pipeline analysis";
         Stdout ("Analysis ID: " +:+ id_text id);
         Stdout ("Monitor progress with: ica pipelines history --analysis-id "
                 +:+ id_text id)].
Proof.
  destruct (get_project_id_returns (project_name a) (projects w)) as [p Hp].
  destruct (get_pipeline_id_returns (default "" p) (pipeline_name a) (pipelines w))
    as [q Hq].
  destruct (get_data_id_returns (default "" p) (input_folder a) (files w)) as [d Hd].
  pose proof (get_project_id_found _ _ _ Hp) as Tp.
  pose proof (get_pipeline_id_found _ _ _ _ Hq) as Tq.
  pose proof (get_data_id_found _ _ _ _ Hd) as Td.
  unfold start_pipeline, starting_line, input_line.
  rewrite (bind_of_result _ _ _ Hp).
  destruct (truthy p); cbn beta iota delta [negb andb]; [|by cbn].
  rewrite (bind_of_result _ _ _ Hq).
  destruct (truthy q); cbn beta iota delta [negb andb]; [|by cbn].
  rewrite (bind_of_result _ _ _ Hd).
  destruct (truthy d); cbn beta iota delta [negb andb]; [|by cbn].
  rewrite (Tp eq_refl), (Tq eq_refl), (Td eq_refl).
  destruct (truthy (params_file a) && negb (params_is_file w)); [by cbn|].
  destruct (start_run w) as [rc out err|e]; [|by cbn].
  cbn -[start_cmd]. destruct (rc =? 0); [|by cbn].
  destruct (start_reply w) as [id| |e]; cbn -[start_cmd]; [|done..].
  intros _. by exists (default "" p), (default "" q), (default "" d), id.
Qed.

Lemma main_started (a : args) (cli : proc_result) (w : world) :
  result (main a cli w) = Return 0 →
  result (start_pipeline (project_name a) (pipeline_name a) (input_folder a)
            (params_file a) (analysis_name a) w) = Return true
  ∧ trace (main a cli w)
    = Spawn version_cmd
        :: trace (start_pipeline (project_name a) (pipeline_name a) (input_folder a)
                    (params_file a) (analysis_name a) w).
Proof.
  unfold main, check_ica_cli.
  destruct (start_pipeline (project_name a) (pipeline_name a) (input_folder a)
              (params_file a) (analysis_name a) w) as [t [b|e]].
  - destruct cli as [rc out err|[[] msg]]; cbn; try done.
    destruct (rc =? 0); cbn; [|done].
    destruct b; cbn; [|done]. by rewrite app_nil_r.
  - destruct cli as [rc out err|[[] msg]]; cbn; try done.
    destruct (rc =? 0); cbn; done.
Qed.

(** X3. When the pipeline starter ends with status 0, the workflow driver, given
    what the starter has printed, reads back the analysis identifier that
    the starter printed: the value under ['id'] in the reply of the start
    command with the white space around it removed, and the text [None]
    when the reply has no ['id'].  The names on the command line and the
    identifier are taken to be free of line boundaries, and the two lines
    printed before the command is run free of the marker the driver looks
    for. *)
Theorem started_analysis_id_is_read_back
    (sys_executable : string) (script_path : string → string)
    (a : args) (cli : proc_result) (w : world) (id : option string)
    (project pipeline folder : string) (params name : option string)
    (err : string) :
  result (main a cli w) = Return 0 →
  start_reply w = StartObject id →
  one_line (starting_line a) = true →
  one_line (input_line a) = true →
  one_line (id_text id) = true →
  PyStr.contains "Analysis ID:" (starting_line a) = false →
  PyStr.contains "Analysis ID:" (input_line a) = false →
  result (Workflow.run_pipeline sys_executable script_path
            project pipeline folder params name
            (Completed 0 (printed (trace (main a cli w))) err))
  = Return (Some (PyStr.strip (id_text id))).
Proof.
  intros [Hstart Htrace]%main_started Hreply L1 L2 L3 M1 M2.
  destruct (start_pipeline_started a w Hstart) as (p & q & d & id' & Hid & Ht).
  rewrite Hreply in Hid. injection Hid as <-.
  rewrite Htrace, Ht. clear Htrace Ht Hstart.
  set (lines := [starting_line a; input_line a;
                 "Successfully started pipeline analysis";
                 "Analysis ID: " +:+ id_text id;
                 "Monitor progress with: ica pipelines history --analysis-id "
                   +:+ id_text id]).
  change (printed _) with (printed (Stdout <$> lines)).
  unfold Workflow.run_pipeline.
  cbn -[printed PyStr.splitlines Workflow.pipeline_cmd fmap].
  rewrite splitlines_printed.
  2:{ subst lines. repeat constructor; try done; by rewrite one_line_app, L3. }
  subst lines. cbn [Workflow.extract_analysis_id].
  rewrite (not_contains _ _ M1), (not_contains _ _ M2).
  change (PyStr.after_first "Analysis ID:" "Successfully started pipeline analysis")
    with (@None string).
  change ("Analysis ID: " +:+ id_text id)
    with ("Analysis ID:" +:+ " " +:+ id_text id).
  rewrite after_first_app, strip_after_space. cbn. done.
Qed.

End analysis_id.

(** * The folder upload *)

Section folder_upload.

Import IcaCli Upload.

Context {unicode : PyStr.UnicodeLower}.

Variable abspath : string → string.

Local Abbreviation upload_folder := (Upload.upload_folder abspath).
Local Abbreviation target_name := (Upload.target_name abspath).

(** X4. [upload_folder] never raises.  When the folder does not exist it prints
    that and returns [False] without running any command, the project
    listing included; otherwise it resolves the project and runs the upload
    command only when an identifier was found, with the absolute path as
    the source and, as the destination, the folder name given or else the
    last component of the absolute path.  The value is [True] exactly when
    the upload command was run and ended with status 0. *)
Theorem upload_folder_checks_before_uploading (folder_path project_name : string)
    (folder_name : option string) (w : world) :
  ∃ (project : option string) (b : bool),
    let m := upload_folder folder_path project_name folder_name w in
    let upload := upload_cmd (default "" project) (abspath folder_path)
                    (target_name folder_path folder_name) in
    result (get_project_id project_name (projects w)) = Return project
    ∧ result m = Return b
    ∧ (is_dir w = false →
       m = ([Stdout ("Error: Folder not found: " +:+ abspath folder_path)],
            Return false))
    ∧ spawned (trace m)
      = (if is_dir w then
           projects_list_cmd :: (if truthy project then [upload] else [])
         else [])
    ∧ (b = true
       ↔ uploadable project w = true
         ∧ ∃ out err, upload_run w = Completed 0 out err).
Proof.
  destruct (get_project_id_returns project_name (projects w)) as [p Hp].
  pose proof (get_project_id_spawned project_name (projects w)) as Sp.
  exists p. unfold Upload.upload_folder, uploadable.
  destruct (is_dir w); cbn beta iota delta [negb andb].
  2:{ exists false. cbn. repeat split; try done. by intros []. }
  rewrite (bind_of_result _ _ _ Hp).
  destruct (truthy p); cbn beta iota delta [negb andb].
  2:{ exists false. cbn -[spawned get_project_id]. rewrite app_nil_r, Sp.
      repeat split; try done. by intros []. }
  destruct (upload_run w) as [rc out err|e];
    cbn -[spawned get_project_id upload_cmd].
  - destruct (Z.eqb_spec rc 0) as [->|Hrc];
      cbn -[spawned get_project_id upload_cmd];
      eexists; (split; [done|]); (split; [done|]); (split; [done|]);
      rewrite spawned_app, Sp; (split; [done|]).
    + split; [|done]. intros _. split; [done|]. by eexists _, _.
    + split; [done|]. intros [_ (o & e & [= -> _ _])]. done.
  - eexists; (split; [done|]); (split; [done|]); (split; [done|]).
    rewrite !spawned_app, Sp. split; [done|].
    split; [done|]. by intros [_ (o & e' & [=])].
Qed.

End folder_upload.

(** * The folder name handed from the upload to the pipeline start *)

Section folder_names.

Lemma no_slash_app (a b : string) : no_slash (a +:+ b) = no_slash a && no_slash b.
Proof.
  induction a as [|c a IH]; [done|].
  rewrite append_cons. simpl. by rewrite IH, andb_assoc.
Qed.

Lemma basename_from_no_slash (cur s : string) :
  no_slash cur = true → no_slash (PyStr.basename_from cur s) = true.
Proof.
  revert cur. induction s as [|c s IH]; intros cur Hcur; simpl; [done|].
  destruct (Ascii.eqb c "/") eqn:Hc; apply IH; [done|].
  rewrite no_slash_app, Hcur. simpl. by rewrite Hc.
Qed.

Lemma basename_no_slash (s : string) : no_slash (PyStr.basename s) = true.
Proof. by apply basename_from_no_slash. Qed.

Lemma basename_from_whole (cur s : string) :
  no_slash s = true → PyStr.basename_from cur s = cur +:+ s.
Proof.
  revert cur. induction s as [|c s IH]; intros cur Hs; simpl.
  - by rewrite append_nil_r.
  - simpl in Hs. apply andb_true_iff in Hs as [Hc Hs].
    apply negb_true_iff in Hc. rewrite Hc, (IH _ Hs), append_assoc. done.
Qed.

Lemma rstrip_slash_whole (s : string) :
  no_slash s = true → Pipeline.rstrip_slash s = s.
Proof.
  unfold Pipeline.rstrip_slash. induction s as [|c s IH]; intros Hs; [done|].
  simpl in Hs. apply andb_true_iff in Hs as [Hc Hs]. apply negb_true_iff in Hc.
  simpl. rewrite (IH Hs), Hc. by destruct s.
Qed.

(** X5. [get_data_id] looks a folder up under the name it is given exactly when
    that name has no slash.  The name the workflow driver derives from the
    input path, when no folder name is given, has none: the pipeline start
    looks up the very name the upload stage returned. *)
Theorem upload_name_is_the_name_looked_up :
  (∀ n : string, looked_up n = n ↔ no_slash n = true)
  ∧ (∀ (sys_executable : string) (script_path : string → string)
       (input_folder project_name : string) (folder_name : option string)
       (r : proc_result) (n : string),
       truthy folder_name = false →
       result (Workflow.run_upload sys_executable script_path
                 input_folder project_name folder_name r) = Return (Some n) →
       n = PyStr.basename (PyStr.rstrip_seps input_folder)
       ∧ no_slash n = true
       ∧ looked_up n = n).
Proof.
  assert (Hiff : ∀ n : string, looked_up n = n ↔ no_slash n = true).
  { intros n. unfold looked_up. split.
    - intros <-. apply basename_no_slash.
    - intros Hn. rewrite (rstrip_slash_whole _ Hn).
      unfold PyStr.basename. by rewrite basename_from_whole. }
  split; [done|].
  intros exe path input project fn r n Hfn.
  unfold Workflow.run_upload. rewrite Hfn.
  destruct r as [rc out err|e]; cbn -[Workflow.upload_cmd]; [|done].
  destruct (rc =? 0); cbn -[Workflow.upload_cmd]; [|done].
  intros [= <-]. split; [done|].
  pose proof (basename_no_slash (PyStr.rstrip_seps input)) as Hn.
  split; [done|]. by apply Hiff.
Qed.

End folder_names.

(** * The status poller and the download script, continued *)

Section poller_general.

Import Download.

Variable analysis_id : string.
Variable polling_interval : Z.

Local Abbreviation wait := (wait_for_analysis analysis_id polling_interval).
Local Abbreviation query_cmd := (history_cmd analysis_id).

Lemma replicate_snoc {A : Type} (n : nat) (x : A) :
  replicate n x ++ [x] = replicate (S n) x.
Proof.
  replace (S n) with (n + 1)%nat by lia. by rewrite replicate_add.
Qed.

Lemma wait_after_pending (pending rest : list status_world) :
  sleepable polling_interval →
  Forall reply_in_progress pending →
  result (wait (pending ++ rest)) = result (wait_loop analysis_id polling_interval rest)
  ∧ spawned (trace (wait (pending ++ rest)))
    = replicate (length pending) query_cmd
        ++ spawned (trace (wait_loop analysis_id polling_interval rest))
  ∧ sleeps (trace (wait (pending ++ rest)))
    = replicate (length pending) polling_interval
        ++ sleeps (trace (wait_loop analysis_id polling_interval rest)).
Proof.
  intros Hsleep Hp.
  destruct (wait_loop_pending analysis_id polling_interval pending rest
              (or_intror Hsleep) Hp)
    as (t & Ht & Hsp & Hsl).
  rewrite wait_for_analysis_eq, Ht. cbn [trace result fst snd].
  split; [done|].
  change (?e :: t ++ ?l) with ([e] ++ t ++ l).
  by rewrite !spawned_app, !sleeps_app, Hsp, Hsl.
Qed.

(** X6. With a polling interval that [time.sleep] accepts, the poller
    sleeps once, [polling_interval] seconds, for every reply
    that is neither COMPLETED nor FAILED, ABORTED or TERMINATED, and asks
    again, however many such replies there are: it has no limit of its own.
    After [n] such replies it has made [n] queries and slept [n] times and
    is still waiting; a COMPLETED reply that comes next ends it with the
    output folder of that reply, a FAILED, ABORTED or TERMINATED reply or a
    query that exits with another status than 0 ends it with [None], in
    each case after [n + 1] queries and [n] sleeps, whatever would have
    followed.  With an interval that [time.sleep] refuses (negative, or too large)
    the first such reply ends the poller: the sleep raises after one query. *)
Theorem poller_sleeps_once_for_each_pending_reply (pending : list status_world) :
  Forall reply_in_progress pending →
  let n := length pending in
  (sleepable polling_interval →
   (result (wait pending) = Return Polling
   ∧ spawned (trace (wait pending)) = replicate n query_cmd
   ∧ sleeps (trace (wait pending)) = replicate n polling_interval)
  ∧ (∀ out err f rest,
       let m := wait (pending ++ answered out err "COMPLETED" (FolderId f) :: rest) in
       result m = Return (Finished f)
       ∧ spawned (trace m) = replicate (S n) query_cmd
       ∧ sleeps (trace m) = replicate n polling_interval)
  ∧ (∀ out err st lookup rest,
       ended_badly st = true →
       let m := wait (pending ++ answered out err st lookup :: rest) in
       result m = Return (Finished None)
       ∧ spawned (trace m) = replicate (S n) query_cmd
       ∧ sleeps (trace m) = replicate n polling_interval)
  ∧ (∀ rc out err js rest,
       rc ≠ 0 →
       let m := wait (pending ++ StatusWorld (Completed rc out err) js :: rest) in
       result m = Return (Finished None)
       ∧ spawned (trace m) = replicate (S n) query_cmd
       ∧ sleeps (trace m) = replicate n polling_interval))
  ∧ (¬ sleepable polling_interval → pending ≠ [] →
     ∀ rest, ∃ e,
       result (wait (pending ++ rest)) = Raise e
       ∧ spawned (trace (wait (pending ++ rest))) = [query_cmd]
       ∧ sleeps (trace (wait (pending ++ rest))) = []).
Proof.
  intros Hp n. split.
  2:{ intros Hsleep Hne rest.
      destruct Hp as [|w pending (out & err & st & lookup & -> & Hst) _]; [done|].
      destruct (wait_loop_refused analysis_id polling_interval out err st lookup
                  (pending ++ rest) Hsleep Hst) as [e He].
      exists e. rewrite wait_for_analysis_eq. cbn [app]. by rewrite He. }
  intros Hsleep. pose proof (λ rest, wait_after_pending pending rest Hsleep Hp) as Hw.
  clear Hp. rename Hw into Hp.
  split; [|split; [|split]].
  - destruct (Hp []) as (Hr & Hsp & Hsl).
    rewrite app_nil_r in Hr, Hsp, Hsl. rewrite Hr, Hsp, Hsl. cbn.
    by rewrite !app_nil_r.
  - intros out err f rest m. subst m.
    destruct (Hp (answered out err "COMPLETED" (FolderId f) :: rest))
      as (Hr & Hsp & Hsl).
    rewrite Hr, Hsp, Hsl, wait_loop_completed. cbn.
    by rewrite app_nil_r, replicate_snoc.
  - intros out err st lookup rest Hst m. subst m.
    destruct (Hp (answered out err st lookup :: rest)) as (Hr & Hsp & Hsl).
    rewrite Hr, Hsp, Hsl, wait_loop_ended_badly by done. cbn.
    by rewrite app_nil_r, replicate_snoc.
  - intros rc out err js rest Hrc m. subst m.
    destruct (Hp (StatusWorld (Completed rc out err) js :: rest))
      as (Hr & Hsp & Hsl).
    rewrite Hr, Hsp, Hsl. cbn [wait_loop]. unfold get_analysis_status.
    cbn [history_run]. rewrite subprocess_run_completed.
    destruct (Z.eqb_spec rc 0) as [?|_]; [done|]. cbn.
    by rewrite app_nil_r, replicate_snoc.
Qed.

End poller_general.

Section download_script.

Import IcaCli Download.

Context {unicode : PyStr.UnicodeLower}.

Local Ltac settle :=
  repeat split; try done;
  first [ by intros []
        | exfalso; match goal with H : ¬ _ |- _ => apply H end; by eexists _, _, _
        | by intros ? [= ->]
        | by intros ? ? ? [= -> _ _]
        | by intros ? ? ? _ [= <-]
        | intros []; by eexists _, _, _
        | by eexists _, _
        | by intros [_ (? & ? & [= -> _ _])]
        | by intros [_ (? & ? & [=])] ].

(** X7. [get_analysis_status] never raises and runs one command.  Whatever goes
    wrong with the query (the command cannot be run, it exits with another
    status than 0, its output does not decode) gives the pair
    [(None, None)]; an output folder is reported only together with the
    status COMPLETED. *)
Theorem status_query_never_raises (analysis_id : string) (w : status_world) :
  ∃ (st fid : option string),
    result (get_analysis_status analysis_id w) = Return (st, fid)
    ∧ spawned (trace (get_analysis_status analysis_id w)) = [history_cmd analysis_id]
    ∧ sleeps (trace (get_analysis_status analysis_id w)) = []
    ∧ (is_Some fid → st = Some "COMPLETED")
    ∧ (¬ is_answered w → st = None ∧ fid = None)
    ∧ (∀ out err a, history_run w = Completed 0 out err → history_json w = inr a →
         st = status a).
Proof.
  unfold get_analysis_status, is_answered.
  destruct w as [[rc out err|e] js]; cbn [history_run history_json].
  2:{ exists None, None. cbn. settle. }
  rewrite subprocess_run_completed.
  destruct (Z.eqb_spec rc 0) as [->|Hrc]; cbn [negb].
  2:{ exists None, None. cbn. settle. }
  destruct js as [e|[st lookup]].
  { exists None, None. cbn. settle. }
  cbn.
  destruct (decide (st = Some "COMPLETED")) as [->|Hst].
  - rewrite bool_decide_eq_true_2 by done.
    destruct lookup as [i|]; cbn; eexists _, _; settle.
  - rewrite bool_decide_eq_false_2 by done. cbn.
    exists st, None. settle.
Qed.

(** X8. [download_folder] never raises.  It runs the download command unless
    the output directory cannot be created, and returns [True] exactly when
    the command was run and ended with status 0. *)
Theorem download_folder_reports_the_command (project_id folder_id output_dir : string)
    (makedirs : option exn) (r : proc_result) :
  ∃ b : bool,
    let m := download_folder project_id folder_id output_dir makedirs r in
    result m = Return b
    ∧ spawned (trace m)
      = match makedirs with
        | Some _ => []
        | None => [download_cmd project_id folder_id output_dir]
        end
    ∧ (b = true ↔ makedirs = None ∧ ∃ out err, r = Completed 0 out err)
    ∧ (∀ e, makedirs = Some e →
         m = ([Stdout ("Error during download: " +:+ exn_str e)], Return false)).
Proof.
  unfold download_folder.
  destruct makedirs as [e|]; cbn -[download_cmd].
  { exists false. settle. }
  destruct r as [rc out err|e]; cbn -[download_cmd].
  - destruct (Z.eqb_spec rc 0) as [->|Hrc]; cbn -[download_cmd];
      eexists; settle.
  - exists false. settle.
Qed.

Lemma last_after_two {A : Type} (a : A) (t : list A) (x y : A) :
  last (a :: t ++ [x; y]) = Some y.
Proof.
  rewrite app_comm_cons. replace [x; y] with ([x] ++ [y]) by done.
  by rewrite app_assoc, last_snoc.
Qed.

Lemma get_analysis_status_returns (analysis_id : string) (w : status_world) :
  ∃ (st fid : option string),
    result (get_analysis_status analysis_id w) = Return (st, fid)
    ∧ spawned (trace (get_analysis_status analysis_id w)) = [history_cmd analysis_id]
    ∧ sleeps (trace (get_analysis_status analysis_id w)) = [].
Proof.
  unfold get_analysis_status.
  destruct w as [[rc out err|e] js]; cbn [history_run history_json];
    [|by eexists _, _].
  rewrite subprocess_run_completed.
  destruct (rc =? 0); cbn [negb]; [|by eexists _, _].
  destruct js as [e|[st lookup]]; [by eexists _, _|]. cbn.
  destruct (bool_decide (st = Some "COMPLETED")); [|by eexists _, _].
  destruct lookup; by eexists _, _.
Qed.

Lemma check_ica_cli_trace (r : proc_result) :
  trace (check_ica_cli r) = [Spawn version_cmd].
Proof. by destruct r as [rc out err|[[] msg]]. Qed.

Lemma get_project_id_sleeps (project_name : string) (w : listing) :
  sleeps (trace (get_project_id project_name w)) = [].
Proof.
  unfold get_project_id. destruct w as [[rc out err|e] js]; cbn; [|done].
  destruct (rc =? 0); cbn; [|done].
  destruct js as [e|entries]; cbn; [done|].
  by destruct (first_id project_name entries).
Qed.

Lemma download_folder_cases (project_id folder_id output_dir : string)
    (makedirs : option exn) (r : proc_result) :
  ∃ t b,
    download_folder project_id folder_id output_dir makedirs r = (t, Return b)
    ∧ sleeps t = []
    ∧ (b = true →
       makedirs = None ∧ (∃ out err, r = Completed 0 out err)
       ∧ spawned t = [download_cmd project_id folder_id output_dir]
       ∧ last t = Some (Stdout "Successfully downloaded results")).
Proof.
  unfold download_folder.
  destruct makedirs as [e|]; cbn -[download_cmd]; [by eexists _, _|].
  destruct r as [rc out err|e]; cbn -[download_cmd]; [|by eexists _, _].
  destruct (Z.eqb_spec rc 0) as [->|Hrc]; cbn -[download_cmd];
    eexists _, _; (split; [done|]); (split; [done|]); [|done].
  intros _. repeat split; try done. by eexists _, _.
Qed.

(** The part of [main] up to the search for the output folder, when the
    command line tool answers and the project is found. *)
Lemma main_with_project (a : args) (w : world) (pid : string) :
  result (check_ica_cli (cli_check w)) = Return true →
  result (get_project_id (project_name a) (projects w)) = Return (Some pid) →
  pid ≠ "" →
  main a w
  = (Spawn version_cmd :: Spawn projects_list_cmd
       :: trace (find_folder a w ≫= λ found,
                 match found with
                 | Polling => mret Polling
                 | Finished (inl code) => mret (Finished code)
                 | Finished (inr folder_id) =>
                     if negb (truthy folder_id) then
                       emit (Stdout "Could not get output folder ID");;
                       mret (Finished 1)
                     else
                       success ← download_folder pid (default "" folder_id)
                                   (output_dir a) (makedirs w) (download_run w);
                       mret (Finished (if success : bool then 0 else 1))
                 end),
     result (find_folder a w ≫= λ found,
             match found with
             | Polling => mret Polling
             | Finished (inl code) => mret (Finished code)
             | Finished (inr folder_id) =>
                 if negb (truthy folder_id) then
                   emit (Stdout "Could not get output folder ID");;
                   mret (Finished 1)
                 else
                   success ← download_folder pid (default "" folder_id)
                               (output_dir a) (makedirs w) (download_run w);
                   mret (Finished (if success : bool then 0 else 1))
             end)).
Proof.
  intros Hcli Hproj Hpid. unfold main.
  rewrite (bind_of_result _ _ _ Hcli), check_ica_cli_trace.
  cbn [negb]. rewrite (bind_of_result _ _ _ Hproj).
  rewrite (get_project_id_found _ _ _ Hproj).
  2:{ unfold truthy. apply negb_true_iff. by apply String.eqb_neq. }
  assert (truthy (Some pid) = true) as ->.
  { unfold truthy. apply negb_true_iff. by apply String.eqb_neq. }
  reflexivity.
Qed.

Lemma wait_loop_folder (analysis_id : string) (polling_interval : Z)
    (script : list status_world) (f : string) :
  result (wait_loop analysis_id polling_interval script) = Return (Finished (Some f)) →
  ∃ sw, sw ∈ script
        ∧ result (get_analysis_status analysis_id sw)
          = Return (Some "COMPLETED", Some f).
Proof.
  induction script as [|sw script IH]; [done|].
  cbn [wait_loop].
  destruct (get_analysis_status_returns analysis_id sw) as (st & fid & Hr & _).
  rewrite (bind_of_result _ _ _ Hr). destruct st as [st|]; [|done].
  rewrite bind_emit. cbn [result snd].
  destruct (String.eqb_spec st "COMPLETED") as [->|_].
  - rewrite bind_emit. cbn. intros [= ->]. exists sw. split; [|done].
    apply elem_of_cons. by left.
  - destruct (ended_badly st); [by rewrite bind_emit|].
    destruct (sleepable_dec polling_interval) as [Hsleep|Hsleep].
    2:{ destruct (time_sleep_refused _ Hsleep) as [e ->]. done. }
    rewrite (time_sleep_sleepable _ Hsleep), bind_emit. cbn [result snd].
    intros (sw' & Hin & Hsw)%IH.
    exists sw'. split; [|done]. apply elem_of_cons. by right.
Qed.

Lemma find_folder_cases (a : args) (w : world) (found : Z + option string) :
  result (find_folder a w) = Return (Finished found) →
  match found with
  | inl code => code = 1
  | inr None => True
  | inr (Some f) =>
      ∃ sw, sw ∈ statuses w
            ∧ result (get_analysis_status (analysis_id a) sw)
              = Return (Some "COMPLETED", Some f)
  end.
Proof.
  unfold find_folder. destruct (no_wait a).
  - destruct (statuses w) as [|sw rest]; [done|].
    destruct (get_analysis_status_returns (analysis_id a) sw) as (st & fid & Hr & _).
    rewrite (bind_of_result _ _ _ Hr).
    destruct (decide (st = Some "COMPLETED")) as [->|Hst].
    + rewrite bool_decide_eq_true_2 by done. cbn. intros [= <-].
      destruct fid as [f|]; [|done]. exists sw. split; [|done].
      apply elem_of_cons. by left.
    + rewrite bool_decide_eq_false_2 by done. cbn. by intros [= <-].
  - rewrite wait_for_analysis_eq.
    destruct (wait_loop (analysis_id a) (polling_interval a) (statuses w))
      as [t [[fid|]|e]] eqn:E; cbn; [|done..].
    intros [= <-]. destruct fid as [f|]; [|done].
    apply (wait_loop_folder _ (polling_interval a)). by rewrite E.
Qed.

(** X9. When the download script ends with status 0, the results were
    downloaded: the project was resolved to an identifier, some status
    query was answered COMPLETED with an output folder, and the last
    command the script ran is the download of that folder for that project
    into the output directory, which ended with status 0. *)
Theorem exit_status_zero_means_downloaded (a : args) (w : world) :
  result (main a w) = Return (Finished 0) →
  ∃ (pid fid out err : string) (sw : status_world),
    pid ≠ "" ∧ fid ≠ ""
    ∧ result (get_project_id (project_name a) (projects w)) = Return (Some pid)
    ∧ sw ∈ statuses w
    ∧ result (get_analysis_status (analysis_id a) sw)
      = Return (Some "COMPLETED", Some fid)
    ∧ makedirs w = None
    ∧ download_run w = Completed 0 out err
    ∧ last (spawned (trace (main a w))) = Some (download_cmd pid fid (output_dir a))
    ∧ last (trace (main a w)) = Some (Stdout "Successfully downloaded results").
Proof.
  intros H.
  assert (Hcli : result (check_ica_cli (cli_check w)) = Return true).
  { revert H. unfold main.
    destruct (check_ica_cli (cli_check w)) as [tc [[]|e]]; cbn; done. }
  destruct (get_project_id_returns (project_name a) (projects w)) as [p Hp].
  assert (∃ pid, p = Some pid ∧ pid ≠ "") as (pid & -> & Hpid).
  { revert H. unfold main. rewrite (bind_of_result _ _ _ Hcli). cbn [negb].
    rewrite (bind_of_result _ _ _ Hp). destruct p as [pid|]; [|done].
    destruct (String.eqb_spec pid "") as [->|Hne]; [done|]. by exists pid. }
  rewrite (main_with_project a w pid Hcli Hp Hpid) in H |- *.
  cbn [trace result fst snd] in H |- *.
  destruct (find_folder a w) as [tf [[found|]|e]] eqn:Ef; [|done..].
  pose proof (find_folder_cases a w found) as Hfound. rewrite Ef in Hfound.
  specialize (Hfound eq_refl). rewrite bind_Return in H |- *.
  cbn [trace result fst snd] in H |- *.
  destruct found as [code|[fid|]]; [by subst code| |done].
  destruct Hfound as (sw & Hin & Hsw).
  destruct (String.eqb_spec fid "") as [->|Hfid]; [done|].
  assert (truthy (Some fid) = true) as Ht.
  { unfold truthy. apply negb_true_iff. by apply String.eqb_neq. }
  rewrite Ht in H |- *. cbn [negb] in H |- *.
  change (default "" (Some fid)) with fid in H |- *.
  destruct (download_folder_cases pid fid (output_dir a) (makedirs w) (download_run w))
    as (td & b & Hd & _ & Hb).
  rewrite Hd, bind_Return in H |- *. cbn [trace result fst snd mret py_ret] in H |- *.
  destruct b; [|done]. destruct (Hb eq_refl) as (Hmk & (out & err & Hrun) & Hsp & Hlast).
  exists pid, fid, out, err, sw. do 7 (split; [done|]).
  rewrite app_nil_r.
  change (Spawn version_cmd :: Spawn projects_list_cmd :: tf ++ td)
    with ([Spawn version_cmd; Spawn projects_list_cmd] ++ tf ++ td).
  split.
  - by rewrite !spawned_app, Hsp, !app_assoc, last_snoc.
  - rewrite !app_assoc. induction td as [|e td _] using rev_ind; [done|].
    rewrite last_snoc in Hlast. by rewrite app_assoc, last_snoc.
Qed.

(** X10. With [--no-wait] the download script looks at the analysis once and
    never sleeps.  Unless that one query is answered COMPLETED (a query
    that fails counts as not COMPLETED), the script says so and ends with
    status 1, having run the version check, the project listing and the
    status query and nothing else: no download is attempted. *)
Theorem no_wait_asks_once (a : args) (w : world) (pid : string)
    (sw : status_world) (rest : list status_world) :
  no_wait a = true →
  statuses w = sw :: rest →
  result (check_ica_cli (cli_check w)) = Return true →
  result (get_project_id (project_name a) (projects w)) = Return (Some pid) →
  pid ≠ "" →
  ∃ st fid,
    result (get_analysis_status (analysis_id a) sw) = Return (st, fid)
    ∧ sleeps (trace (main a w)) = []
    ∧ (st ≠ Some "COMPLETED" →
       result (main a w) = Return (Finished 1)
       ∧ spawned (trace (main a w))
         = [version_cmd; projects_list_cmd; history_cmd (analysis_id a)]
       ∧ Stdout ("Analysis is not complete (status: " +:+ default "None" st +:+ ")")
           ∈ trace (main a w)
       ∧ last (trace (main a w))
         = Some (Stdout "Use --no-wait flag only when analysis is already complete")).
Proof.
  intros Hnw Hst Hcli Hproj Hpid.
  destruct (get_analysis_status_returns (analysis_id a) sw)
    as (st & fid & Hr & Hsp & Hsl).
  exists st, fid. split; [done|].
  rewrite (main_with_project a w pid Hcli Hproj Hpid).
  unfold find_folder. rewrite Hnw, Hst, (bind_of_result _ _ _ Hr).
  revert Hsp Hsl. generalize (trace (get_analysis_status (analysis_id a) sw)).
  intros tq Hsp Hsl.
  destruct (decide (st = Some "COMPLETED")) as [->|Hne].
  - rewrite bool_decide_eq_true_2 by done. split; [|done].
    cbn [trace result fst snd mret py_ret]. rewrite app_nil_r, bind_Return.
    cbn [trace fst]. destruct (truthy fid); cbn [negb].
    + destruct (download_folder_cases pid (default "" fid) (output_dir a)
                  (makedirs w) (download_run w)) as (td & b & Hd & Hs & _).
      rewrite Hd, bind_Return. cbn [trace fst mret py_ret].
      change (Spawn version_cmd :: Spawn projects_list_cmd :: ?t)
        with ([Spawn version_cmd; Spawn projects_list_cmd] ++ t).
      by rewrite !sleeps_app, Hsl, Hs.
    + cbn. change (Spawn version_cmd :: Spawn projects_list_cmd :: ?t)
        with ([Spawn version_cmd; Spawn projects_list_cmd] ++ t).
      by rewrite !sleeps_app, Hsl.
  - rewrite bool_decide_eq_false_2 by done.
    cbn -[spawned sleeps]. rewrite !app_nil_r.
    change (Spawn version_cmd :: Spawn projects_list_cmd :: ?t)
      with ([Spawn version_cmd; Spawn projects_list_cmd] ++ t).
    rewrite !sleeps_app, !spawned_app, Hsl, Hsp.
    split; [done|]. intros _. split; [done|]. split; [done|]. split.
    + rewrite !elem_of_app, !elem_of_cons. tauto.
    + apply last_after_two.
Qed.

End download_script.

(** * The pipeline monitor *)

Section pipeline_monitor.

Import Monitor.

Context {unicode : PyStr.UnicodeLower}.

Variable project_name : string.
Variable config : NotificationConfig.
Variable analysis_id : string.
Variable check_interval : Z.

Local Abbreviation loop := (pipeline_loop project_name config analysis_id check_interval).
Local Abbreviation monitor :=
  (monitor_pipeline project_name config analysis_id check_interval).
Local Abbreviation cmd := (analysis_cmd project_name analysis_id).

Lemma mails_app (t1 t2 : list event) : mails (t1 ++ t2) = mails t1 ++ mails t2.
Proof. apply omap_app. Qed.

Lemma notify_mails (subject msg : string) (d : delivery) :
  smtp d = None →
  mails (trace (notify config subject msg d)) = [(subject, msg)].
Proof.
  intros Hs. unfold notify, _send_email, _send_slack. rewrite Hs.
  destruct (truthy (slack_webhook config)); [|done].
  by destruct (post d).
Qed.

Lemma loop_still_running (p : status_poll) (rest : list status_poll) :
  sleepable check_interval →
  still_running p →
  loop (p :: rest)
  = ([Spawn cmd; Sleep check_interval] ++ trace (loop rest), result (loop rest)).
Proof.
  intros Hsleep (out & err & data & v & Hrun & Hjs & Hlook & Hfin).
  cbn [pipeline_loop]. rewrite Hrun, subprocess_run_completed. cbn [Z.eqb negb].
  rewrite Hjs. cbn [json_loads]. rewrite bind_mret_l, Hlook, bind_mret_l, Hfin.
  by rewrite (time_sleep_sleepable _ Hsleep), bind_emit.
Qed.

(** With a check interval that [time.sleep] refuses, the first reply that
    is not final ends the monitor with the exception of the sleep. *)
Lemma loop_refused (p : status_poll) (rest : list status_poll) :
  ¬ sleepable check_interval →
  still_running p →
  ∃ e, loop (p :: rest) = ([Spawn cmd], Raise e).
Proof.
  intros Hsleep (out & err & data & v & Hrun & Hjs & Hlook & Hfin).
  destruct (time_sleep_refused _ Hsleep) as [e He]. exists e.
  cbn [pipeline_loop]. rewrite Hrun, subprocess_run_completed. cbn [Z.eqb negb].
  rewrite Hjs. cbn [json_loads]. rewrite bind_mret_l, Hlook, bind_mret_l, Hfin.
  by rewrite He.
Qed.

(** A final status whose mail is not delivered: the exception of the SMTP
    session leaves the monitor. *)
Lemma loop_ends_undelivered (st : string) (e : exn) (p : status_poll)
    (rest : list status_poll) :
  ends_undelivered st e p →
  result (loop (p :: rest)) = Raise e
  ∧ spawned (trace (loop (p :: rest))) = [cmd]
  ∧ sleeps (trace (loop (p :: rest))) = [].
Proof.
  intros (out & err & data & chat & Hrun & Hjs & Hlook & Hst & Hd).
  cbn [pipeline_loop]. rewrite Hrun, subprocess_run_completed. cbn [Z.eqb negb].
  rewrite Hjs. cbn [json_loads]. rewrite bind_mret_l, Hlook, bind_mret_l.
  assert (final_status (PStr st) = Some st) as ->.
  { by destruct Hst as [-> | ->]. }
  rewrite bind_emit, Hd. done.
Qed.

Lemma loop_pending (pending rest : list status_poll) :
  sleepable check_interval →
  Forall still_running pending →
  ∃ t,
    loop (pending ++ rest) = (t ++ trace (loop rest), result (loop rest))
    ∧ spawned t = replicate (length pending) cmd
    ∧ sleeps t = replicate (length pending) check_interval
    ∧ mails t = [].
Proof.
  intros Hsleep.
  induction 1 as [|p pending Hp _ (t & IH & Hsp & Hsl & Hm)].
  - exists []. simpl. by rewrite py_eta.
  - eexists (_ ++ t). rewrite <- app_comm_cons, loop_still_running by done.
    rewrite IH. cbn [trace result fst snd]. rewrite app_assoc.
    split; [reflexivity|]. rewrite spawned_app, sleeps_app, mails_app, Hsp, Hsl, Hm.
    done.
Qed.

Lemma loop_ends_with (data : gmap string pyval) (st : string) (p : status_poll)
    (rest : list status_poll) :
  ends_with data st p →
  result (loop (p :: rest)) = Return (Finished data)
  ∧ spawned (trace (loop (p :: rest))) = [cmd]
  ∧ sleeps (trace (loop (p :: rest))) = []
  ∧ mails (trace (loop (p :: rest)))
    = [("Pipeline " +:+ st, "Pipeline " +:+ analysis_id +:+ " " +:+ PyStr.lower st)].
Proof.
  intros (out & err & Hrun & Hjs & Hlook & Hst & Hsmtp).
  cbn [pipeline_loop]. rewrite Hrun, subprocess_run_completed. cbn [Z.eqb negb].
  rewrite Hjs. cbn [json_loads]. rewrite bind_mret_l, Hlook, bind_mret_l.
  assert (final_status (PStr st) = Some st) as ->.
  { by destruct Hst as [-> | ->]. }
  rewrite bind_emit.
  destruct (notify_delivered config ("Pipeline " +:+ st)
              ("Pipeline " +:+ analysis_id +:+ " " +:+ PyStr.lower st)
              (status_deliver p) Hsmtp) as (Hr & Hsp & Hsl).
  pose proof (notify_mails ("Pipeline " +:+ st)
                ("Pipeline " +:+ analysis_id +:+ " " +:+ PyStr.lower st)
                (status_deliver p) Hsmtp) as Hm.
  rewrite (bind_of_result _ _ _ Hr). cbn [trace result fst snd mret py_ret].
  rewrite app_nil_r.
  change (Spawn cmd :: ?e :: ?t) with ([Spawn cmd; e] ++ t).
  rewrite spawned_app, sleeps_app, mails_app, Hsp, Hsl, Hm. done.
Qed.

Lemma loop_query_breaks (err : string) (p : status_poll) (rest : list status_poll) :
  query_breaks err p →
  let error_msg := "Failed to get analysis status: " +:+ err in
  result (loop (p :: rest)) = Return (Finished (error_report error_msg))
  ∧ spawned (trace (loop (p :: rest))) = [cmd]
  ∧ sleeps (trace (loop (p :: rest))) = []
  ∧ mails (trace (loop (p :: rest))) = [("Pipeline Monitoring Error", error_msg)]
  ∧ LogError error_msg ∈ trace (loop (p :: rest)).
Proof.
  intros (rc & out & Hrun & Hrc & Hsmtp) error_msg.
  cbn [pipeline_loop]. rewrite Hrun, subprocess_run_completed.
  destruct (Z.eqb_spec rc 0) as [?|_]; [done|]. cbn [negb].
  rewrite bind_emit.
  destruct (notify_delivered config "Pipeline Monitoring Error" error_msg
              (status_deliver p) Hsmtp) as (Hr & Hsp & Hsl).
  pose proof (notify_mails "Pipeline Monitoring Error" error_msg
                (status_deliver p) Hsmtp) as Hm.
  fold error_msg. rewrite (bind_of_result _ _ _ Hr).
  cbn [trace result fst snd mret py_ret]. rewrite app_nil_r.
  change (Spawn cmd :: ?e :: ?t) with ([Spawn cmd; e] ++ t).
  rewrite spawned_app, sleeps_app, mails_app, Hsp, Hsl, Hm.
  repeat split; try done. rewrite elem_of_app, !elem_of_cons. tauto.
Qed.

Lemma monitor_pipeline_eq (script : list status_poll) :
  monitor script
  = (LogInfo ("Starting monitoring of analysis " +:+ analysis_id)
       :: trace (loop script),
     result (loop script)).
Proof. unfold monitor_pipeline. by rewrite bind_emit. Qed.

(** X11. With a check interval that [time.sleep] accepts, the pipeline
    monitor sleeps [check_interval] seconds after every reply whose status
    is neither [Completed] nor [Failed], spelled exactly so, and asks
    again, without a limit of its own.  At the first reply with one of
    these two statuses it sends one mail, with the subject
    [Pipeline <status>], and, when the mail is delivered, returns the
    decoded reply; when the SMTP session raises, the exception leaves the
    monitor.  A query that exits with another status than 0 is not
    retried: the monitor sends one error mail and, when it is delivered,
    returns an error report with the error output of the command.  With a
    check interval that [time.sleep] refuses, the first reply that is not
    final ends the monitor with the exception of the sleep. *)
Theorem pipeline_monitor_ends_at_the_first_final_status
    (pending : list status_poll) :
  Forall still_running pending →
  let n := length pending in
  (sleepable check_interval →
   (result (monitor pending) = Return Polling
    ∧ spawned (trace (monitor pending)) = replicate n cmd
    ∧ sleeps (trace (monitor pending)) = replicate n check_interval
    ∧ mails (trace (monitor pending)) = [])
   ∧ (∀ data st p rest,
        ends_with data st p →
        let m := monitor (pending ++ p :: rest) in
        result m = Return (Finished data)
        ∧ spawned (trace m) = replicate (S n) cmd
        ∧ sleeps (trace m) = replicate n check_interval
        ∧ mails (trace m)
          = [("Pipeline " +:+ st,
              "Pipeline " +:+ analysis_id +:+ " " +:+ PyStr.lower st)])
   ∧ (∀ st e p rest,
        ends_undelivered st e p →
        let m := monitor (pending ++ p :: rest) in
        result m = Raise e
        ∧ spawned (trace m) = replicate (S n) cmd
        ∧ sleeps (trace m) = replicate n check_interval)
   ∧ (∀ err p rest,
        query_breaks err p →
        let m := monitor (pending ++ p :: rest) in
        let error_msg := "Failed to get analysis status: " +:+ err in
        result m = Return (Finished (error_report error_msg))
        ∧ spawned (trace m) = replicate (S n) cmd
        ∧ sleeps (trace m) = replicate n check_interval
        ∧ mails (trace m) = [("Pipeline Monitoring Error", error_msg)]))
  ∧ (¬ sleepable check_interval → pending ≠ [] →
     ∀ rest, ∃ e,
       result (monitor (pending ++ rest)) = Raise e
       ∧ spawned (trace (monitor (pending ++ rest))) = [cmd]
       ∧ sleeps (trace (monitor (pending ++ rest))) = []
       ∧ mails (trace (monitor (pending ++ rest))) = []).
Proof.
  intros Hp n. split.
  2:{ intros Hsleep Hne rest. destruct Hp as [|p pending Hrun _]; [done|].
      destruct (loop_refused p (pending ++ rest) Hsleep Hrun) as [e He].
      exists e. rewrite monitor_pipeline_eq. cbn [app]. by rewrite He. }
  intros Hsleep.
  pose proof (λ rest, loop_pending pending rest Hsleep Hp) as Hloop.
  clear Hp. split; [|split; [|split]].
  - destruct (Hloop []) as (t & Ht & Hsp & Hsl & Hm).
    rewrite app_nil_r in Ht. rewrite monitor_pipeline_eq, Ht.
    cbn [pipeline_loop trace result fst snd mret py_ret]. rewrite app_nil_r.
    change (?e :: t) with ([e] ++ t).
    by rewrite spawned_app, sleeps_app, mails_app, Hsp, Hsl, Hm.
  - intros data st p rest He m. subst m.
    destruct (Hloop (p :: rest)) as (t & Ht & Hsp & Hsl & Hm).
    destruct (loop_ends_with data st p rest He) as (Hr & Hsp' & Hsl' & Hm').
    rewrite monitor_pipeline_eq, Ht. cbn [trace result fst snd].
    split; [done|]. change (?e :: t ++ ?l) with ([e] ++ t ++ l).
    rewrite !spawned_app, !sleeps_app, !mails_app, Hsp, Hsl, Hm, Hsp', Hsl', Hm'.
    cbn [spawned sleeps mails omap app]. rewrite app_nil_r.
    by rewrite replicate_snoc.
  - intros st e p rest He m. subst m.
    destruct (Hloop (p :: rest)) as (t & Ht & Hsp & Hsl & Hm).
    destruct (loop_ends_undelivered st e p rest He) as (Hr & Hsp' & Hsl').
    rewrite monitor_pipeline_eq, Ht. cbn [trace result fst snd].
    split; [done|]. change (?e :: t ++ ?l) with ([e] ++ t ++ l).
    rewrite !spawned_app, !sleeps_app, Hsp, Hsl, Hsp', Hsl'.
    cbn [spawned sleeps omap app]. rewrite app_nil_r.
    by rewrite replicate_snoc.
  - intros err p rest Hb m error_msg. subst m.
    destruct (Hloop (p :: rest)) as (t & Ht & Hsp & Hsl & Hm).
    destruct (loop_query_breaks err p rest Hb) as (Hr & Hsp' & Hsl' & Hm' & _).
    rewrite monitor_pipeline_eq, Ht. cbn [trace result fst snd].
    split; [done|]. change (?e :: t ++ ?l) with ([e] ++ t ++ l).
    rewrite !spawned_app, !sleeps_app, !mails_app, Hsp, Hsl, Hm, Hsp', Hsl', Hm'.
    cbn [spawned sleeps mails omap app]. rewrite app_nil_r.
    by rewrite replicate_snoc.
Qed.

End pipeline_monitor.

(** * The project data manager *)

Section data_listing.

Import ProjectManager.

Variable project_name : string.
Variable strptime : string → exn + Z.

Local Abbreviation data_row := (data_row strptime).
Local Abbreviation data_rows := (data_rows strptime).
Local Abbreviation list_data := (list_data project_name strptime).

Lemma data_row_trace (days : option Z) (now : Z) (line : string) :
  trace (data_row days now line) = [].
Proof.
  unfold ProjectManager.data_row, too_old, timedelta_days.
  destruct (PyStr.split_ws line) as [|p0 [|p1 [|p2 [|p3 rest]]]];
    cbn -[Z.mul Z.sub Z.ltb Z.abs day]; try done;
    destruct (strptime p1) as [e|c]; cbn -[Z.mul Z.sub Z.ltb Z.abs day]; try done;
    destruct days as [n|]; cbn -[Z.mul Z.sub Z.ltb Z.abs day]; try done;
    destruct (n =? 0); cbn -[Z.mul Z.sub Z.ltb Z.abs day]; try done;
    destruct (999999999 <? Z.abs n); cbn -[Z.mul Z.sub Z.ltb Z.abs day]; try done;
    destruct (n * day <? now - c); cbn -[Z.mul Z.sub Z.ltb Z.abs day]; done.
Qed.

Lemma data_row_cases (days : option Z) (now : Z) (line : string)
    (r : option data_item) :
  result (data_row days now line) = Return r →
  match r with
  | Some item => ∃ created, describes strptime line item created ∧ kept days now created
  | None =>
      PyStr.split_ws line = []
      ∨ ∃ name text rest created n,
          PyStr.split_ws line = name :: text :: rest
          ∧ strptime text = inr created
          ∧ days = Some n ∧ n ≠ 0 ∧ n * day < now - created
  end.
Proof.
  unfold ProjectManager.data_row, too_old, timedelta_days, describes, kept.
  destruct (PyStr.split_ws line) as [|p0 [|p1 [|p2 [|p3 rest]]]] eqn:Hparts;
    cbn -[Z.mul Z.sub Z.ltb Z.abs day].
  - intros [= <-]. by left.
  - done.
  - destruct (strptime p1) as [e|c] eqn:Hc;
      cbn -[Z.mul Z.sub Z.ltb Z.abs day]; [done|].
    destruct days as [n|]; cbn -[Z.mul Z.sub Z.ltb Z.abs day]; [|done].
    destruct (Z.eqb_spec n 0); cbn -[Z.mul Z.sub Z.ltb Z.abs day]; [done|].
    destruct (999999999 <? Z.abs n); cbn -[Z.mul Z.sub Z.ltb Z.abs day]; [done|].
    destruct (Z.ltb_spec (n * day) (now - c));
      cbn -[Z.mul Z.sub Z.ltb Z.abs day]; [|done].
    intros [= <-]. right. by exists p0, p1, [], c, n.
  - destruct (strptime p1) as [e|c] eqn:Hc;
      cbn -[Z.mul Z.sub Z.ltb Z.abs day]; [done|].
    destruct days as [n|]; cbn -[Z.mul Z.sub Z.ltb Z.abs day]; [|done].
    destruct (Z.eqb_spec n 0); cbn -[Z.mul Z.sub Z.ltb Z.abs day]; [done|].
    destruct (999999999 <? Z.abs n); cbn -[Z.mul Z.sub Z.ltb Z.abs day]; [done|].
    destruct (Z.ltb_spec (n * day) (now - c));
      cbn -[Z.mul Z.sub Z.ltb Z.abs day]; [|done].
    intros [= <-]. right. by exists p0, p1, [p2], c, n.
  - destruct (strptime p1) as [e|c] eqn:Hc;
      cbn -[Z.mul Z.sub Z.ltb Z.abs day]; [done|].
    destruct days as [n|]; cbn -[Z.mul Z.sub Z.ltb Z.abs day].
    + destruct (Z.eqb_spec n 0); cbn -[Z.mul Z.sub Z.ltb Z.abs day].
      { intros [= <-]. exists c. cbn. split; [split; [by eexists|done]|by left]. }
      destruct (999999999 <? Z.abs n); cbn -[Z.mul Z.sub Z.ltb Z.abs day]; [done|].
      destruct (Z.ltb_spec (n * day) (now - c));
        cbn -[Z.mul Z.sub Z.ltb Z.abs day].
      * intros [= <-]. right. by exists p0, p1, (p2 :: p3 :: rest), c, n.
      * intros [= <-]. exists c. cbn.
        split; [split; [by eexists|done]|by right].
    + intros [= <-]. exists c. cbn. split; [split; [by eexists|done]|done].
Qed.

Lemma describes_same (line : string) (a b : data_item) (ca cb : Z) :
  describes strptime line a ca → describes strptime line b cb → a = b ∧ ca = cb.
Proof.
  intros [[ra Ha] Hca] [[rb Hb] Hcb]. rewrite Ha in Hb.
  destruct a, b. cbn in *. injection Hb as -> -> -> -> _.
  split; [done|]. congruence.
Qed.

Lemma data_rows_trace (days : option Z) (clock : nat → Z) (i : nat)
    (lines : list string) :
  trace (data_rows days clock i lines) = [].
Proof.
  revert i. induction lines as [|line lines IH]; intros i; [done|].
  cbn [ProjectManager.data_rows].
  pose proof (data_row_trace days (clock i) line) as Ht.
  destruct (data_row days (clock i) line) as [t [r|e]]; cbn in Ht; subst t;
    [|done].
  rewrite bind_Return. cbn [trace fst app]. specialize (IH (S i)).
  destruct (data_rows days clock (S i) lines) as [t [items|e]]; cbn in IH; subst t;
    done.
Qed.

Lemma data_rows_cases (days : option Z) (clock : nat → Z) (i : nat)
    (lines : list string) (items : list data_item) :
  result (data_rows days clock i lines) = Return items →
  ∀ item, item ∈ items ↔
    ∃ j line created,
      lines !! j = Some line ∧ describes strptime line item created
      ∧ kept days (clock (i + j)%nat) created.
Proof.
  revert i items. induction lines as [|line lines IH]; intros i items.
  - cbn. intros [= <-] item. split; [by intros ?%elem_of_nil|].
    by intros (j & l & c & Hl & _).
  - cbn [ProjectManager.data_rows].
    destruct (data_row days (clock i) line) as [t [r|e]] eqn:E; [|done].
    rewrite bind_Return.
    destruct (data_rows days clock (S i) lines) as [t' [items'|e]] eqn:E'; [|done].
    cbn. intros [= <-] item.
    pose proof (data_row_cases days (clock i) line r) as Hr.
    rewrite E in Hr. specialize (Hr eq_refl).
    specialize (IH (S i) items'). rewrite E' in IH. specialize (IH eq_refl item).
    assert (Hrest : item ∈ items' ↔
              ∃ j line' created,
                (line :: lines) !! S j = Some line'
                ∧ describes strptime line' item created
                ∧ kept days (clock (i + S j)%nat) created).
    { rewrite IH. split; intros (j & l & c & H1 & H2 & H3); exists j, l, c;
        (split; [done|]); (split; [done|]);
        by replace (i + S j)%nat with (S i + j)%nat in * by lia. }
    assert (Hhead : (∃ created, describes strptime line item created
                                ∧ kept days (clock i) created)
                    ↔ r = Some item).
    { split.
      - intros (c & Hd & Hk). destruct r as [it|].
        + destruct Hr as (c' & Hd' & _).
          by destruct (describes_same _ _ _ _ _ Hd' Hd) as [-> _].
        + exfalso. destruct Hd as [[rest Hparts] Hc].
          destruct Hr as [Hr|(nm & tx & rs & c' & n & Hp & Hc' & -> & Hn & Hlt)].
          * by rewrite Hr in Hparts.
          * rewrite Hp in Hparts. injection Hparts as -> -> _.
            rewrite Hc in Hc'. injection Hc' as <-.
            destruct Hk as [?|?]; [done|lia].
      - intros ->. done. }
    split.
    + intros Hin.
      assert (r = Some item ∨ item ∈ items') as [Hh|Ht].
      { destruct r as [it|]; [|by right].
        apply elem_of_cons in Hin as [->|?]; [by left|by right]. }
      * apply Hhead in Hh as (c & Hd & Hk). exists 0%nat, line, c.
        by rewrite Nat.add_0_r.
      * apply Hrest in Ht as (j & l & c & H1 & H2 & H3). by exists (S j), l, c.
    + intros ([|j] & l & c & H1 & H2 & H3).
      * cbn in H1. injection H1 as <-. rewrite Nat.add_0_r in H3.
        assert (r = Some item) as -> by (apply Hhead; by exists c).
        apply elem_of_cons. by left.
      * assert (item ∈ items') by (apply Hrest; by exists j, l, c).
        destruct r; [apply elem_of_cons; by right|done].
Qed.

Lemma list_data_cases (days : option Z) (pattern : option string)
    (w : listing_world) (items : list data_item) :
  result (list_data days pattern w) = Return items →
  list_data days pattern w = ([Spawn (list_cmd project_name pattern)], Return items)
  ∧ ∃ out err,
      ls_run w = Completed 0 out err
      ∧ ∀ item, item ∈ items ↔
          ∃ j line created,
            data_lines out !! j = Some line ∧ describes strptime line item created
            ∧ kept days (ls_clock w j) created.
Proof.
  unfold ProjectManager.list_data. destruct (ls_run w) as [rc out err|e]; [|done].
  rewrite subprocess_run_completed.
  destruct (Z.eqb_spec rc 0) as [->|Hrc]; cbn [negb]; [|done].
  cbn [result snd trace fst]. intros Hr.
  pose proof (data_rows_trace days (ls_clock w) 0 (tail (PyStr.splitlines out))) as Ht.
  rewrite Ht, Hr. split; [done|].
  exists out, err. split; [done|].
  intros item. by rewrite (data_rows_cases _ _ _ _ _ Hr item).
Qed.

Lemma list_data_returns_spawn (days : option Z) (pattern : option string)
    (w : listing_world) :
  spawned (trace (list_data days pattern w)) = [list_cmd project_name pattern].
Proof.
  unfold ProjectManager.list_data. destruct (ls_run w) as [rc out err|e]; [|done].
  rewrite subprocess_run_completed. destruct (rc =? 0); cbn [negb]; [|done].
  cbn [trace fst]. by rewrite data_rows_trace.
Qed.

(** X12. [list_data] runs one listing command; when it exits with another status
    than 0 a [RuntimeError] with its error output is raised.  Otherwise the
    header line and the blank lines are left out, and the items returned are
    those described by the other lines that pass the age filter: all of them
    when [days] is [None] or 0, and otherwise those that are at most [days]
    days old at the time their line is read.  With [days] set, the items
    older than that are the ones left out. *)
Theorem list_data_returns_the_recent_rows (days : option Z)
    (pattern : option string) (w : listing_world) :
  spawned (trace (list_data days pattern w)) = [list_cmd project_name pattern]
  ∧ (∀ rc out err,
       ls_run w = Completed rc out err → rc ≠ 0 →
       result (list_data days pattern w)
       = Raise (Exn RuntimeError ("Failed to list data: " +:+ err)))
  ∧ (∀ items,
       result (list_data days pattern w) = Return items →
       ∃ out err,
         ls_run w = Completed 0 out err
         ∧ ∀ item, item ∈ items ↔
             ∃ j line created,
               data_lines out !! j = Some line
               ∧ describes strptime line item created
               ∧ kept days (ls_clock w j) created).
Proof.
  split; [|split].
  - apply list_data_returns_spawn.
  - intros rc out err Hrun Hrc. unfold ProjectManager.list_data.
    rewrite Hrun, subprocess_run_completed.
    by destruct (Z.eqb_spec rc 0).
  - intros items Hr. by destruct (list_data_cases _ _ _ _ Hr) as [_ ?].
Qed.

End data_listing.

Section cleanup.

Import ProjectManager.

Variable project_name : string.
Variable strptime : string → exn + Z.

Local Abbreviation list_data := (list_data project_name strptime).
Local Abbreviation cleanup_items := (cleanup_items project_name).
Local Abbreviation cleanup_old_data := (cleanup_old_data project_name strptime).
Local Abbreviation delete_cmd := (delete_cmd project_name).
Local Abbreviation list_cmd := (list_cmd project_name).

Lemma cleanup_items_dry (deletes : nat → proc_result) (i : nat)
    (items : list data_item) :
  cleanup_items true deletes i items = (Stdout ∘ would_delete <$> items, Return []).
Proof.
  revert i. induction items as [|item items IH]; intros i; [done|].
  cbn [ProjectManager.cleanup_items]. by rewrite bind_emit, IH.
Qed.

Lemma cleanup_items_spawned (deletes : nat → proc_result) (i : nat)
    (items : list data_item) (c : list string) :
  c ∈ spawned (trace (cleanup_items false deletes i items)) →
  ∃ j item, items !! j = Some item ∧ c = delete_cmd (item_name item).
Proof.
  revert i. induction items as [|item items IH]; intros i.
  - by intros ?%elem_of_nil.
  - cbn [ProjectManager.cleanup_items].
    assert (Hrest : c ∈ spawned (trace (cleanup_items false deletes (S i) items)) →
                    ∃ j it, (item :: items) !! j = Some it
                            ∧ c = delete_cmd (item_name it)).
    { intros (j & it & H1 & H2)%IH. by exists (S j), it. }
    destruct (deletes i) as [rc out err|e].
    + rewrite subprocess_run_completed. cbn [trace fst].
      change (Spawn ?x :: ?t) with ([Spawn x] ++ t). rewrite spawned_app.
      intros [Hin|Hin]%elem_of_app.
      * apply list_elem_of_singleton in Hin. by exists 0%nat, item.
      * apply Hrest. revert Hin. destruct (rc =? 0).
        -- destruct (cleanup_items false deletes (S i) items) as [t [names|e]];
             cbn; by rewrite ?app_nil_r.
        -- by rewrite bind_emit.
    + cbn. intros Hin%list_elem_of_singleton. by exists 0%nat, item.
Qed.

Lemma cleanup_items_names (deletes : nat → proc_result) (i : nat)
    (items : list data_item) (names : list string) :
  result (cleanup_items false deletes i items) = Return names →
  spawned (trace (cleanup_items false deletes i items))
  = (delete_cmd ∘ item_name <$> items)
  ∧ ∀ name, name ∈ names ↔
      ∃ j item out err,
        items !! j = Some item ∧ item_name item = name
        ∧ deletes (i + j)%nat = Completed 0 out err.
Proof.
  revert i names. induction items as [|item items IH]; intros i names.
  - cbn. intros [= <-]. split; [done|]. intros name.
    split; [by intros ?%elem_of_nil|]. by intros (j & it & o & e & Hl & _).
  - cbn [ProjectManager.cleanup_items].
    destruct (deletes i) as [rc out err|e] eqn:Hd; [|done].
    rewrite subprocess_run_completed. cbn [trace result fst snd].
    specialize (IH (S i)).
    destruct (cleanup_items false deletes (S i) items) as [t [names'|e]] eqn:E.
    2:{ destruct (rc =? 0); [done|by rewrite bind_emit]. }
    destruct (IH names' eq_refl) as [Hsp Hnames]. cbn [trace fst] in Hsp.
    assert (Hshift : ∀ name,
              (∃ j it o e, items !! j = Some it ∧ item_name it = name
                           ∧ deletes (S i + j)%nat = Completed 0 o e)
              ↔ (∃ j it o e, (item :: items) !! S j = Some it ∧ item_name it = name
                             ∧ deletes (i + S j)%nat = Completed 0 o e)).
    { intros name. split; intros (j & it & o & e & H1 & H2 & H3);
        exists j, it, o, e; (split; [done|]); (split; [done|]);
        by replace (i + S j)%nat with (S i + j)%nat in * by lia. }
    destruct (Z.eqb_spec rc 0) as [->|Hrc].
    + cbn -[spawned]. rewrite app_nil_r. intros [= <-].
      change (spawned (Spawn ?x :: t)) with (x :: spawned t). rewrite Hsp.
      split; [done|]. intros name. rewrite elem_of_cons, Hnames, Hshift. split.
      * intros [->|(j & it & o & e & H)].
        -- exists 0%nat, item, out, err. by rewrite Nat.add_0_r.
        -- by exists (S j), it, o, e.
      * intros ([|j] & it & o & e & H1 & H2 & H3).
        -- left. cbn in H1. by injection H1 as <-.
        -- right. by exists j, it, o, e.
    + rewrite bind_emit. cbn -[spawned]. intros [= <-].
      change (spawned (Spawn ?x :: ?y :: t)) with (x :: spawned t). rewrite Hsp.
      split; [done|]. intros name. rewrite Hnames, Hshift. split.
      * intros (j & it & o & e & H). by exists (S j), it, o, e.
      * intros ([|j] & it & o & e & H1 & H2 & H3).
        -- rewrite Nat.add_0_r, Hd in H3. by injection H3 as -> _ _.
        -- by exists j, it, o, e.
Qed.

(** X13. [cleanup_old_data] with [dry_run] off runs a delete command for every
    item that [list_data] returns for the same number of days, and for
    nothing else: with [days] not 0, a delete command is only ever run for
    an item that is at most [days] days old, never for an older one.  The
    names it returns are those of the items whose delete command ended with
    status 0. *)
Theorem cleanup_deletes_the_items_listed (n : Z) (w : cleanup_world) :
  (n ≠ 0 →
   ∀ name, delete_cmd name ∈ spawned (trace (cleanup_old_data n false w)) →
     ∃ out err j line item created,
       ls_run (cl_listing w) = Completed 0 out err
       ∧ data_lines out !! j = Some line
       ∧ describes strptime line item created
       ∧ item_name item = name
       ∧ ls_clock (cl_listing w) j - created ≤ n * day)
  ∧ (∀ names,
       result (cleanup_old_data n false w) = Return names →
       ∃ items,
         result (list_data (Some n) None (cl_listing w)) = Return items
         ∧ spawned (trace (cleanup_old_data n false w))
           = list_cmd None :: (delete_cmd ∘ item_name <$> items)
         ∧ ∀ name, name ∈ names ↔
             ∃ j item out err,
               items !! j = Some item ∧ item_name item = name
               ∧ cl_delete w j = Completed 0 out err).
Proof.
  unfold ProjectManager.cleanup_old_data. split.
  - intros Hn name.
    destruct (list_data (Some n) None (cl_listing w)) as [t [items|e]] eqn:E.
    + pose proof (list_data_cases project_name strptime (Some n) None
                    (cl_listing w) items) as Hl.
      rewrite E in Hl. destruct (Hl eq_refl) as [[= ->] (out & err & Hrun & Hitems)].
      rewrite bind_Return. cbn [trace fst].
      change (spawned ([Spawn ?x] ++ ?t)) with (x :: spawned t).
      intros [Hin|Hin]%elem_of_cons; [done|].
      apply cleanup_items_spawned in Hin as (j & item & Hj & [= ->]).
      assert (item ∈ items) as Hin by (by eapply list_elem_of_lookup_2).
      apply Hitems in Hin as (k & line & c & Hk & Hd & [?|Hage]); [done|].
      by exists out, err, k, line, item, c.
    + rewrite bind_Raise. cbn [trace fst].
      assert (spawned t = [list_cmd None]) as ->.
      { pose proof (list_data_returns_spawn project_name strptime (Some n) None (cl_listing w)) as H.
        by rewrite E in H. }
      by intros ?%list_elem_of_singleton.
  - intros names.
    destruct (list_data (Some n) None (cl_listing w)) as [t [items|e]] eqn:E; [|done].
    pose proof (list_data_cases project_name strptime (Some n) None
                  (cl_listing w) items) as Hl.
    rewrite E in Hl. destruct (Hl eq_refl) as [[= ->] _].
    rewrite bind_Return. cbn [trace result fst snd]. intros Hr.
    destruct (cleanup_items_names _ _ _ _ Hr) as [Hsp Hnames].
    exists items. split; [done|].
    change (spawned ([Spawn ?x] ++ ?t)) with (x :: spawned t). by rewrite Hsp.
Qed.

End cleanup.

Section archive.

Import ProjectManager.

Variable project_name : string.
Variable strptime : string → exn + Z.
Variable path_join : string → string → string.

Local Abbreviation list_data := (list_data project_name strptime).
Local Abbreviation cleanup_old_data := (cleanup_old_data project_name strptime).
Local Abbreviation archive_items := (archive_items project_name strptime path_join).
Local Abbreviation archive_old_data :=
  (archive_old_data project_name strptime path_join).
Local Abbreviation download_cmd := (download_cmd project_name).

Lemma archive_items_cases (n : Z) (dir : string) (w : archive_world) (i : nat)
    (items : list data_item) (names : list string) :
  result (archive_items n dir w i items) = Return names →
  (∀ name, name ∈ names ↔
     ∃ j item out err,
       items !! j = Some item ∧ item_name item = name
       ∧ ar_download w (i + j)%nat = Completed 0 out err)
  ∧ (∀ j item out err,
       items !! j = Some item →
       ar_download w (i + j)%nat = Completed 0 out err →
       ∀ c, c ∈ spawned (trace (cleanup_old_data n false (ar_cleanup w (i + j)%nat))) →
            c ∈ spawned (trace (archive_items n dir w i items)))
  ∧ (∀ j item,
       items !! j = Some item →
       download_cmd (item_name item) (path_join dir (item_name item))
         ∈ spawned (trace (archive_items n dir w i items))).
Proof.
  revert i names. induction items as [|item items IH]; intros i names.
  - cbn. intros [= <-]. split; [|split]; try done.
    intros name. split; [by intros ?%elem_of_nil|].
    by intros (j & it & o & e & Hl & _).
  - cbn [ProjectManager.archive_items].
    destruct (ar_download w i) as [rc out err|e] eqn:Hd; [|done].
    rewrite subprocess_run_completed. cbn [trace result fst snd].
    set (dl := download_cmd (item_name item) (path_join dir (item_name item))).
    specialize (IH (S i)).
    assert (Hshift : ∀ j, (i + S j)%nat = (S i + j)%nat) by (intros; lia).
    destruct (Z.eqb_spec rc 0) as [->|Hrc].
    + destruct (cleanup_old_data n false (ar_cleanup w i)) as [tc [deleted|e]] eqn:Ec;
        [|done].
      rewrite bind_Return. cbn [trace result fst snd].
      destruct (archive_items n dir w (S i) items) as [t [names'|e]] eqn:E; [|done].
      destruct (IH names' eq_refl) as (Hnames & Hclean & Hdl).
      cbn [trace fst] in Hclean, Hdl.
      rewrite bind_Return. cbn [trace result fst snd mret py_ret].
      rewrite app_nil_r. intros [= <-].
      change (Spawn dl :: tc ++ t) with ([Spawn dl] ++ tc ++ t).
      rewrite !spawned_app. change (spawned [Spawn dl]) with [dl].
      split; [|split].
      * intros name. rewrite elem_of_cons, Hnames. split.
        -- intros [->|(j & it & o & e & H1 & H2 & H3)].
           ++ exists 0%nat, item, out, err. by rewrite Nat.add_0_r.
           ++ exists (S j), it, o, e. by rewrite Hshift.
        -- intros ([|j] & it & o & e & H1 & H2 & H3).
           ++ left. cbn in H1. by injection H1 as <-.
           ++ right. exists j, it, o, e. by rewrite <- Hshift.
      * intros [|j] it o e H1 H2 c Hc; rewrite !elem_of_app.
        -- rewrite Nat.add_0_r, Ec in Hc. cbn [trace fst] in Hc. tauto.
        -- right. right. rewrite Hshift in H2, Hc. by eapply Hclean.
      * intros [|j] it H1; rewrite !elem_of_app.
        -- left. cbn in H1. injection H1 as <-. apply list_elem_of_singleton. done.
        -- right. right. by eapply Hdl.
    + rewrite bind_emit. cbn [trace result fst snd].
      destruct (archive_items n dir w (S i) items) as [t [names'|e]] eqn:E; [|done].
      destruct (IH names' eq_refl) as (Hnames & Hclean & Hdl).
      cbn [trace fst] in Hclean, Hdl. cbn [trace result fst snd]. intros [= <-].
      change (Spawn dl :: ?x :: t) with ([Spawn dl; x] ++ t).
      rewrite !spawned_app.
      split; [|split].
      * intros name. rewrite Hnames. split.
        -- intros (j & it & o & e & H1 & H2 & H3).
           exists (S j), it, o, e. by rewrite Hshift.
        -- intros ([|j] & it & o & e & H1 & H2 & H3).
           ++ rewrite Nat.add_0_r, Hd in H3. by injection H3 as -> _ _.
           ++ exists j, it, o, e. by rewrite <- Hshift.
      * intros [|j] it o e H1 H2 c Hc; rewrite !elem_of_app.
        -- rewrite Nat.add_0_r, Hd in H2. by injection H2 as -> _ _.
        -- right. rewrite Hshift in H2, Hc. by eapply Hclean.
      * intros [|j] it H1; rewrite !elem_of_app.
        -- left. cbn in H1. injection H1 as <-. apply elem_of_cons. by left.
        -- right. by eapply Hdl.
Qed.

Lemma archive_items_commands (n : Z) (dir : string) (w : archive_world) (i : nat)
    (items : list data_item) (names : list string) :
  result (archive_items n dir w i items) = Return names →
  spawned (trace (archive_items n dir w i items))
  = archive_commands project_name strptime path_join n dir w i items.
Proof.
  revert i names. induction items as [|item items IH]; intros i names; [done|].
  cbn [ProjectManager.archive_items archive_commands].
  destruct (ar_download w i) as [rc out err|e] eqn:Hd; [|done].
  rewrite subprocess_run_completed. cbn [trace result fst snd downloaded].
  destruct (Z.eqb_spec rc 0) as [->|Hrc].
  - destruct (cleanup_old_data n false (ar_cleanup w i)) as [tc [deleted|e]] eqn:Ec;
      [|done].
    rewrite bind_Return. cbn [trace result fst snd].
    destruct (archive_items n dir w (S i) items) as [t [names'|e]] eqn:E; [|done].
    specialize (IH (S i) names'). rewrite E in IH. cbn [trace result fst snd] in IH.
    rewrite bind_Return. cbn [trace result fst snd mret py_ret].
    rewrite app_nil_r. intros _.
    change (spawned (Spawn ?c :: ?l)) with (c :: spawned l).
    by rewrite spawned_app, (IH eq_refl).
  - rewrite bind_emit. cbn [trace result fst snd].
    intros Hr. specialize (IH (S i) names Hr).
    change (spawned (Spawn ?c :: Stdout ?x :: ?l)) with (c :: spawned l).
    by rewrite IH.
Qed.

(** X15. [archive_old_data] downloads every item that [list_data] returns for
    the given number of days, in order, and returns the names of those
    whose download ended with status 0.  After each such download, and
    before the download of the next item, it calls [cleanup_old_data] for
    the same number of days with [dry_run] off; after a download that
    failed it makes no such call.  So the commands of a run that returns
    are, in this order, the listing command and then, for each item, its
    download command followed, when the download ended with status 0, by
    the commands of that call: a new listing and the delete command of
    every item it lists, whether the item deleted has been downloaded or
    not. *)
Theorem archive_cleans_up_after_every_download (n : Z) (dir : string)
    (w : archive_world) (names : list string) :
  result (archive_old_data n dir w) = Return names →
  ∃ items,
    result (list_data (Some n) None (ar_listing w)) = Return items
    ∧ ar_mkdir w = None
    ∧ (∀ name, name ∈ names ↔
         ∃ j item out err,
           items !! j = Some item ∧ item_name item = name
           ∧ ar_download w j = Completed 0 out err)
    ∧ spawned (trace (archive_old_data n dir w))
      = list_cmd project_name None
        :: archive_commands project_name strptime path_join n dir w 0 items
    ∧ (∀ j item,
         items !! j = Some item →
         download_cmd (item_name item) (path_join dir (item_name item))
           ∈ spawned (trace (archive_old_data n dir w)))
    ∧ (∀ j item out err,
         items !! j = Some item →
         ar_download w j = Completed 0 out err →
         ∀ c, c ∈ spawned (trace (cleanup_old_data n false (ar_cleanup w j))) →
              c ∈ spawned (trace (archive_old_data n dir w))).
Proof.
  unfold ProjectManager.archive_old_data.
  pose proof (list_data_returns_spawn project_name strptime (Some n) None
                (ar_listing w)) as Hls.
  destruct (list_data (Some n) None (ar_listing w)) as [t [items|e]] eqn:E; [|done].
  cbn [trace fst] in Hls.
  rewrite bind_Return. destruct (ar_mkdir w) as [e|]; [done|].
  rewrite bind_mret_l. cbn [trace result fst snd]. intros Hr.
  destruct (archive_items_cases n dir w 0 items names Hr) as (Hn & Hc & Hd).
  exists items. split; [done|]. split; [done|].
  rewrite spawned_app, Hls. split; [done|]. split.
  { by rewrite (archive_items_commands n dir w 0 items names Hr). }
  split.
  - intros j item Hj. apply elem_of_app. right. by eapply Hd.
  - intros j item out err Hj Hdl c Hin. apply elem_of_app. right. by eapply Hc.
Qed.

End archive.

Section storage_usage.

Import ProjectManager.

Variable project_name : string.
Variable float : Type.
Variable parse_float : string → exn + float.
Variable percent : float → float → exn + float.

Local Abbreviation gb_field := (gb_field float parse_float).
Local Abbreviation usage_lines := (usage_lines float parse_float).
Local Abbreviation get_storage_usage :=
  (get_storage_usage project_name float parse_float percent).
Local Abbreviation storage_cmd := (storage_cmd project_name).

Lemma gb_field_trace (line : string) : trace (gb_field line) = [].
Proof.
  unfold ProjectManager.gb_field, index.
  destruct (PyStr.split_ws line !! 1%nat) as [field|]; [|done].
  rewrite bind_mret_l. by destruct (parse_float _).
Qed.

Lemma usage_lines_keys (usage : gmap string float) (lines : list string)
    (usage' : gmap string float) :
  result (usage_lines usage lines) = Return usage' →
  trace (usage_lines usage lines) = []
  ∧ ∀ k, is_Some (usage' !! k) ↔
         is_Some (usage !! k) ∨ ∃ line, line ∈ lines ∧ usage_key line = Some k.
Proof.
  revert usage. induction lines as [|line lines IH]; intros usage.
  - cbn. intros [= <-]. split; [done|]. intros k. split; [by left|].
    intros [?|(l & ?%elem_of_nil & _)]; done.
  - cbn [ProjectManager.usage_lines].
    assert (Hset : ∀ key,
              usage_key line = Some key →
              result (v ← gb_field line; usage_lines (<[key := v]> usage) lines)
                = Return usage' →
              trace (v ← gb_field line; usage_lines (<[key := v]> usage) lines) = []
              ∧ ∀ k, is_Some (usage' !! k) ↔
                     is_Some (usage !! k)
                     ∨ ∃ l, l ∈ line :: lines ∧ usage_key l = Some k).
    { intros key Hkey. pose proof (gb_field_trace line) as Ht.
      destruct (gb_field line) as [t [v|e]]; cbn in Ht; subst t; [|done].
      rewrite bind_Return. cbn [trace result fst snd app].
      intros Hr. destruct (IH _ Hr) as [Htr Hk]. split; [done|].
      intros k. rewrite Hk, lookup_insert_is_Some. split.
      - intros [[->|[_ ?]]|(l & Hl & Hlk)].
        + right. exists line. split; [apply elem_of_cons; by left|done].
        + by left.
        + right. exists l. split; [apply elem_of_cons; by right|done].
      - intros [?|(l & [->|Hl]%elem_of_cons & Hlk)].
        + destruct (decide (key = k)); [left; by left|left; right; done].
        + left. left. congruence.
        + right. by exists l. }
    unfold usage_key in Hset |- *.
    destruct (PyStr.contains "Used:" line) eqn:H1; [by apply Hset|].
    destruct (PyStr.contains "Available:" line) eqn:H2; [by apply Hset|].
    destruct (PyStr.contains "Total:" line) eqn:H3; [by apply Hset|].
    intros Hr. destruct (IH _ Hr) as [Htr Hk]. split; [done|].
    intros k. rewrite Hk. split.
    + intros [?|(l & Hl & Hlk)]; [by left|].
      right. exists l. split; [apply elem_of_cons; by right|done].
    + intros [?|(l & [->|Hl]%elem_of_cons & Hlk)]; [by left| |].
      * unfold usage_key in Hlk. by rewrite H1, H2, H3 in Hlk.
      * right. by exists l.
Qed.

(** X16. [get_storage_usage] raises a [RuntimeError] with the error output when
    the storage command exits with another status than 0.  When it returns
    a report, the keys of the report are [usage_percent] and the keys set
    by the lines of the output; a line with [Used:] and a line with
    [Total:] (one that has neither [Used:] nor [Available:] before it in
    the chain of tests) are among them, and [usage_percent] is computed
    from the two values reported.  An output without such lines gives no
    report: the function raises. *)
Theorem storage_report_needs_used_and_total (r : proc_result) :
  (∀ rc out err,
     r = Completed rc out err → rc ≠ 0 →
     get_storage_usage r
     = ([Spawn storage_cmd],
        Raise (Exn RuntimeError ("Failed to get storage info: " +:+ err))))
  ∧ (∀ usage,
       result (get_storage_usage r) = Return usage →
       ∃ out err used total p,
         r = Completed 0 out err
         ∧ trace (get_storage_usage r) = [Spawn storage_cmd]
         ∧ (∀ k, is_Some (usage !! k) ↔
                 k = "usage_percent"
                 ∨ ∃ line, line ∈ PyStr.splitlines out ∧ usage_key line = Some k)
         ∧ (∃ line, line ∈ PyStr.splitlines out ∧ usage_key line = Some "used_gb")
         ∧ (∃ line, line ∈ PyStr.splitlines out ∧ usage_key line = Some "total_gb")
         ∧ usage !! "used_gb" = Some used
         ∧ usage !! "total_gb" = Some total
         ∧ percent used total = inr p
         ∧ usage !! "usage_percent" = Some p).
Proof.
  unfold ProjectManager.get_storage_usage. split.
  - intros rc out err -> Hrc. rewrite subprocess_run_completed.
    by destruct (Z.eqb_spec rc 0).
  - intros usage. destruct r as [rc out err|e]; [|done].
    rewrite subprocess_run_completed.
    destruct (Z.eqb_spec rc 0) as [->|Hrc]; cbn [negb]; [|done].
    cbn [trace result fst snd].
    destruct (usage_lines ∅ (PyStr.splitlines out)) as [t [u|e]] eqn:E; [|done].
    pose proof (usage_lines_keys ∅ (PyStr.splitlines out) u) as Hk.
    rewrite E in Hk. destruct (Hk eq_refl) as [Ht Hkeys]. cbn in Ht. subst t.
    rewrite bind_Return. unfold key.
    destruct (u !! "used_gb") as [used|] eqn:Hused; [|done].
    rewrite bind_mret_l.
    destruct (u !! "total_gb") as [total|] eqn:Htotal; [|done].
    rewrite bind_mret_l.
    destruct (percent used total) as [e|p] eqn:Hp; [done|].
    cbn. intros [= <-].
    exists out, err, used, total, p. split; [done|]. split; [done|].
    assert (Hfrom : ∀ k, is_Some (u !! k) →
              ∃ line, line ∈ PyStr.splitlines out ∧ usage_key line = Some k).
    { intros k [Hin|?]%Hkeys; [|done]. rewrite lookup_empty in Hin.
      by destruct Hin. }
    split; [|split; [|split; [|split; [|split; [|split]]]]]; try done.
    + intros k. rewrite lookup_insert_is_Some. split.
      * intros [<-|[_ ?]]; [by left|right; by apply Hfrom].
      * intros [->|Hline]; [by left|].
        destruct (decide ("usage_percent" = k)); [by left|].
        right. split; [done|]. apply Hkeys. by right.
    + apply Hfrom. by rewrite Hused.
    + apply Hfrom. by rewrite Htotal.
    + by rewrite lookup_insert_ne.
    + by rewrite lookup_insert_ne.
    + by rewrite lookup_insert_eq.
Qed.

End storage_usage.

Section manager_main.

Import ProjectManager.

Variable project_name : string.
Variable strptime : string → exn + Z.
Variable path_join : string → string → string.
Variable float : Type.
Variable parse_float : string → exn + float.
Variable percent : float → float → exn + float.
Variable dumps_items : list data_item → string.
Variable dumps_usage : gmap string float → string.

Local Abbreviation list_data := (list_data project_name strptime).
Local Abbreviation cleanup_old_data := (cleanup_old_data project_name strptime).
Local Abbreviation list_cmd := (list_cmd project_name).
Local Abbreviation main :=
  (main project_name strptime path_join float parse_float percent
     dumps_items dumps_usage).

(** X14. A dry run of [cleanup_old_data] runs the listing command and no other:
    it prints one line for every item listed and returns the empty list.
    Run from the command line ([--action cleanup --dry-run]) it therefore
    ends by printing [Deleted 0 items], whatever was listed.  Without
    [--days], or with [--days 0], the cleanup is refused before any command
    is run. *)
Theorem dry_run_deletes_nothing (n : Z) (cw : cleanup_world) :
  spawned (trace (cleanup_old_data n true cw)) = [list_cmd None]
  ∧ (∀ names,
       result (cleanup_old_data n true cw) = Return names →
       names = []
       ∧ ∃ items,
           result (list_data (Some n) None (cl_listing cw)) = Return items
           ∧ trace (cleanup_old_data n true cw)
             = Spawn (list_cmd None) :: (Stdout ∘ would_delete <$> items))
  ∧ (∀ a w,
       act a = ActCleanup → dry_run a = true → days a = Some n →
       w_cleanup w = cw →
       if n =? 0 then
         main a w = ([], Return (ParserError "--days is required for cleanup"))
       else
         spawned (trace (main a w)) = [list_cmd None]
         ∧ (result (main a w) = Return Done →
            last (trace (main a w)) = Some (Stdout "Deleted 0 items"))).
Proof.
  assert (Hc : cleanup_old_data n true cw
               = match list_data (Some n) None (cl_listing cw) with
                 | (t, Return items) =>
                     (t ++ (Stdout ∘ would_delete <$> items), Return [])
                 | (t, Raise e) => (t, Raise e)
                 end).
  { unfold ProjectManager.cleanup_old_data.
    destruct (list_data (Some n) None (cl_listing cw)) as [t [items|e]]; [|done].
    by rewrite bind_Return, cleanup_items_dry. }
  pose proof (list_data_returns_spawn project_name strptime (Some n) None
                (cl_listing cw)) as Hsp.
  assert (Hprints : ∀ items : list data_item,
            spawned (Stdout ∘ would_delete <$> items) = []).
  { intros items. by induction items. }
  split; [|split].
  - rewrite Hc.
    destruct (list_data (Some n) None (cl_listing cw)) as [t [items|e]]; [|done].
    cbn [trace fst] in *. by rewrite spawned_app, Hsp, Hprints.
  - intros names. rewrite Hc.
    destruct (list_data (Some n) None (cl_listing cw)) as [t [items|e]] eqn:E;
      [|done].
    cbn [trace result fst snd]. intros [= <-]. split; [done|].
    exists items. split; [done|].
    pose proof (list_data_cases project_name strptime (Some n) None
                  (cl_listing cw) items) as Hl.
    rewrite E in Hl. by destruct (Hl eq_refl) as [[= ->] _].
  - intros a w Hact Hdry Hdays Hw. unfold ProjectManager.main.
    rewrite Hact, Hdays, Hdry, Hw. cbn [nonzero default from_option].
    destruct (n =? 0); cbn [negb]; [done|].
    change (Datatypes.id n) with n. rewrite Hc.
    destruct (list_data (Some n) None (cl_listing cw)) as [t [items|e]]; [|done].
    cbn [trace fst] in Hsp. rewrite bind_Return.
    cbn [trace result fst snd length]. rewrite bind_emit.
    cbn [trace result fst snd mret py_ret]. split.
    + by rewrite !spawned_app, Hsp, Hprints.
    + intros _. rewrite last_snoc. reflexivity.
Qed.

End manager_main.

(** * The parameter generator and the batch, continued *)

Section more_parameters.

Import BatchProcessor.

Local Abbreviation base_keys :=
  ({["sample-id"; "reference-tar"; "output-directory"]} : gset string).

(** X17. A set that [_generate_params] returns has the keys of the custom parameters, of the
    type-specific parameters and the three base keys, and no other.  For
    [dragen-enrichment] the type-specific parameters are the two flags
    [enable-map-align] and [enable-variant-caller], the target file and the
    padding 100; a row without [target_bed] still gets the key
    [vc-target-bed], with the value [None].  For [dragen-rna] they are the
    two flags [enable-rna] and [enable-rna-quantification] and the
    annotation file.  A custom parameter replaces any of them. *)
Theorem generate_params_adds_no_other_key (s : sample)
    (params : gmap string pyval) :
  result (_generate_params s) = Return params →
  dom params
  = dom (custom_of s) ∪ dom (pipeline_params s) ∪ base_keys
  ∧ (pipeline s = "dragen-enrichment" →
     dom (pipeline_params s)
     = {["enable-map-align"; "enable-variant-caller"; "vc-target-bed";
         "vc-target-bed-padding"]}
     ∧ ∀ k, custom_of s !! k = None →
         params !! k
         = if String.eqb k "enable-map-align" || String.eqb k "enable-variant-caller"
           then Some (PBool true)
           else if String.eqb k "vc-target-bed"
           then Some (match target_bed s with Some bed => PStr bed | None => PNone end)
           else if String.eqb k "vc-target-bed-padding" then Some (PInt 100)
           else base_params s !! k)
  ∧ (pipeline s = "dragen-rna" →
     dom (pipeline_params s)
     = {["enable-rna"; "enable-rna-quantification"; "annotation-file"]}
     ∧ ∀ k, custom_of s !! k = None →
         params !! k
         = if String.eqb k "enable-rna" || String.eqb k "enable-rna-quantification"
           then Some (PBool true)
           else if String.eqb k "annotation-file" then Some (annotation_file s)
           else base_params s !! k).
Proof.
  intros Hparams.
  assert (params = custom_of s ∪ (pipeline_params s ∪ base_params s)) as ->.
  { destruct (generate_params_cases s) as [[_ E]|[_ [e E]]];
      rewrite E in Hparams; [by injection Hparams|discriminate Hparams]. }
  clear Hparams.
  split; [|split].
  - rewrite !dom_union_L. unfold base_params.
    rewrite !dom_insert_L, dom_empty_L.
    apply set_eq. intros x. rewrite !elem_of_union, elem_of_empty. tauto.
  - intros Hp. split.
    + unfold pipeline_params. rewrite Hp. cbn [String.eqb Ascii.eqb Bool.eqb].
      unfold enrichment_params. rewrite !dom_insert_L, dom_empty_L. set_solver.
    + intros k Hk. rewrite layers_lookup, Hk. unfold pipeline_params. rewrite Hp.
      cbn [String.eqb Ascii.eqb Bool.eqb]. unfold enrichment_params.
      destruct (String.eqb_spec k "enable-map-align") as [->|H1]; [done|].
      destruct (String.eqb_spec k "enable-variant-caller") as [->|H2]; [done|].
      destruct (String.eqb_spec k "vc-target-bed") as [->|H3];
        [by destruct (target_bed s)|].
      destruct (String.eqb_spec k "vc-target-bed-padding") as [->|H4]; [done|].
      cbn [orb]. by rewrite !lookup_insert_ne, lookup_empty by done.
  - intros Hp. split.
    + unfold pipeline_params. rewrite Hp. cbn [String.eqb Ascii.eqb Bool.eqb].
      unfold rna_params. rewrite !dom_insert_L, dom_empty_L. set_solver.
    + intros k Hk. rewrite layers_lookup, Hk. unfold pipeline_params. rewrite Hp.
      cbn [String.eqb Ascii.eqb Bool.eqb]. unfold rna_params, annotation_file.
      destruct (String.eqb_spec k "enable-rna") as [->|H1]; [done|].
      destruct (String.eqb_spec k "enable-rna-quantification") as [->|H2]; [done|].
      destruct (String.eqb_spec k "annotation-file") as [->|H3]; [done|].
      cbn [orb]. by rewrite !lookup_insert_ne, lookup_empty by done.
Qed.

End more_parameters.

Section sheet_order.

Import BatchProcessor.

Variable project_name : string.
Variable max_concurrent : Z.

(** X18. Whatever happens to the items, and to however many of them, a
    batch that is not disturbed from outside (the sheet is read, the pool
    and the files can be made) returns one row per row of the sheet, in the
    order of the sheet: the row at position [i] is the row of the [i]-th
    sample, built from that sample and from the outcome of its own commands
    alone, and one line per row is logged, in the same order. *)
Theorem results_follow_the_sheet (w : batch_world) (samples : list sample) :
  undisturbed max_concurrent w samples →
  ∃ results,
    result (process_batch project_name max_concurrent w) = Return results
    ∧ res_sample_id <$> results = sample_id <$> samples
    ∧ (∀ i s, samples !! i = Some s → results !! i = Some (row_for s (worlds w i)))
    ∧ infos (trace (process_batch project_name max_concurrent w))
      = (λ r, "Sample " +:+ res_sample_id r +:+ " " +:+ res_status r) <$> results.
Proof.
  intros Hw.
  exists (batch_rows (worlds w) samples).
  rewrite (process_batch_eq project_name max_concurrent w samples Hw).
  cbn [trace result fst snd]. split; [done|]. split; [|split].
  - apply list_eq. intros i. rewrite !list_lookup_fmap, batch_rows_lookup.
    destruct (samples !! i) as [s|]; [|done]. cbn.
    by destruct (row_for_status s (worlds w i)) as [_ ->].
  - intros i s Hs. by rewrite batch_rows_lookup, Hs.
  - unfold infos. rewrite omap_app. cbn [omap]. rewrite app_nil_r.
    induction (batch_rows (worlds w) samples) as [|r rows IH]; [done|].
    cbn. by rewrite <- IH.
Qed.

End sheet_order.

(** * Alerts of the threshold monitors, and the check of the command line tool *)

Section alerts.

Import Monitor.

Variable project_name : string.
Variable config : NotificationConfig.

(** [float(text)], [str(x)], [format(x, '.<n>f')] and the text of an
    [UnboundLocalError]. *)
Variable float_of_text : string → exn + float.
Variable float_text : float → string.
Variable fixed : nat → float → string.
Variable unbound_text : string → string.

Local Abbreviation storage_loop :=
  (storage_loop project_name config float_of_text fixed unbound_text).
Local Abbreviation costs_loop := (costs_loop project_name config fixed).
Local Abbreviation monitor_storage :=
  (monitor_storage project_name config float_of_text float_text fixed unbound_text).
Local Abbreviation monitor_costs :=
  (monitor_costs project_name config float_text fixed).
Local Abbreviation alert_s := (storage_alert_of fixed).
Local Abbreviation alert_c := (cost_alert_of fixed).
Local Abbreviation reads := (report_reads float_of_text).

Lemma warnings_app (t1 t2 : list event) :
  warnings (t1 ++ t2) = warnings t1 ++ warnings t2.
Proof. apply omap_app. Qed.

Lemma notify_warnings (subject msg : string) (d : delivery) :
  warnings (trace (notify config subject msg d)) = [].
Proof.
  unfold notify, _send_email, _send_slack.
  destruct (smtp d); [done|].
  destruct (truthy (slack_webhook config)); [|done].
  by destruct (post d).
Qed.

(** What an alert, if any, leaves in the trace. *)
Lemma alert_sent (alert : option (string * string)) (d : delivery) :
  smtp d = None →
  let m := match alert with
           | Some (subject, msg) =>
               emit (LogWarning msg);; notify config subject msg d
           | None => mret tt
           end in
  result m = Return tt
  ∧ mails (trace m) = option_list alert
  ∧ warnings (trace m) = snd <$> option_list alert
  ∧ sleeps (trace m) = [] ∧ spawned (trace m) = [].
Proof.
  intros Hs m. subst m. destruct alert as [[subject msg]|]; [|done].
  destruct (notify_delivered config subject msg d Hs) as (Hres & Hsp & Hsl).
  pose proof (notify_mails config subject msg d Hs) as Hm.
  pose proof (notify_warnings subject msg d) as Hw.
  rewrite bind_emit. cbn [trace result fst snd option_list fmap list_fmap].
  change (mails (LogWarning msg :: ?t)) with (mails t).
  change (warnings (LogWarning msg :: ?t)) with (msg :: warnings t).
  change (sleeps (LogWarning msg :: ?t)) with (sleeps t).
  change (spawned (LogWarning msg :: ?t)) with (spawned t).
  by rewrite Hres, Hm, Hw, Hsp, Hsl.
Qed.

(** An iteration of the cost monitor that reads the cost [c]. *)
Lemma costs_loop_reads (budget : float) (check_interval : Z) (p : poll) (c : float)
    (rest : list poll) :
  sleepable check_interval →
  cost_reads p c →
  ∃ t,
    costs_loop budget check_interval (p :: rest)
    = (t ++ Sleep check_interval :: trace (costs_loop budget check_interval rest),
       result (costs_loop budget check_interval rest))
    ∧ mails t = option_list (alert_c budget c)
    ∧ warnings t = snd <$> option_list (alert_c budget c)
    ∧ sleeps t = [].
Proof.
  intros Hsleep (out & err & Hq & Hc & Hs).
  cbn [Monitor.costs_loop]. rewrite Hq, subprocess_run_completed. cbv beta iota.
  cbn [Z.eqb negb]. rewrite Hc. cbn [external]. rewrite bind_mret_l.
  rewrite (time_sleep_sleepable _ Hsleep).
  unfold cost_alert_of, float_ge.
  destruct (PrimFloat.leb budget c).
  - pose proof (alert_sent (Some ("Cost Alert", Monitor.cost_alert fixed c budget))
                  (deliver p) Hs) as Ha.
    cbv zeta in Ha. destruct Ha as (Hr & Hm & Hw & Hsl & _).
    rewrite (bind_of_result _ _ _ Hr), (bind_emit (Sleep check_interval)).
    rewrite bind_emit in Hm, Hw, Hsl |- *. cbn [trace result fst snd] in *.
    eexists. split; [rewrite app_comm_cons; reflexivity|].
    split; [exact Hm|]. split; [exact Hw|exact Hsl].
  - rewrite bind_mret_l, bind_emit. cbn [trace result fst snd].
    by exists [Spawn (costs_cmd project_name)].
Qed.

Lemma costs_loop_alerts (budget : float) (check_interval : Z)
    (script : list poll) (costs : list float) :
  sleepable check_interval →
  Forall2 cost_reads script costs →
  result (costs_loop budget check_interval script) = Return Polling
  ∧ mails (trace (costs_loop budget check_interval script))
    = omap (alert_c budget) costs
  ∧ warnings (trace (costs_loop budget check_interval script))
    = (snd <$> omap (alert_c budget) costs)
  ∧ sleeps (trace (costs_loop budget check_interval script))
    = replicate (length script) check_interval.
Proof.
  intros Hsleep.
  induction 1 as [|p c script costs Hp _ (IHr & IHm & IHw & IHs)]; [done|].
  destruct (costs_loop_reads budget check_interval p c script Hsleep Hp)
    as (t & -> & Hm & Hw & Hsl).
  cbn [trace result fst snd length replicate omap list_omap].
  split; [done|].
  rewrite mails_app, warnings_app, sleeps_app, Hm, Hw, Hsl.
  change (mails (Sleep ?n :: ?t)) with (mails t).
  change (warnings (Sleep ?n :: ?t)) with (warnings t).
  change (sleeps (Sleep ?n :: ?t)) with (n :: sleeps t).
  rewrite IHm, IHw, IHs.
  by destruct (alert_c budget c).
Qed.

(** An iteration of the storage monitor that reads a report. *)
Lemma storage_loop_reads (threshold : float) (check_interval : Z) (l : levels)
    (p : poll) (f : levels → levels) (rest : list poll) :
  sleepable check_interval →
  reads p f →
  measurable (f l) →
  ∃ t,
    storage_loop threshold check_interval l (p :: rest)
    = (t ++ Sleep check_interval
           :: trace (storage_loop threshold check_interval (f l) rest),
       result (storage_loop threshold check_interval (f l) rest))
    ∧ mails t = option_list (alert_s threshold (f l))
    ∧ warnings t = snd <$> option_list (alert_s threshold (f l))
    ∧ sleeps t = [].
Proof.
  intros Hsleep (out & err & Hq & Hread & Hs) (used & total & Hl & Hzero).
  cbn [Monitor.storage_loop]. rewrite Hq, subprocess_run_completed. cbv beta iota.
  cbn [Z.eqb negb]. rewrite (Hread l), bind_Return, Hl.
  cbn [used_gb total_gb local app]. rewrite !bind_mret_l.
  unfold float_div. rewrite Hzero, bind_mret_l.
  rewrite (time_sleep_sleepable _ Hsleep).
  unfold storage_alert_of, float_ge, usage_of. cbn [used_gb total_gb].
  destruct (PrimFloat.leb threshold (PrimFloat.mul (PrimFloat.div used total) 100)).
  - pose proof (alert_sent
                  (Some ("Storage Usage Alert",
                         Monitor.storage_alert fixed
                           (PrimFloat.mul (PrimFloat.div used total) 100) used total))
                  (deliver p) Hs) as Ha.
    cbv zeta in Ha. destruct Ha as (Hr & Hm & Hw & Hsl & _).
    rewrite (bind_of_result _ _ _ Hr), (bind_emit (Sleep check_interval)).
    rewrite bind_emit in Hm, Hw, Hsl |- *. cbn [trace result fst snd] in *.
    eexists. split; [rewrite app_comm_cons; reflexivity|].
    split; [exact Hm|]. split; [exact Hw|exact Hsl].
  - rewrite bind_mret_l, bind_emit. cbn [trace result fst snd].
    by exists [Spawn (storage_cmd project_name)].
Qed.

Lemma storage_loop_alerts (threshold : float) (check_interval : Z) (l : levels)
    (script : list poll) (changes : list (levels → levels)) :
  sleepable check_interval →
  Forall2 reads script changes →
  Forall measurable (in_force changes l) →
  result (storage_loop threshold check_interval l script) = Return Polling
  ∧ mails (trace (storage_loop threshold check_interval l script))
    = omap (alert_s threshold) (in_force changes l)
  ∧ warnings (trace (storage_loop threshold check_interval l script))
    = (snd <$> omap (alert_s threshold) (in_force changes l))
  ∧ sleeps (trace (storage_loop threshold check_interval l script))
    = replicate (length script) check_interval.
Proof.
  intros Hsleep Hreads. revert l.
  induction Hreads as [|p f script changes Hp _ IH]; intros l Hm; [done|].
  cbn [in_force] in Hm. apply Forall_cons_1 in Hm as [Hl Hrest].
  destruct (IH (f l) Hrest) as (IHr & IHm & IHw & IHs).
  destruct (storage_loop_reads threshold check_interval l p f script Hsleep Hp Hl)
    as (t & -> & Hmt & Hw & Hsl).
  cbn [trace result fst snd length replicate omap list_omap in_force].
  split; [done|].
  rewrite mails_app, warnings_app, sleeps_app, Hmt, Hw, Hsl.
  change (mails (Sleep ?n :: ?t)) with (mails t).
  change (warnings (Sleep ?n :: ?t)) with (warnings t).
  change (sleeps (Sleep ?n :: ?t)) with (n :: sleeps t).
  rewrite IHm, IHw, IHs.
  by destruct (alert_s threshold (f l)).
Qed.

(** X19. As long as the queries succeed, the reports are read, the mails
    are delivered and [time.sleep] accepts the check interval, both
    monitors go on polling, sleep [check_interval] seconds after every
    poll, and send an alert, one warning in the log and one mail, exactly
    for the polls at or above the threshold, again at every poll for as
    long as the value stays there.  The cost monitor compares the cost read
    with the budget ([cost >= budget]).  The storage monitor compares
    [(used_gb / total_gb) * 100] with the threshold, for the values of
    [used_gb] and [total_gb] in force after the report was read: a value
    that the report does not give is the one of an earlier report. *)
Theorem alerts_follow_the_readings (threshold budget : float) (check_interval : Z)
    (reports : list poll) (changes : list (levels → levels))
    (queries : list poll) (costs : list float) :
  sleepable check_interval →
  Forall2 reads reports changes →
  Forall measurable (in_force changes (Levels None None)) →
  Forall2 cost_reads queries costs →
  let storage := monitor_storage threshold check_interval reports in
  let cost := monitor_costs budget check_interval queries in
  let storage_alerts :=
    omap (alert_s threshold) (in_force changes (Levels None None)) in
  (result storage = Return Polling
   ∧ mails (trace storage) = storage_alerts
   ∧ warnings (trace storage) = (snd <$> storage_alerts)
   ∧ sleeps (trace storage) = replicate (length reports) check_interval)
  ∧ (result cost = Return Polling
     ∧ mails (trace cost) = omap (alert_c budget) costs
     ∧ warnings (trace cost) = (snd <$> omap (alert_c budget) costs)
     ∧ sleeps (trace cost) = replicate (length queries) check_interval).
Proof.
  intros Hsleep Hreports Hm Hqueries storage cost storage_alerts.
  subst storage cost storage_alerts.
  rewrite (monitor_storage_eq project_name config float_of_text float_text fixed
             unbound_text),
          (monitor_costs_eq project_name config float_text fixed).
  cbn [trace result fst snd].
  change (mails (LogInfo ?m :: ?t)) with (mails t).
  change (warnings (LogInfo ?m :: ?t)) with (warnings t).
  change (sleeps (LogInfo ?m :: ?t)) with (sleeps t).
  split.
  - apply (storage_loop_alerts threshold check_interval _ reports changes
             Hsleep Hreports Hm).
  - apply (costs_loop_alerts budget check_interval queries costs Hsleep Hqueries).
Qed.

End alerts.

Section cli_check.

Import IcaCli.

Context {unicode : PyStr.UnicodeLower}.

(** X20. [check_ica_cli] tells that the tool is usable when the version command
    ends with status 0, and that it is not when the command ends with
    another status or the executable is missing.  Any other exception of
    the attempt to run it is not caught.  Each of the four scripts starts
    with this check: when it gives [False] the script prints the two lines
    of the installation hint and ends with status 1 having run nothing
    else, and when it raises the script ends with that exception. *)
Theorem only_a_missing_executable_counts_as_not_installed (r : proc_result) :
  check_ica_cli r
  = ([Spawn version_cmd],
     match r with
     | Completed rc _ _ => Return (rc =? 0)
     | SpawnRaised e =>
         if decide (exn_cls e = FileNotFoundError) then Return false else Raise e
     end)
  ∧ (result (check_ica_cli r) = Return false →
     ∀ exe path abspath wa ww da dw pa pw ua uw,
       Workflow.cli_check ww = r → Download.cli_check dw = r →
       trace print_cli_missing
       = [Stdout "Error: ICA CLI not found. Please install and configure the ICA CLI first.";
          Stdout "Installation instructions: https://help.ica.illumina.com/command-line/latest/install"]
       ∧ Workflow.main exe path wa ww
         = (Spawn version_cmd :: trace print_cli_missing, Return 1)
       ∧ Download.main da dw
         = (Spawn version_cmd :: trace print_cli_missing, Return (Finished 1))
       ∧ Pipeline.main pa r pw
         = (Spawn version_cmd :: trace print_cli_missing, Return 1)
       ∧ Upload.main abspath ua r uw
         = (Spawn version_cmd :: trace print_cli_missing, Return 1))
  ∧ (∀ e, result (check_ica_cli r) = Raise e →
     ∀ exe path abspath wa ww da dw pa pw ua uw,
       Workflow.cli_check ww = r → Download.cli_check dw = r →
       Workflow.main exe path wa ww = ([Spawn version_cmd], Raise e)
       ∧ Download.main da dw = ([Spawn version_cmd], Raise e)
       ∧ Pipeline.main pa r pw = ([Spawn version_cmd], Raise e)
       ∧ Upload.main abspath ua r uw = ([Spawn version_cmd], Raise e)).
Proof.
  assert (Hc : check_ica_cli r
               = ([Spawn version_cmd],
                  match r with
                  | Completed rc _ _ => Return (rc =? 0)
                  | SpawnRaised e =>
                      if decide (exn_cls e = FileNotFoundError)
                      then Return false else Raise e
                  end)).
  { unfold check_ica_cli, try_except_cls. destruct r as [rc out err|e]; [done|].
    cbn. by destruct (decide (exn_cls e = FileNotFoundError)). }
  split; [done|]. split.
  - intros Hf exe path abspath wa ww da dw pa pw ua uw Hw Hd.
    unfold Workflow.main, Download.main, Pipeline.main, Upload.main.
    rewrite Hw, Hd. rewrite Hc in Hf |- *. cbn [result snd] in Hf. rewrite Hf.
    by rewrite !bind_Return.
  - intros e He exe path abspath wa ww da dw pa pw ua uw Hw Hd.
    unfold Workflow.main, Download.main, Pipeline.main, Upload.main.
    rewrite Hw, Hd. rewrite Hc in He |- *. cbn [result snd] in He. rewrite He.
    by rewrite !bind_Raise.
Qed.

End cli_check.


(** ** The scripts built on the SDK *)

Section sdk_computations.

Import Sdk.

Lemma sdk_eta {A : Type} (m : sdk A) : (actions m, ended m) = m.
Proof. by destruct m. Qed.

Lemma sdk_bind_returned {A B : Type} (t : list action) (a : A) (k : A → sdk B) :
  (t, Returned a) ≫= k = (t ++ actions (k a), ended (k a)).
Proof. unfold mbind, sdk_bind, actions, ended. by destruct (k a). Qed.

Lemma sdk_bind_act {B : Type} (a : action) (m : sdk B) :
  act a ≫= (λ _, m) = (a :: actions m, ended m).
Proof. unfold act. by rewrite sdk_bind_returned. Qed.

Lemma sdk_bind_mret {A B : Type} (a : A) (k : A → sdk B) : mret a ≫= k = k a.
Proof.
  unfold mret, sdk_ret. rewrite sdk_bind_returned. unfold actions, ended.
  by destruct (k a).
Qed.

Lemma sdk_bind_of_returned {A B : Type} (m : sdk A) (a : A) (k : A → sdk B) :
  ended m = Returned a →
  m ≫= k = (actions m ++ actions (k a), ended (k a)).
Proof. intros H. by rewrite <- (sdk_eta m), H, sdk_bind_returned. Qed.

Lemma sdk_bind_of_raised {A B : Type} (m : sdk A) (x : sdk_exn) (k : A → sdk B) :
  ended m = Raised x → m ≫= k = (actions m, Raised x).
Proof. intros H. by rewrite <- (sdk_eta m), H. Qed.

Lemma sdk_bind_of_exited {A B : Type} (m : sdk A) (code : Z) (k : A → sdk B) :
  ended m = Exited code → m ≫= k = (actions m, Exited code).
Proof. intros H. by rewrite <- (sdk_eta m), H. Qed.

Lemma sdk_bind_call {A B : Type} (a : action) (r : sdk_exn + A) (k : A → sdk B) :
  call a r ≫= k
  = match r with
    | inl x => ([a], Raised x)
    | inr v => (a :: actions (k v), ended (k v))
    end.
Proof.
  unfold call. destruct r as [x|v].
  - by rewrite sdk_bind_act.
  - rewrite sdk_bind_act. cbn [actions ended mret sdk_ret fst snd].
    by rewrite sdk_bind_returned.
Qed.

Lemma sdk_bind_effect {B : Type} (a : action) (raised : option sdk_exn) (m : sdk B) :
  effect a raised ≫= (λ _, m)
  = match raised with
    | Some x => ([a], Raised x)
    | None => (a :: actions m, ended m)
    end.
Proof.
  unfold effect. destruct raised as [x|].
  - by rewrite sdk_bind_act.
  - rewrite sdk_bind_act. cbn [actions ended mret sdk_ret fst snd].
    by rewrite sdk_bind_returned.
Qed.

Lemma authenticate_without_key (env : gmap string string) (construct : option sdk_exn) :
  truthy (env !! "ICA_API_KEY") = false →
  authenticate_ica env construct = ([Out no_key_line], Exited 1).
Proof. intros H. unfold authenticate_ica. by rewrite H. Qed.

Lemma authenticate_cases (env : gmap string string) (construct : option sdk_exn) :
  (∃ c, authenticate_ica env construct = ([], Returned c))
  ∨ (∃ line, authenticate_ica env construct = ([Out line], Exited 1)).
Proof.
  unfold authenticate_ica.
  destruct (truthy (env !! "ICA_API_KEY")); [|right; by eexists].
  destruct construct as [x|]; [right|left]; by eexists.
Qed.

Lemma pauses_app (t1 t2 : list action) : pauses (t1 ++ t2) = pauses t1 ++ pauses t2.
Proof. apply omap_app. Qed.

Lemma api_calls_app (t1 t2 : list action) :
  api_calls (t1 ++ t2) = api_calls t1 ++ api_calls t2.
Proof. apply List.filter_app. Qed.

Lemma pause_sleepable (seconds : Z) :
  sleepable seconds → pause seconds = act (Pause seconds).
Proof.
  intros [H0 Hmax]. unfold pause.
  assert ((sleep_max <? Z.abs seconds) = false) as -> by lia.
  by assert ((seconds <? 0) = false) as -> by lia.
Qed.

Lemma pause_refused (seconds : Z) :
  ¬ sleepable seconds → ∃ e, pause seconds = ([], Raised (OtherException e)).
Proof.
  intros H. unfold pause, sleepable in *.
  destruct (sleep_max <? Z.abs seconds) eqn:E1; [by eexists|].
  destruct (seconds <? 0) eqn:E2; [by eexists|]. lia.
Qed.

Lemma check_once_waiting (project_id analysis_id : string) (interval : Z)
    (reply : sdk_exn + string) :
  sleepable interval →
  keeps_waiting reply = true →
  ∃ status, reply = inr status
    ∧ DownloadResults.check_once project_id analysis_id interval reply
      = ([GetAnalysis project_id analysis_id; Out ("Current status: " +:+ status);
          Pause interval], Returned None).
Proof.
  intros Hsleep.
  destruct reply as [x|status]; [done|]. cbn [keeps_waiting].
  intros [H1 H2]%andb_true_iff. apply negb_true_iff in H1, H2.
  exists status. split; [done|].
  unfold DownloadResults.check_once. rewrite sdk_bind_call, sdk_bind_act.
  by rewrite H1, H2, (pause_sleepable _ Hsleep).
Qed.

(** With an interval that [time.sleep] refuses, the exception of the sleep
    leaves the function: the [except] clause takes an [ApiException] only. *)
Lemma check_once_refused (project_id analysis_id : string) (interval : Z)
    (reply : sdk_exn + string) :
  ¬ sleepable interval →
  keeps_waiting reply = true →
  ∃ status e, reply = inr status
    ∧ DownloadResults.check_once project_id analysis_id interval reply
      = ([GetAnalysis project_id analysis_id; Out ("Current status: " +:+ status)],
         Raised (OtherException e)).
Proof.
  intros Hsleep.
  destruct reply as [x|status]; [done|]. cbn [keeps_waiting].
  intros [H1 H2]%andb_true_iff. apply negb_true_iff in H1, H2.
  destruct (pause_refused _ Hsleep) as [e He].
  exists status, e. split; [done|].
  unfold DownloadResults.check_once. rewrite sdk_bind_call, sdk_bind_act.
  by rewrite H1, H2, He.
Qed.

Lemma check_once_final (project_id analysis_id : string) (interval : Z)
    (reply : sdk_exn + string) :
  keeps_waiting reply = false →
  let turn := DownloadResults.check_once project_id analysis_id interval reply in
  api_calls (actions turn) = [GetAnalysis project_id analysis_id]
  ∧ pauses (actions turn) = []
  ∧ ended (turn ≫= λ v, match v with
                         | Some b => mret (Finished b)
                         | None => mret Polling
                         end) = verdict reply.
Proof.
  intros H turn. subst turn. revert H.
  destruct reply as [[text|e]|status]; cbn [keeps_waiting]; intros H;
    unfold DownloadResults.check_once; rewrite sdk_bind_call.
  - done.
  - done.
  - rewrite sdk_bind_act. cbn [verdict].
    destruct (String.eqb status "SUCCEEDED"); [done|].
    destruct (DownloadResults.ended_badly status); done.
Qed.

Lemma completion_loop_waiting (project_id analysis_id : string) (interval : Z)
    (pend tail : list (sdk_exn + string)) :
  sleepable interval →
  Forall (λ reply, keeps_waiting reply = true) pend →
  let run := DownloadResults.completion_loop project_id analysis_id interval in
  pauses (actions (run (pend ++ tail)))
  = replicate (length pend) interval ++ pauses (actions (run tail))
  ∧ api_calls (actions (run (pend ++ tail)))
    = replicate (length pend) (GetAnalysis project_id analysis_id)
      ++ api_calls (actions (run tail))
  ∧ ended (run (pend ++ tail)) = ended (run tail).
Proof.
  intros Hsleep Hpend run. subst run.
  induction Hpend as [|reply pend Hreply _ IH]; [done|].
  destruct (check_once_waiting project_id analysis_id interval reply Hsleep Hreply)
    as (status & -> & Hturn).
  destruct IH as (IH1 & IH2 & IH3).
  cbn [app DownloadResults.completion_loop length replicate].
  rewrite Hturn, sdk_bind_returned. cbn [actions ended fst snd].
  cbn [app pauses omap list_omap api_calls List.filter is_api_call].
  fold (pauses (actions (DownloadResults.completion_loop project_id analysis_id
                            interval (pend ++ tail)))).
  fold (api_calls (actions (DownloadResults.completion_loop project_id analysis_id
                               interval (pend ++ tail)))).
  by rewrite IH1, IH2, IH3.
Qed.

Lemma completion_loop_final (project_id analysis_id : string) (interval : Z)
    (final : sdk_exn + string) (rest : list (sdk_exn + string)) :
  keeps_waiting final = false →
  let run := DownloadResults.completion_loop project_id analysis_id interval
               (final :: rest) in
  api_calls (actions run) = [GetAnalysis project_id analysis_id]
  ∧ pauses (actions run) = []
  ∧ ended run = verdict final.
Proof.
  intros H run. subst run. revert H.
  destruct final as [[text|e]|status]; cbn [keeps_waiting]; intros H;
    cbn [DownloadResults.completion_loop]; unfold DownloadResults.check_once;
    rewrite sdk_bind_call.
  - done.
  - done.
  - rewrite sdk_bind_act. cbn [verdict].
    destruct (String.eqb status "SUCCEEDED"); [done|].
    destruct (DownloadResults.ended_badly status); done.
Qed.

Lemma outs_app (t1 t2 : list action) : outs (t1 ++ t2) = outs t1 ++ outs t2.
Proof. apply omap_app. Qed.


Lemma last_outs_snoc (t : list action) (line : string) :
  last (outs (t ++ [Out line])) = Some line.
Proof. rewrite outs_app. cbn [outs omap list_omap]. by rewrite last_snoc. Qed.



Lemma wait_for_analysis_completion_eq (project_id analysis_id : string)
    (interval : Z) (script : list (sdk_exn + string)) :
  DownloadResults.wait_for_analysis_completion project_id analysis_id interval script
  = (Out ("Monitoring analysis " +:+ analysis_id +:+ "...")
       :: actions (DownloadResults.completion_loop project_id analysis_id interval
                     script),
     ended (DownloadResults.completion_loop project_id analysis_id interval script)).
Proof.
  unfold DownloadResults.wait_for_analysis_completion. by rewrite sdk_bind_act.
Qed.


Section download_loop.

Variable path_join : string → string → string.
Variable dirname : string → string.



End download_loop.

Lemma uploads_app (t1 t2 : list action) : uploads (t1 ++ t2) = uploads t1 ++ uploads t2.
Proof. apply omap_app. Qed.

Lemma completions_app (t1 t2 : list action) :
  completions (t1 ++ t2) = completions t1 ++ completions t2.
Proof. apply omap_app. Qed.

Section upload_loop.

Variable abspath : string → string.
Variable path_join : string → string → string.
Variable relpath : string → string → string.

Lemma upload_files_cases (session_id folder_path : string)
    (per_file : nat → FolderUpload.file_world) (i : nat)
    (files : list (string * string)) :
  let run := FolderUpload.upload_files path_join relpath session_id folder_path
               per_file i files in
  completions (actions run) = []
  ∧ api_calls (actions run)
    = (λ s, UploadFolderSessionFile s.1 s.2) <$> uploads (actions run)
  ∧ ((ended run = Returned tt
      ∧ uploads (actions run)
        = sending_of path_join relpath session_id folder_path <$> files)
     ∨ (∃ x, ended run = Raised x
          ∧ uploads (actions run)
            `prefix_of` sending_of path_join relpath session_id folder_path
                        <$> files)).
Proof.
  intros run. subst run. revert i.
  induction files as [|[root file] rest IH]; intros i; [by split; [|split; [|left]]|].
  cbn [FolderUpload.upload_files fmap list_fmap].
  rewrite sdk_bind_act, sdk_bind_effect.
  destruct (FolderUpload.fw_open (per_file i)) as [x|].
  { split; [done|]. split; [done|]. right. exists x. split; [done|].
    apply prefix_nil. }
  rewrite sdk_bind_effect.
  destruct (FolderUpload.fw_upload (per_file i)) as [x|].
  { split; [done|]. split; [done|]. right. exists x. split; [done|].
    cbn [actions ended fst snd uploads omap list_omap].
    apply prefix_cons, prefix_nil. }
  cbn [actions ended fst snd].
  destruct (IH (S i)) as (Hc & Ha & Hu).
  split; [exact Hc|]. split.
  { cbn [api_calls List.filter is_api_call uploads omap list_omap fmap list_fmap
         fst snd].
    f_equal. exact Ha. }
  cbn [uploads omap list_omap].
  fold (uploads (actions (FolderUpload.upload_files path_join relpath session_id
                            folder_path per_file (S i) rest))).
  destruct Hu as [[-> ->]|(x & -> & Hpre)].
  - by left.
  - right. exists x. split; [done|]. by apply prefix_cons.
Qed.

Lemma upload_folder_cases (folder_path project_id : string) (w : FolderUpload.world) :
  let run := FolderUpload.upload_folder abspath path_join relpath folder_path
               project_id w in
  let sends := sending_of path_join relpath (session_id_of w) (abspath folder_path)
               <$> FolderUpload.walk_files (FolderUpload.walk w) in
  (∃ folder_id,
     ended run = Returned folder_id
     ∧ FolderUpload.complete w = inr folder_id
     ∧ FolderUpload.is_dir w = true
     ∧ completions (actions run) = [session_id_of w]
     ∧ uploads (actions run) = sends
     ∧ api_calls (actions run)
       = CreateFolderUploadSession project_id (PyStr.basename (abspath folder_path))
         :: ((λ s, UploadFolderSessionFile s.1 s.2) <$> sends)
         ++ [CompleteFolderUploadSession (session_id_of w)])
  ∨ (ended run = Exited 1
     ∧ uploads (actions run) `prefix_of` sends
     ∧ (completions (actions run) = []
        ∨ ((∃ x, FolderUpload.complete w = inl x)
           ∧ completions (actions run) = [session_id_of w]
           ∧ uploads (actions run) = sends))).
Proof.
  intros run sends. subst run sends. unfold FolderUpload.upload_folder.
  assert (Hexit : ∀ (t : list action) (x : sdk_exn),
            ∃ line,
              except_api_any (A := string) (t, Raised x)
                (λ text, act (Out ("API error occurred: " +:+ text));; sys_exit 1)
                (λ text, act (Out ("An error occurred: " +:+ text));; sys_exit 1)
              = (t ++ [Out line], Exited 1)).
  { intros t [text|e]; by eexists. }
  destruct (FolderUpload.is_dir w); cbn [negb].
  2:{ right. split; [done|]. split; [apply prefix_nil|]. by left. }
  destruct (authenticate_cases (FolderUpload.env w) (FolderUpload.construct w))
    as [[c ->]|[line ->]].
  2:{ right. split; [done|]. split; [apply prefix_nil|]. by left. }
  rewrite sdk_bind_returned. cbn [app]. rewrite sdk_eta, sdk_bind_call.
  unfold session_id_of.
  destruct (FolderUpload.session w) as [x|session_id].
  { right. destruct (Hexit [CreateFolderUploadSession project_id
                              (PyStr.basename (abspath folder_path))] x)
      as (line & ->).
    split; [done|]. split; [apply prefix_nil|]. by left. }
  rewrite sdk_bind_act.
  destruct (upload_files_cases session_id (abspath folder_path)
              (FolderUpload.per_file w) 0 (FolderUpload.walk_files (FolderUpload.walk w)))
    as (Hc & Ha & [[Hend Hu]|(x & Hend & Hpre)]).
  - rewrite (sdk_bind_of_returned _ tt _ Hend), sdk_bind_call.
    destruct (FolderUpload.complete w) as [x|folder_id].
    + right. cbn [actions ended fst snd].
      match goal with
      | |- context [except_api_any (?t, Raised x) _ _] =>
          destruct (Hexit t x) as (line & ->)
      end.
      cbn [actions ended fst snd]. split; [done|].
      rewrite !app_comm_cons, <- !app_assoc, uploads_app, completions_app.
      cbn [uploads completions omap list_omap app].
      fold (uploads (actions (FolderUpload.upload_files path_join relpath session_id
                                (abspath folder_path) (FolderUpload.per_file w) 0
                                (FolderUpload.walk_files (FolderUpload.walk w))))).
      fold (completions (actions (FolderUpload.upload_files path_join relpath
                                    session_id (abspath folder_path)
                                    (FolderUpload.per_file w) 0
                                    (FolderUpload.walk_files (FolderUpload.walk w))))).
      rewrite Hc, Hu, app_nil_r. split; [done|]. right.
      split; [by eexists|]. done.
    + left. exists folder_id. rewrite sdk_bind_act.
      cbn [actions ended fst snd except_api_any mret sdk_ret].
      split; [done|]. split; [done|]. split; [done|].
      rewrite !app_comm_cons, uploads_app, completions_app, api_calls_app.
      cbn [uploads completions omap list_omap app api_calls List.filter is_api_call].
      fold (uploads (actions (FolderUpload.upload_files path_join relpath session_id
                                (abspath folder_path) (FolderUpload.per_file w) 0
                                (FolderUpload.walk_files (FolderUpload.walk w))))).
      fold (completions (actions (FolderUpload.upload_files path_join relpath
                                    session_id (abspath folder_path)
                                    (FolderUpload.per_file w) 0
                                    (FolderUpload.walk_files (FolderUpload.walk w))))).
      fold (api_calls (actions (FolderUpload.upload_files path_join relpath
                                  session_id (abspath folder_path)
                                  (FolderUpload.per_file w) 0
                                  (FolderUpload.walk_files (FolderUpload.walk w))))).
      rewrite Hc, Ha, Hu, app_nil_r. done.
  - right. rewrite (sdk_bind_of_raised _ x _ Hend).
    cbn [actions ended fst snd].
    match goal with
    | |- context [except_api_any (?t, Raised x) _ _] =>
        destruct (Hexit t x) as (line & ->)
    end.
    cbn [actions ended fst snd]. split; [done|].
    rewrite uploads_app, completions_app.
    cbn [uploads completions omap list_omap app].
    fold (uploads (actions (FolderUpload.upload_files path_join relpath session_id
                              (abspath folder_path) (FolderUpload.per_file w) 0
                              (FolderUpload.walk_files (FolderUpload.walk w))))).
    fold (completions (actions (FolderUpload.upload_files path_join relpath
                                  session_id (abspath folder_path)
                                  (FolderUpload.per_file w) 0
                                  (FolderUpload.walk_files (FolderUpload.walk w))))).
    rewrite Hc, !app_nil_r. split; [exact Hpre|by left].
Qed.

End upload_loop.

Lemma start_dragen_pipeline_cases (project_id folder_id pipeline_id : string)
    (params : sdk_exn + list (string * pyval)) (w : FolderUpload.world) :
  let run := FolderUpload.start_dragen_pipeline project_id folder_id pipeline_id
               params w in
  (∃ analysis_id items,
     ended run = Returned analysis_id
     ∧ params = inr items
     ∧ FolderUpload.analysis w = inr analysis_id
     ∧ actions run
       = [CreatePipelineAnalysis project_id pipeline_id folder_id items;
          Out ("Started DRAGEN pipeline analysis. Analysis ID: " +:+ analysis_id)])
  ∨ ended run = Exited 1.
Proof.
  intros run. subst run. unfold FolderUpload.start_dragen_pipeline.
  destruct (authenticate_cases (FolderUpload.env w) (FolderUpload.construct w))
    as [[c ->]|[line ->]]; [|by right].
  rewrite sdk_bind_returned. cbn [app]. rewrite sdk_eta.
  destruct params as [[text|e]|items]; [by right|by right|].
  rewrite sdk_bind_mret, sdk_bind_call.
  destruct (FolderUpload.analysis w) as [[text|e]|analysis_id]; [by right|by right|].
  left. by exists analysis_id, items.
Qed.

End sdk_computations.

Section sdk_scripts.

Import Sdk.

(** [os.path.abspath], [os.path.join], [os.path.dirname] and
    [os.path.relpath]. *)
Variable abspath : string → string.
Variable path_join : string → string → string.
Variable dirname : string → string.
Variable relpath : string → string → string.

(** X21. Without a key in [ICA_API_KEY] (unset or empty) both scripts stop at
    the authentication: the results script prints the one line and exits with
    status 1; so does the upload script for a folder that exists, the exit
    passing through the [except Exception] clause of [upload_folder]; neither
    makes an API call. *)
Theorem without_api_key_no_call_is_made (env : gmap string string) :
  truthy (env !! "ICA_API_KEY") = false →
  (∀ a w, DownloadResults.env w = env →
     DownloadResults.main path_join dirname a w = ([Out no_key_line], Exited 1))
  ∧ (∀ a w, FolderUpload.env w = env → FolderUpload.is_dir w = true →
       FolderUpload.main abspath path_join relpath a w
       = ([Out no_key_line], Exited 1))
  ∧ (∀ a w, FolderUpload.env w = env →
       api_calls (actions (FolderUpload.main abspath path_join relpath a w)) = []
       ∧ ended (FolderUpload.main abspath path_join relpath a w) = Exited 1).
Proof.
  intros Hkey. split; [|split].
  - intros a w <-. unfold DownloadResults.main.
    by rewrite authenticate_without_key.
  - intros a w <- Hdir. unfold FolderUpload.main, FolderUpload.upload_folder.
    rewrite Hdir. cbn [negb]. by rewrite authenticate_without_key.
  - intros a w <-. unfold FolderUpload.main, FolderUpload.upload_folder.
    destruct (FolderUpload.is_dir w); cbn [negb].
    + by rewrite authenticate_without_key.
    + done.
Qed.

(** X22. [wait_for_analysis_completion] has no limit on the number of polls.
    With an interval that [time.sleep] accepts it sleeps the polling interval
    once for each status that is neither SUCCEEDED nor FAILED, CANCELLED or
    TERMINATED: after [n] such replies it is still waiting; a reply that
    ends the wait is the last one asked for: the value is [True] exactly
    for SUCCEEDED, an [ApiException] gives [False], and another exception
    leaves the function.  With an interval that [time.sleep] refuses
    (negative, or too large), the first such status ends the wait: the
    exception of the sleep is not an [ApiException] and leaves the function
    after the one call, with no sleep. *)
Theorem completion_wait_pauses_once_for_each_pending_status
    (project_id analysis_id : string) (interval : Z)
    (pend rest : list (sdk_exn + string)) (final : sdk_exn + string) :
  Forall (λ reply, keeps_waiting reply = true) pend →
  keeps_waiting final = false →
  let wait := DownloadResults.wait_for_analysis_completion project_id analysis_id
                interval in
  (sleepable interval →
     (ended (wait pend) = Returned Polling
      ∧ pauses (actions (wait pend)) = replicate (length pend) interval)
     ∧ ended (wait (pend ++ final :: rest)) = verdict final
     ∧ pauses (actions (wait (pend ++ final :: rest)))
       = replicate (length pend) interval
     ∧ api_calls (actions (wait (pend ++ final :: rest)))
       = replicate (S (length pend)) (GetAnalysis project_id analysis_id))
  ∧ (¬ sleepable interval → pend ≠ [] →
       ∀ tail, ∃ e,
         ended (wait (pend ++ tail)) = Raised (OtherException e)
         ∧ pauses (actions (wait (pend ++ tail))) = []
         ∧ api_calls (actions (wait (pend ++ tail)))
           = [GetAnalysis project_id analysis_id]).
Proof.
  intros Hpend Hfinal wait. subst wait. split.
  - intros Hsleep.
    unfold DownloadResults.wait_for_analysis_completion.
    rewrite !sdk_bind_act. cbn [actions ended fst snd].
    cbn [pauses omap list_omap api_calls List.filter is_api_call].
    fold (pauses (actions (DownloadResults.completion_loop project_id analysis_id
                              interval pend))).
    fold (pauses (actions (DownloadResults.completion_loop project_id analysis_id
                              interval (pend ++ final :: rest)))).
    fold (api_calls (actions (DownloadResults.completion_loop project_id analysis_id
                                 interval (pend ++ final :: rest)))).
    destruct (completion_loop_waiting project_id analysis_id interval pend []
                Hsleep Hpend) as (P1 & _ & P3).
    destruct (completion_loop_waiting project_id analysis_id interval pend
                (final :: rest) Hsleep Hpend) as (Q1 & Q2 & Q3).
    destruct (completion_loop_final project_id analysis_id interval final rest Hfinal)
      as (F1 & F2 & F3).
    rewrite app_nil_r in P1, P3. cbn [DownloadResults.completion_loop] in P1, P3.
    rewrite P1, P3, Q1, Q2, Q3, F1, F2, F3, app_nil_r.
    repeat split; try done.
    + by rewrite app_nil_r.
    + by rewrite replicate_snoc.
  - intros Hsleep Hne tail.
    destruct Hpend as [|reply pend Hreply _]; [done|].
    destruct (check_once_refused project_id analysis_id interval reply Hsleep Hreply)
      as (status & e & -> & Hturn).
    exists e. rewrite wait_for_analysis_completion_eq.
    cbn [app DownloadResults.completion_loop]. by rewrite Hturn.
Qed.




(** X26. The upload script raises only in one case: a pipeline id is given, the
    text of [--pipeline-params] is not valid JSON, and the folder has been
    uploaded.  The parameters are read after the upload: the exception of
    [json.loads] leaves the script when the upload session is already
    completed, and nothing is done after it. *)
Theorem pipeline_parameters_are_read_after_the_upload
    (a : FolderUpload.args) (w : FolderUpload.world) (x : sdk_exn) :
  let run := FolderUpload.main abspath path_join relpath a w in
  let upload := FolderUpload.upload_folder abspath path_join relpath
                  (FolderUpload.folder_path a) (FolderUpload.project_id a) w in
  (ended run = Raised x ↔
     truthy (FolderUpload.pipeline_id a) = true
     ∧ (∃ e, FolderUpload.params_json w = inl e ∧ x = OtherException e)
     ∧ ∃ folder_id, ended upload = Returned folder_id)
  ∧ (ended run = Raised x →
       actions run = actions upload
       ∧ completions (actions run) = [session_id_of w]).
Proof.
  intros run upload.
  pose proof (upload_folder_cases abspath path_join relpath
                (FolderUpload.folder_path a) (FolderUpload.project_id a) w) as H.
  cbv zeta in H. fold upload in H.
  assert (Hrun : run = upload ≫= λ folder_id,
            if truthy (FolderUpload.pipeline_id a) then
              params ← match FolderUpload.params_json w with
                       | inl e => throw (OtherException e)
                       | inr params => mret params
                       end;
              analysis_id ← FolderUpload.start_dragen_pipeline
                              (FolderUpload.project_id a) folder_id
                              (default "" (FolderUpload.pipeline_id a)) params w;
              act (Out ("Pipeline started successfully. You can monitor the analysis using the analysis ID: "
                        +:+ analysis_id))
            else mret tt) by done.
  rewrite Hrun. clear Hrun.
  destruct H as [(folder_id & Hend & _ & _ & Hcomp & _)|(Hend & _)].
  2:{ rewrite (sdk_bind_of_exited _ 1 _ Hend). cbn [ended snd]. rewrite Hend.
      split; [|done]. split; [done|]. by intros (_ & _ & fid & ?). }
  rewrite (sdk_bind_of_returned _ folder_id _ Hend), Hend.
  destruct (truthy (FolderUpload.pipeline_id a)).
  2:{ cbn [actions ended fst snd mret sdk_ret]. split; [|done].
      split; [done|]. by intros (? & _). }
  destruct (FolderUpload.params_json w) as [e|params].
  - cbn [actions ended fst snd throw mbind sdk_bind]. rewrite app_nil_r. split.
    + split.
      * intros [= <-]. split; [done|]. split; by eexists.
      * intros (_ & (e' & [= <-] & ->) & _). done.
    + done.
  - rewrite sdk_bind_mret.
    destruct (start_dragen_pipeline_cases (FolderUpload.project_id a) folder_id
                (default "" (FolderUpload.pipeline_id a)) params w)
      as [(analysis_id & items & Hstart & _)|Hstart].
    + rewrite (sdk_bind_of_returned _ analysis_id _ Hstart).
      cbn [actions ended fst snd act]. split; [|done]. split; [done|].
      by intros (_ & (e & ? & _) & _).
    + rewrite (sdk_bind_of_exited _ 1 _ Hstart).
      cbn [actions ended fst snd]. split; [|done]. split; [done|].
      by intros (_ & (e & ? & _) & _).
Qed.

(** X27. When the upload script runs to its end, the folder was uploaded; with a
    pipeline id the one analysis started is on the folder id that completing
    the upload session returned, with the parameters of the JSON object in
    their order, and the last line printed names the id of that analysis;
    without one (none given, or the empty text) nothing follows the upload. *)
Theorem analysis_is_started_on_the_uploaded_folder
    (a : FolderUpload.args) (w : FolderUpload.world) :
  ended (FolderUpload.main abspath path_join relpath a w) = Returned tt →
  ∃ folder_id,
    ended (FolderUpload.upload_folder abspath path_join relpath
             (FolderUpload.folder_path a) (FolderUpload.project_id a) w)
    = Returned folder_id
    ∧ FolderUpload.complete w = inr folder_id
    ∧ if truthy (FolderUpload.pipeline_id a) then
        ∃ items analysis_id,
          FolderUpload.params_json w = inr (inr items)
          ∧ FolderUpload.analysis w = inr analysis_id
          ∧ api_calls (actions (FolderUpload.main abspath path_join relpath a w))
            = api_calls (actions (FolderUpload.upload_folder abspath path_join
                                    relpath (FolderUpload.folder_path a)
                                    (FolderUpload.project_id a) w))
              ++ [CreatePipelineAnalysis (FolderUpload.project_id a)
                    (default "" (FolderUpload.pipeline_id a)) folder_id items]
          ∧ last (outs (actions (FolderUpload.main abspath path_join relpath a w)))
            = Some ("Pipeline started successfully. You can monitor the analysis using the analysis ID: "
                    +:+ analysis_id)
      else
        actions (FolderUpload.main abspath path_join relpath a w)
        = actions (FolderUpload.upload_folder abspath path_join relpath
                     (FolderUpload.folder_path a) (FolderUpload.project_id a) w).
Proof.
  unfold FolderUpload.main.
  destruct (upload_folder_cases abspath path_join relpath
              (FolderUpload.folder_path a) (FolderUpload.project_id a) w)
    as [(folder_id & Hend & Hc & _)|(Hend & _)].
  2:{ by rewrite (sdk_bind_of_exited _ 1 _ Hend). }
  rewrite (sdk_bind_of_returned _ folder_id _ Hend), Hend.
  destruct (truthy (FolderUpload.pipeline_id a)).
  2:{ intros _. exists folder_id. cbn [actions ended fst snd mret sdk_ret].
      by rewrite app_nil_r. }
  destruct (FolderUpload.params_json w) as [e|params]; [done|].
  rewrite sdk_bind_mret.
  destruct (start_dragen_pipeline_cases (FolderUpload.project_id a) folder_id
              (default "" (FolderUpload.pipeline_id a)) params w)
    as [(analysis_id & items & Hstart & -> & Han & Hact)|Hstart].
  2:{ by rewrite (sdk_bind_of_exited _ 1 _ Hstart). }
  rewrite (sdk_bind_of_returned _ analysis_id _ Hstart), Hact.
  intros _. exists folder_id. split; [done|]. split; [done|].
  exists items, analysis_id. split; [done|]. split; [done|].
  cbn [actions ended fst snd act app]. split.
  - by rewrite api_calls_app.
  - change (?t ++ [?c; ?o; Out ?l]) with (t ++ [c; o] ++ [Out l]).
    rewrite app_assoc. apply last_outs_snoc.
Qed.

End sdk_scripts.
(** * The properties on concrete runs *)

Section concrete_runs.

#[local] Existing Instance ascii_names.

Lemma started_analysis_id_is_read_back_witness :
  result (Workflow.run_pipeline "python3" scripts_in_opt
            "Demo" "dragen-germline" "run7" (Some "params.json") None
            (Completed 0
               (printed (trace (Pipeline.main args_start (Completed 0 "ica 2.21" "")
                                  (world_started (Some " a-42 ")))))
               ""))
  = Return (Some (PyStr.strip (Pipeline.id_text (Some " a-42 ")))).
Proof.
  apply (started_analysis_id_is_read_back "python3" scripts_in_opt args_start
           (Completed 0 "ica 2.21" "") (world_started (Some " a-42 "))
           (Some " a-42 ")); reflexivity.
Defined.

(** A reply of the start command without ['id'] is read back as the text
    [None]. *)
Example missing_id_is_read_back_as_None :
  result (Pipeline.main args_start (Completed 0 "ica 2.21" "") (world_started None))
    = Return 0
  ∧ result (Workflow.run_pipeline "python3" scripts_in_opt
              "Demo" "dragen-germline" "run7" (Some "params.json") None
              (Completed 0
                 (printed (trace (Pipeline.main args_start (Completed 0 "ica 2.21" "")
                                    (world_started None))))
                 ""))
    = Return (Some "None").
Proof. split; reflexivity. Qed.

Lemma three_pending_in_progress : Forall reply_in_progress three_pending.
Proof. repeat constructor; by eexists _, _, _, _. Qed.

Lemma poller_sleeps_once_for_each_pending_reply_witness :
  result (Download.wait_for_analysis "a-42" 60 three_pending) = Return Polling
  ∧ spawned (trace (Download.wait_for_analysis "a-42" 60 three_pending))
    = replicate 3 (Download.history_cmd "a-42")
  ∧ sleeps (trace (Download.wait_for_analysis "a-42" 60 three_pending))
    = replicate 3 60.
Proof.
  assert (Hsleep : sleepable 60) by (unfold sleepable, sleep_max; lia).
  exact (proj1 (proj1 (poller_sleeps_once_for_each_pending_reply "a-42" 60
                         three_pending three_pending_in_progress) Hsleep)).
Defined.

Lemma exit_status_zero_means_downloaded_witness :
  ∃ (pid fid out err : string) (sw : Download.status_world),
    pid ≠ "" ∧ fid ≠ ""
    ∧ result (IcaCli.get_project_id (Download.project_name args_wait)
                (Download.projects world_with_folder)) = Return (Some pid)
    ∧ sw ∈ Download.statuses world_with_folder
    ∧ result (Download.get_analysis_status (Download.analysis_id args_wait) sw)
      = Return (Some "COMPLETED", Some fid)
    ∧ Download.makedirs world_with_folder = None
    ∧ Download.download_run world_with_folder = Completed 0 out err
    ∧ last (spawned (trace (Download.main args_wait world_with_folder)))
      = Some (Download.download_cmd pid fid (Download.output_dir args_wait))
    ∧ last (trace (Download.main args_wait world_with_folder))
      = Some (Stdout "Successfully downloaded results").
Proof.
  apply (exit_status_zero_means_downloaded args_wait world_with_folder).
  reflexivity.
Defined.

Lemma no_wait_asks_once_witness :
  ∃ st fid,
    result (Download.get_analysis_status (Download.analysis_id args_no_wait)
              (answered "{...}" "" "RUNNING" (Download.FolderId None)))
      = Return (st, fid)
    ∧ sleeps (trace (Download.main args_no_wait world_with_folder)) = []
    ∧ (st ≠ Some "COMPLETED" →
       result (Download.main args_no_wait world_with_folder) = Return (Finished 1)
       ∧ spawned (trace (Download.main args_no_wait world_with_folder))
         = [IcaCli.version_cmd; IcaCli.projects_list_cmd;
            Download.history_cmd (Download.analysis_id args_no_wait)]
       ∧ Stdout ("Analysis is not complete (status: " +:+ default "None" st +:+ ")")
           ∈ trace (Download.main args_no_wait world_with_folder)
       ∧ last (trace (Download.main args_no_wait world_with_folder))
         = Some (Stdout "Use --no-wait flag only when analysis is already complete")).
Proof.
  apply (no_wait_asks_once args_no_wait world_with_folder "p-17"
           (answered "{...}" "" "RUNNING" (Download.FolderId None))
           [answered "{...}" "" "RUNNING" (Download.FolderId None);
            answered "{...}" "" "COMPLETED" (Download.FolderId (Some "fol.9"))]);
    try reflexivity.
  discriminate.
Defined.

Lemma two_waiting_still_running : Forall still_running two_waiting.
Proof.
  repeat constructor; eexists _, _, _, _; repeat split; reflexivity.
Qed.

Lemma pipeline_monitor_ends_at_the_first_final_status_witness :
  result (Monitor.monitor_pipeline "demo" config_with_webhook "a-42" 300 two_waiting)
    = Return Polling
  ∧ spawned (trace (Monitor.monitor_pipeline "demo" config_with_webhook "a-42" 300
                      two_waiting))
    = replicate 2 (Monitor.analysis_cmd "demo" "a-42")
  ∧ sleeps (trace (Monitor.monitor_pipeline "demo" config_with_webhook "a-42" 300
                     two_waiting))
    = replicate 2 300
  ∧ mails (trace (Monitor.monitor_pipeline "demo" config_with_webhook "a-42" 300
                    two_waiting))
    = [].
Proof.
  assert (Hsleep : sleepable 300) by (unfold sleepable, sleep_max; lia).
  exact (proj1 (proj1 (pipeline_monitor_ends_at_the_first_final_status "demo"
                         config_with_webhook "a-42" 300 two_waiting
                         two_waiting_still_running) Hsleep)).
Defined.

(** After the reply [Failed] the monitor mails the status and returns the
    reply. *)
Example pipeline_monitor_reports_failed :
  result (Monitor.monitor_pipeline "demo" config_with_webhook "a-42" 300
            (two_waiting ++ [status_reply "Failed"]))
    = Return (Finished (<["status" := PStr "Failed"]> (<["id" := PStr "a-42"]> ∅)))
  ∧ mails (trace (Monitor.monitor_pipeline "demo" config_with_webhook "a-42" 300
                    (two_waiting ++ [status_reply "Failed"])))
    = [("Pipeline Failed", "Pipeline a-42 failed")].
Proof. split; reflexivity. Qed.

Lemma archive_cleans_up_after_every_download_witness :
  ∃ items,
    result (ProjectManager.list_data "demo" demo_strptime (Some 7) None
              (ProjectManager.ar_listing demo_archive)) = Return items
    ∧ ProjectManager.ar_mkdir demo_archive = None
    ∧ (∀ name, name ∈ ["runA"] ↔
         ∃ j item out err,
           items !! j = Some item ∧ ProjectManager.item_name item = name
           ∧ ProjectManager.ar_download demo_archive j = Completed 0 out err)
    ∧ spawned (trace (ProjectManager.archive_old_data "demo" demo_strptime
                        demo_join 7 "/archive" demo_archive))
      = ProjectManager.list_cmd "demo" None
        :: archive_commands "demo" demo_strptime demo_join 7 "/archive"
             demo_archive 0 items
    ∧ (∀ j item,
         items !! j = Some item →
         ProjectManager.download_cmd "demo" (ProjectManager.item_name item)
           (demo_join "/archive" (ProjectManager.item_name item))
           ∈ spawned (trace (ProjectManager.archive_old_data "demo" demo_strptime
                               demo_join 7 "/archive" demo_archive)))
    ∧ (∀ j item out err,
         items !! j = Some item →
         ProjectManager.ar_download demo_archive j = Completed 0 out err →
         ∀ c, c ∈ spawned (trace (ProjectManager.cleanup_old_data "demo" demo_strptime
                                    7 false (ProjectManager.ar_cleanup demo_archive j))) →
              c ∈ spawned (trace (ProjectManager.archive_old_data "demo" demo_strptime
                                    demo_join 7 "/archive" demo_archive))).
Proof.
  apply (archive_cleans_up_after_every_download "demo" demo_strptime demo_join
           7 "/archive" demo_archive ["runA"]).
  vm_compute. reflexivity.
Defined.

(** In that run the item [runB] is deleted from the project although its
    download failed, and the item [old], a month older than the limit, is
    neither downloaded nor deleted. *)
Example archive_deletes_what_it_did_not_download :
  ProjectManager.archive_old_data "demo" demo_strptime demo_join 7 "/archive"
    demo_archive
  = ([Spawn ["ica"; "projects"; "data"; "ls"; "demo"];
      Spawn ["ica"; "projects"; "data"; "download"; "demo"; "runA";
             "--output-file"; "/archive/runA"];
      Spawn ["ica"; "projects"; "data"; "ls"; "demo"];
      Spawn ["ica"; "projects"; "data"; "delete"; "demo"; "runA"];
      Spawn ["ica"; "projects"; "data"; "delete"; "demo"; "runB"];
      Spawn ["ica"; "projects"; "data"; "download"; "demo"; "runB";
             "--output-file"; "/archive/runB"];
      Stdout "Failed to archive runB: quota exceeded"],
     Return ["runA"]).
Proof. vm_compute. reflexivity. Qed.

Lemma three_reports_read :
  Forall2 (report_reads demo_float) three_readings three_changes.
Proof.
  repeat constructor; eexists _, _; (split; [reflexivity|]);
    (split; [|reflexivity]); intros l; reflexivity.
Qed.

Lemma three_levels_measurable :
  Forall measurable (in_force three_changes (Monitor.Levels None None)).
Proof. repeat constructor; by eexists _, _. Qed.

Lemma three_costs_read : Forall2 cost_reads three_readings [120; 100; 80]%float.
Proof. repeat constructor; by eexists _, _. Qed.

Lemma alerts_follow_the_readings_witness :
  (result (Monitor.monitor_storage "demo" config_with_webhook demo_float
             demo_float_text demo_fixed demo_unbound 90 3600 three_readings)
   = Return Polling
   ∧ mails (trace (Monitor.monitor_storage "demo" config_with_webhook demo_float
                     demo_float_text demo_fixed demo_unbound 90 3600 three_readings))
     = omap (storage_alert_of demo_fixed 90)
         (in_force three_changes (Monitor.Levels None None))
   ∧ warnings (trace (Monitor.monitor_storage "demo" config_with_webhook demo_float
                        demo_float_text demo_fixed demo_unbound 90 3600
                        three_readings))
     = (snd <$> omap (storage_alert_of demo_fixed 90)
                  (in_force three_changes (Monitor.Levels None None)))
   ∧ sleeps (trace (Monitor.monitor_storage "demo" config_with_webhook demo_float
                      demo_float_text demo_fixed demo_unbound 90 3600
                      three_readings))
     = replicate (length three_readings) 3600)
  ∧ (result (Monitor.monitor_costs "demo" config_with_webhook demo_float_text
               demo_fixed 100 3600 three_readings)
     = Return Polling
     ∧ mails (trace (Monitor.monitor_costs "demo" config_with_webhook
                       demo_float_text demo_fixed 100 3600 three_readings))
       = omap (cost_alert_of demo_fixed 100) [120; 100; 80]%float
     ∧ warnings (trace (Monitor.monitor_costs "demo" config_with_webhook
                          demo_float_text demo_fixed 100 3600 three_readings))
       = (snd <$> omap (cost_alert_of demo_fixed 100) [120; 100; 80]%float)
     ∧ sleeps (trace (Monitor.monitor_costs "demo" config_with_webhook
                        demo_float_text demo_fixed 100 3600 three_readings))
       = replicate (length three_readings) 3600).
Proof.
  assert (Hsleep : sleepable 3600) by (unfold sleepable, sleep_max; lia).
  exact (alerts_follow_the_readings "demo" config_with_webhook demo_float
           demo_float_text demo_fixed demo_unbound 90 100 3600
           three_readings three_changes three_readings [120; 100; 80]%float
           Hsleep three_reports_read three_levels_measurable three_costs_read).
Defined.

(** In that run the storage monitor alerts twice: at the first poll, and at
    the second, whose report gives neither value, on the values of the
    first; at the third it compares the 40 GB of the report with the 100 GB
    of the first one.  The cost monitor alerts at 120 and at 100, the
    budget itself. *)
Example monitors_on_three_readings :
  mails (trace (Monitor.monitor_storage "demo" config_with_webhook demo_float
                  demo_float_text demo_fixed demo_unbound 90 3600 three_readings))
  = [("Storage Usage Alert",
      Monitor.storage_alert demo_fixed 95 95 100);
     ("Storage Usage Alert",
      Monitor.storage_alert demo_fixed 95 95 100)]
  ∧ mails (trace (Monitor.monitor_costs "demo" config_with_webhook demo_float_text
                    demo_fixed 100 3600 three_readings))
    = [("Cost Alert", Monitor.cost_alert demo_fixed 120 100);
       ("Cost Alert", Monitor.cost_alert demo_fixed 100 100)].
Proof. split; vm_compute; reflexivity. Qed.

(** The first report of a storage monitor that gives no total ends it with
    the [UnboundLocalError] of [total_gb]. *)
Example storage_monitor_without_total :
  result (Monitor.monitor_storage "demo" config_with_webhook demo_float
            demo_float_text demo_fixed demo_unbound 90 3600
            [Monitor.Poll (Completed 0 ("Used: 40GB" +:+ PyStr.nl) "")
               (inr 80%float) (Monitor.Delivery None None)])
  = Raise (Exn OtherError (demo_unbound "total_gb")).
Proof. vm_compute. reflexivity. Qed.

(** A negative check interval ends a threshold monitor at its first sleep. *)
Example negative_interval_ends_the_cost_monitor :
  result (Monitor.monitor_costs "demo" config_with_webhook demo_float_text
            demo_fixed 100 (-5) three_readings)
  = Raise (Exn OtherError "sleep length must be non-negative")
  ∧ spawned (trace (Monitor.monitor_costs "demo" config_with_webhook
                      demo_float_text demo_fixed 100 (-5) three_readings))
    = [Monitor.costs_cmd "demo"]
  ∧ mails (trace (Monitor.monitor_costs "demo" config_with_webhook
                    demo_float_text demo_fixed 100 (-5) three_readings))
    = [("Cost Alert", Monitor.cost_alert demo_fixed 120 100)].
Proof. repeat split; vm_compute; reflexivity. Qed.

Lemma without_api_key_no_call_is_made_witness :
  (∀ a w, Sdk.DownloadResults.env w = ∅ →
     Sdk.DownloadResults.main demo_join demo_dirname a w
     = ([Sdk.Out no_key_line], Sdk.Exited 1))
  ∧ (∀ a w, Sdk.FolderUpload.env w = ∅ → Sdk.FolderUpload.is_dir w = true →
       Sdk.FolderUpload.main demo_abspath demo_join demo_relpath a w
       = ([Sdk.Out no_key_line], Sdk.Exited 1))
  ∧ (∀ a w, Sdk.FolderUpload.env w = ∅ →
       Sdk.api_calls (Sdk.actions (Sdk.FolderUpload.main demo_abspath demo_join
                                     demo_relpath a w)) = []
       ∧ Sdk.ended (Sdk.FolderUpload.main demo_abspath demo_join demo_relpath a w)
         = Sdk.Exited 1).
Proof.
  apply (without_api_key_no_call_is_made demo_abspath demo_join demo_dirname
           demo_relpath ∅).
  reflexivity.
Defined.

Lemma completion_wait_pauses_once_for_each_pending_status_witness :
  (Sdk.ended (Sdk.DownloadResults.wait_for_analysis_completion "proj" "an.1" 60
                [inr "REQUESTED"; inr "IN_PROGRESS"])
   = Sdk.Returned Polling
   ∧ Sdk.pauses (Sdk.actions (Sdk.DownloadResults.wait_for_analysis_completion
                                "proj" "an.1" 60
                                [inr "REQUESTED"; inr "IN_PROGRESS"]))
     = [60; 60])
  ∧ Sdk.ended (Sdk.DownloadResults.wait_for_analysis_completion "proj" "an.1" 60
                 [inr "REQUESTED"; inr "IN_PROGRESS"; inr "CANCELLED";
                  inr "SUCCEEDED"])
    = Sdk.Returned (Finished false)
  ∧ Sdk.pauses (Sdk.actions (Sdk.DownloadResults.wait_for_analysis_completion
                               "proj" "an.1" 60
                               [inr "REQUESTED"; inr "IN_PROGRESS"; inr "CANCELLED";
                                inr "SUCCEEDED"]))
    = [60; 60]
  ∧ Sdk.api_calls (Sdk.actions (Sdk.DownloadResults.wait_for_analysis_completion
                                  "proj" "an.1" 60
                                  [inr "REQUESTED"; inr "IN_PROGRESS";
                                   inr "CANCELLED"; inr "SUCCEEDED"]))
    = replicate 3 (Sdk.GetAnalysis "proj" "an.1").
Proof.
  assert (Hsleep : sleepable 60) by (unfold sleepable, sleep_max; lia).
  assert (Hpend : Forall (λ reply, keeps_waiting reply = true)
                    [inr "REQUESTED"; inr "IN_PROGRESS"]) by repeat constructor.
  exact (proj1 (completion_wait_pauses_once_for_each_pending_status "proj" "an.1" 60
                  [inr "REQUESTED"; inr "IN_PROGRESS"] [inr "SUCCEEDED"]
                  (inr "CANCELLED") Hpend eq_refl) Hsleep).
Defined.

(** With the interval -5 the same wait ends at its first status. *)
Example negative_interval_ends_the_wait :
  Sdk.DownloadResults.wait_for_analysis_completion "proj" "an.1" (-5)
    [inr "REQUESTED"; inr "IN_PROGRESS"; inr "SUCCEEDED"]
  = ([Sdk.Out "Monitoring analysis an.1...";
      Sdk.GetAnalysis "proj" "an.1"; Sdk.Out "Current status: REQUESTED"],
     Sdk.Raised (Sdk.OtherException
                   (Exn OtherError "sleep length must be non-negative"))).
Proof. vm_compute. reflexivity. Qed.


(** The actions of that run, in order. *)
Example results_script_run :
  Sdk.DownloadResults.main demo_join demo_dirname args_results world_results
  = ([Sdk.Out "Monitoring analysis an.1...";
      Sdk.GetAnalysis "proj" "an.1"; Sdk.Out "Current status: RUNNING";
      Sdk.Pause 60;
      Sdk.GetAnalysis "proj" "an.1"; Sdk.Out "Current status: SUCCEEDED";
      Sdk.GetAnalysis "proj" "an.1";
      Sdk.CreateDownloadSession "proj" ["fol.out"];
      Sdk.MakeDirs "out";
      Sdk.ListFilesInFolder "proj" "fol.out";
      Sdk.MakeDirs "out"; Sdk.Out "Downloading: a.vcf";
      Sdk.OpenWrite "out/a.vcf"; Sdk.DownloadFileContent "proj" "fil.1";
      Sdk.MakeDirs "out/qc"; Sdk.Out "Downloading: qc/b.txt";
      Sdk.OpenWrite "out/qc/b.txt"; Sdk.DownloadFileContent "proj" "fil.2";
      Sdk.Out "Successfully downloaded all files to: out"],
     Sdk.Returned (Finished tt)).
Proof. vm_compute. reflexivity. Qed.

(** A fetch that fails at the second of three files leaves the third
    untouched, and the file opened for the second is left behind. *)
Example download_stops_at_the_second_file :
  Sdk.DownloadResults.download_folder demo_join demo_dirname "proj" "fol.out" "out"
    folder_second_fails
  = ([Sdk.CreateDownloadSession "proj" ["fol.out"];
      Sdk.MakeDirs "out";
      Sdk.ListFilesInFolder "proj" "fol.out";
      Sdk.MakeDirs "out"; Sdk.Out "Downloading: a.vcf";
      Sdk.OpenWrite "out/a.vcf"; Sdk.DownloadFileContent "proj" "fil.1";
      Sdk.MakeDirs "out/qc"; Sdk.Out "Downloading: qc/b.txt";
      Sdk.OpenWrite "out/qc/b.txt"; Sdk.DownloadFileContent "proj" "fil.2";
      Sdk.Out "API error occurred: (404) Not Found"],
     Sdk.Exited 1).
Proof. vm_compute. reflexivity. Qed.

Lemma analysis_is_started_on_the_uploaded_folder_witness :
  ∃ folder_id,
    Sdk.ended (Sdk.FolderUpload.upload_folder demo_abspath demo_join demo_relpath
                 "run7" "proj" (world_upload (inr (inr [("ref", PStr "hg38")]))))
    = Sdk.Returned folder_id
    ∧ Sdk.FolderUpload.complete (world_upload (inr (inr [("ref", PStr "hg38")])))
      = inr folder_id
    ∧ ∃ items analysis_id,
        Sdk.FolderUpload.params_json (world_upload (inr (inr [("ref", PStr "hg38")])))
        = inr (inr items)
        ∧ Sdk.FolderUpload.analysis (world_upload (inr (inr [("ref", PStr "hg38")])))
          = inr analysis_id
        ∧ Sdk.api_calls
            (Sdk.actions (Sdk.FolderUpload.main demo_abspath demo_join demo_relpath
                            args_upload
                            (world_upload (inr (inr [("ref", PStr "hg38")])))))
          = Sdk.api_calls
              (Sdk.actions (Sdk.FolderUpload.upload_folder demo_abspath demo_join
                              demo_relpath "run7" "proj"
                              (world_upload (inr (inr [("ref", PStr "hg38")])))))
            ++ [Sdk.CreatePipelineAnalysis "proj" "pl-9" folder_id items]
        ∧ last (Sdk.outs (Sdk.actions
                        (Sdk.FolderUpload.main demo_abspath demo_join demo_relpath
                           args_upload
                           (world_upload (inr (inr [("ref", PStr "hg38")]))))))
          = Some ("Pipeline started successfully. You can monitor the analysis using the analysis ID: "
                  +:+ analysis_id).
Proof.
  apply (analysis_is_started_on_the_uploaded_folder demo_abspath demo_join
           demo_relpath args_upload
           (world_upload (inr (inr [("ref", PStr "hg38")])))).
  vm_compute. reflexivity.
Defined.

(** With parameters that are not JSON the folder is uploaded all the same,
    and the script ends with the exception of [json.loads]. *)
Example invalid_parameters_are_met_after_the_upload :
  Sdk.FolderUpload.main demo_abspath demo_join demo_relpath args_upload
    (world_upload (inl (Exn OtherError "Expecting value: line 1 column 1 (char 0)")))
  = ([Sdk.CreateFolderUploadSession "proj" "run7";
      Sdk.Out "Created upload session for folder: run7";
      Sdk.Out "Uploading: a.fastq";
      Sdk.OpenRead "/work/run7/a.fastq";
      Sdk.UploadFolderSessionFile "ses.1" "a.fastq";
      Sdk.Out "Uploading: lane1/b.fastq";
      Sdk.OpenRead "/work/run7/lane1/b.fastq";
      Sdk.UploadFolderSessionFile "ses.1" "lane1/b.fastq";
      Sdk.CompleteFolderUploadSession "ses.1";
      Sdk.Out "Successfully uploaded folder: run7"],
     Sdk.Raised (Sdk.OtherException
                   (Exn OtherError "Expecting value: line 1 column 1 (char 0)"))).
Proof. vm_compute. reflexivity. Qed.

Lemma generate_params_adds_no_other_key_witness :
  let s := panel_row in
  let params := custom_of s ∪ (BatchProcessor.pipeline_params s
                               ∪ BatchProcessor.base_params s) in
  result (BatchProcessor._generate_params s) = Return params
  ∧ dom params
    = dom (custom_of s) ∪ dom (BatchProcessor.pipeline_params s)
      ∪ ({["sample-id"; "reference-tar"; "output-directory"]} : gset string)
  ∧ params !! "vc-target-bed-padding" = Some (PInt 50)
  ∧ params !! "vc-target-bed" = Some (PStr "/beds/panel.bed")
  ∧ params !! "enable-map-align" = Some (PBool true).
Proof.
  intros s params.
  assert (Hparams : result (BatchProcessor._generate_params s) = Return params)
    by reflexivity.
  destruct (generate_params_adds_no_other_key s params Hparams)
    as (Hdom & Henrichment & _).
  split; [exact Hparams|]. split; [exact Hdom|].
  destruct (Henrichment eq_refl) as [_ Hvalue].
  split; [reflexivity|].
  split; [exact (Hvalue "vc-target-bed" eq_refl)|].
  exact (Hvalue "enable-map-align" eq_refl).
Defined.

(** An enrichment row without a target file keeps the key of the target,
    with the value [None], and the padding 100. *)
Example enrichment_without_target :
  ∃ params,
    BatchProcessor._generate_params enrichment_row = ([], Return params)
    ∧ params !! "vc-target-bed" = Some PNone
    ∧ params !! "vc-target-bed-padding" = Some (PInt 100).
Proof. eexists. split; [reflexivity|]. split; by vm_compute. Qed.

Lemma results_follow_the_sheet_witness :
  ∃ results,
    result (BatchProcessor.process_batch "demo" 5 batch3) = Return results
    ∧ res_sample_id <$> results
      = BatchProcessor.sample_id <$> sheet3
    ∧ (∀ i s, sheet3 !! i = Some s →
         results !! i = Some (row_for s (BatchProcessor.worlds batch3 i)))
    ∧ infos (trace (BatchProcessor.process_batch "demo" 5 batch3))
      = (λ r, "Sample " +:+ res_sample_id r +:+ " "
              +:+ res_status r) <$> results.
Proof.
  apply (results_follow_the_sheet "demo" 5 batch3 sheet3).
  repeat split; reflexivity.
Defined.

End concrete_runs.
